(** * mqcensor: a shallow embedding of the Pico 2 W sensor publisher

    The development follows [src/mqcensor.c] (the variant with watchdog,
    safe mode and reconnect logic) and [src/unnamed/part_000] (the earlier
    variant without them, in [Module Simple]).

    - machine integers are [Z] with the wrap-around of their C type written out;
    - [float] is IEEE 754 binary32, taken from the Standard Library's
      executable specification [SpecFloat] at precision 24 and emax 128;
    - the calls into the SDK by which the program acts (watchdog, scratch
      register, radio, LED, lwIP lock, MQTT client, i2c bus, sleep) are
      events of a trace, in the order the source makes them; their results
      and blocking times come from an environment record;
    - calls the source makes only for the value they return
      ([watchdog_caused_reboot], [cyw43_arch_init],
      [cyw43_tcpip_link_status], [mqtt_client_new]) have no event, the
      value comes from the environment; the set-up of stdio, of the i2c
      block and of its pins before the first sleep, and [ipaddr_aton] and
      [create_mqtt_client], which fill in local structures, are left out;
    - the clock advances by the time each blocking call takes: a sleep by
      its argument, a bus or wifi call by the time the environment gives;
      the computation in between takes no time;
    - the diagnostic output of [printf] is left out, except the reason
      printed before a requested reboot;
    - the main loop is a function from one environment per iteration to the
      next machine state and the events of that iteration. *)

From Stdlib Require Import ZArith Bool List String Ascii Lia.
From Stdlib Require Import Floats.SpecFloat.
Import ListNotations.
Open Scope Z_scope.

(** ** Constants of the source *)

Definition WD_TIMEOUT_MS : Z := 8000.
Definition DEADLINE_MS : Z := 300000.
Definition SAFE_REBOOTS : Z := 5.
Definition SUCCESS : Z := 6.
Definition PAYLOAD_SIZE : nat := 64.

(** Constants of the SDK headers the source compares against
    ([cyw43.h], [lwip/err.h], [lwip/apps/mqtt.h]). *)
Definition CYW43_LINK_UP : Z := 3.
Definition ERR_OK : Z := 0.
Definition MQTT_CONNECT_ACCEPTED : Z := 0.

(** ** Machine integers *)

Definition u32 (x : Z) : Z := x mod 2 ^ 32.
Definition i64 (x : Z) : Z := (x + 2 ^ 63) mod 2 ^ 64 - 2 ^ 63.

(** ** binary32 *)

Definition prec : Z := 24.
Definition emax : Z := 128.
Definition f32 : Type := spec_float.

Definition f32_of_Z (n : Z) : f32 := binary_normalize prec emax n 0 false.
Definition fmul : f32 -> f32 -> f32 := SFmul prec emax.
Definition fdiv : f32 -> f32 -> f32 := SFdiv prec emax.
Definition fsub : f32 -> f32 -> f32 := SFsub prec emax.
Definition feqb : f32 -> f32 -> bool := SFeqb.
Definition fleb : f32 -> f32 -> bool := SFleb.
Definition fltb : f32 -> f32 -> bool := SFltb.

(** The float literals of the two sources. *)
Definition f_0 : f32 := S754_zero false.
Definition f_m1 : f32 := Eval vm_compute in f32_of_Z (-1).
Definition f_m50 : f32 := Eval vm_compute in f32_of_Z (-50).
Definition f_m100 : f32 := Eval vm_compute in f32_of_Z (-100).
Definition f_50 : f32 := Eval vm_compute in f32_of_Z 50.
Definition f_100 : f32 := Eval vm_compute in f32_of_Z 100.
Definition f_150 : f32 := Eval vm_compute in f32_of_Z 150.
Definition f_200 : f32 := Eval vm_compute in f32_of_Z 200.
Definition f_1048576 : f32 := Eval vm_compute in f32_of_Z 1048576.

(** The value of a positive finite number [m * 2^e] in units of [2^-149],
    the smallest positive binary32 number. *)
Definition V (m : positive) (e : Z) : Z := Zpos m * 2 ^ (e + 149).

(** Normal numbers: a mantissa of exactly 24 bits, an exponent in range. *)
Definition canon (m : positive) (e : Z) : Prop :=
  2 ^ 23 <= Zpos m < 2 ^ 24 /\ -149 <= e <= 104.

(** ** Readings *)

Record AHT22Result : Type := new_aht22result { temp : f32; hum : f32 }.

Definition FAILRESULT : AHT22Result := new_aht22result f_m100 f_m100.

Definition is_failed (result : AHT22Result) : bool :=
  feqb (hum result) f_m100 || fleb (temp result) f_m100.

(** ** Sensor Reader *)

(** The six response bytes of the AHT20. *)
Record I2cBuf : Type := mk_buf { b0 : Byte.byte; b1 : Byte.byte; b2 : Byte.byte;
                                 b3 : Byte.byte; b4 : Byte.byte; b5 : Byte.byte }.

Definition byte_val (b : Byte.byte) : Z := Z.of_N (Byte.to_N b).

Definition raw_h (buf : I2cBuf) : Z :=
  u32 (Z.lor (Z.lor (u32 (Z.shiftl (byte_val (b1 buf)) 12))
                    (u32 (Z.shiftl (byte_val (b2 buf)) 4)))
             (Z.shiftr (byte_val (b3 buf)) 4)).

Definition raw_t (buf : I2cBuf) : Z :=
  u32 (Z.lor (Z.lor (u32 (Z.shiftl (Z.land (byte_val (b3 buf)) 15) 16))
                    (u32 (Z.shiftl (byte_val (b4 buf)) 8)))
             (byte_val (b5 buf))).

Definition hum_of_raw (raw : Z) : f32 :=
  fdiv (fmul (f32_of_Z raw) f_100) f_1048576.

Definition temp_of_raw (raw : Z) : f32 :=
  fsub (fdiv (fmul (f32_of_Z raw) f_200) f_1048576) f_50.

(** The part of [read_aht20] after the two bus calls: [r] is what
    [i2c_read_timeout_us] returned (the number of bytes read, or a negative
    error code) and [buf] the bytes it left in the buffer.  The result of the
    command write is discarded by the source and does not appear. *)
Definition aht20_result (r : Z) (buf : I2cBuf) : AHT22Result :=
  if r =? SUCCESS then
    let hum := hum_of_raw (raw_h buf) in
    let tmp := temp_of_raw (raw_t buf) in
    new_aht22result tmp hum
  else FAILRESULT.

(** ** Telemetry Formatter *)

Local Open Scope string_scope.

Definition digit_char (d : Z) : ascii := ascii_of_nat (48 + Z.to_nat d).

Fixpoint dec_digits (fuel : nat) (n : Z) (acc : string) : string :=
  match fuel with
  | O => acc
  | S fuel' =>
      let acc' := String (digit_char (n mod 10)) acc in
      if (n <? 10)%Z then acc' else dec_digits fuel' (n / 10) acc'
  end.

(** Decimal digits of a natural number (a binary number of [k] bits has at
    most [k] decimal digits, which bounds the recursion). *)
Definition dec (n : Z) : string := dec_digits (S (Z.to_nat (Z.log2 n))) n "".

(** The number a string of decimal digits denotes. *)
Fixpoint dec_value (s : string) : Z :=
  match s with
  | EmptyString => 0
  | String c s' =>
      (Z.of_nat (nat_of_ascii c) - 48) * 10 ^ Z.of_nat (String.length s') +
      dec_value s'
  end.

(** [|x| * 10] rounded to the nearest integer, ties to even, for
    [|x| = m * 2^e]. *)
Definition tenths (m : positive) (e : Z) : Z :=
  if (0 <=? e)%Z then Zpos m * 2 ^ e * 10
  else
    let n := Zpos m * 10 in
    let d := 2 ^ (- e) in
    let q := n / d in
    let r := n mod d in
    if (2 * r <? d)%Z then q
    else if (d <? 2 * r)%Z then q + 1
    else if Z.even q then q else q + 1.

Definition sign_str (s : bool) : string := if s then "-" else "".

(** The conversion [%.1f] of the C library: the value (a float promoted to
    double keeps its value) in decimal with one digit after the point. *)
Definition fmt_f1 (x : f32) : string :=
  match x with
  | S754_nan => "nan"
  | S754_infinity s => sign_str s ++ "inf"
  | S754_zero s => sign_str s ++ "0.0"
  | S754_finite s m e =>
      let t := tenths m e in
      sign_str s ++ dec (t / 10) ++ "." ++ dec (t mod 10)
  end.

(** [snprintf(buf, size, ...)]: the formatted text cut to [size - 1] bytes
    (the last byte of the buffer holds the terminating NUL). *)
Definition snprintf (size : nat) (text : string) : string :=
  substring 0 (size - 1) text.

(** The degree sign of the UTF-8 source is the two bytes C2 B0. *)
Definition degree : string :=
  String (ascii_of_nat 194) (String (ascii_of_nat 176) EmptyString).

Definition render (r : AHT22Result) : string :=
  "Temp=" ++ fmt_f1 (temp r) ++ degree ++ "C Hum=" ++ fmt_f1 (hum r) ++ "%".

(** The payload the loop body builds from the reading. *)
Definition format_payload (r : AHT22Result) : string :=
  if is_failed r then snprintf PAYLOAD_SIZE "failed"
  else snprintf PAYLOAD_SIZE (render r).

(** A string of decimal digits. *)
Definition is_digit (c : ascii) : bool :=
  (48 <=? nat_of_ascii c)%nat && (nat_of_ascii c <=? 57)%nat.

Fixpoint all_digits (s : string) : bool :=
  match s with
  | EmptyString => true
  | String c s' => is_digit c && all_digits s'
  end.

(** A zero or a normal number of magnitude below 256: the range in which
    the fields of a reading lie. *)
Definition moderate (x : f32) : Prop :=
  match x with
  | S754_zero _ => True
  | S754_finite _ m e => canon m e /\ e <= -16
  | _ => False
  end.

Local Close Scope string_scope.

(** ** Machine state, events and the program monad *)

(** Calls that leave the program, in the order they are made.  Times are
    microseconds since boot, as [get_absolute_time] counts them. *)
Inductive event : Type :=
| ScratchWrite (cnt : Z)               (* watchdog_hw->scratch[0] = cnt *)
| WatchdogEnable (timeout_ms : Z)      (* watchdog_enable *)
| WatchdogUpdate (t : Z)               (* watchdog_update, at time t *)
| WatchdogReboot                       (* watchdog_reboot(0, 0, 0) *)
| Printf (text : string)               (* printf, for the reason of a requested reboot *)
| StaMode                              (* cyw43_arch_enable_sta_mode *)
| WifiSetUp (up : bool)                (* cyw43_wifi_set_up *)
| WifiConnect                          (* cyw43_arch_wifi_connect_timeout_ms *)
| Led (on : bool)                      (* cyw43_arch_gpio_put on the LED pin *)
| LwipBegin                            (* cyw43_arch_lwip_begin *)
| LwipEnd                              (* cyw43_arch_lwip_end *)
| MqttClientConnect                    (* mqtt_client_connect *)
| LastOkStore (t : Z)                  (* last_ok = t *)
| I2cWrite                             (* i2c_write_timeout_us *)
| I2cRead                              (* i2c_read_timeout_us *)
| MqttPublish (payload : string)       (* mqtt_publish *)
| SleepMs (ms : Z).                    (* sleep_ms *)

Record Machine : Type := mk_machine {
  clock : Z;             (* microseconds since boot *)
  last_ok : Z;           (* static absolute_time_t last_ok *)
  safe_mode : bool;      (* local of main, set once by the bootloop guard *)
  mqtt_connected : bool; (* static volatile bool mqtt_connected *)
  scratch0 : Z           (* watchdog_hw->scratch[0] *)
}.

Definition Prog (A : Type) : Type := Machine -> A * Machine * list event.

Definition ret {A} (a : A) : Prog A := fun m => (a, m, []).

Definition bind {A B} (p : Prog A) (k : A -> Prog B) : Prog B :=
  fun m => let '(a, m1, t1) := p m in
           let '(b, m2, t2) := k a m1 in
           (b, m2, t1 ++ t2).

Notation "x <- p ;; k" := (bind p (fun x => k))
  (at level 61, p at next level, right associativity).
Notation "p ;; k" := (bind p (fun _ => k))
  (at level 61, right associativity).

Definition emit (e : event) : Prog unit := fun m => (tt, m, [e]).
Definition get {A} (f : Machine -> A) : Prog A := fun m => (f m, m, []).

Definition with_clock (c : Z) (m : Machine) : Machine :=
  mk_machine c (last_ok m) (safe_mode m) (mqtt_connected m) (scratch0 m).
Definition with_last_ok (t : Z) (m : Machine) : Machine :=
  mk_machine (clock m) t (safe_mode m) (mqtt_connected m) (scratch0 m).
Definition with_safe_mode (b : bool) (m : Machine) : Machine :=
  mk_machine (clock m) (last_ok m) b (mqtt_connected m) (scratch0 m).
Definition with_mqtt_connected (b : bool) (m : Machine) : Machine :=
  mk_machine (clock m) (last_ok m) (safe_mode m) b (scratch0 m).
Definition with_scratch0 (c : Z) (m : Machine) : Machine :=
  mk_machine (clock m) (last_ok m) (safe_mode m) (mqtt_connected m) c.

Definition elapse (us : Z) : Prog unit :=
  fun m => (tt, with_clock (clock m + us) m, []).
Definition set_last_ok (t : Z) : Prog unit :=
  fun m => (tt, with_last_ok t m, [LastOkStore t]).
Definition set_safe_mode (b : bool) : Prog unit :=
  fun m => (tt, with_safe_mode b m, []).
Definition set_mqtt_connected (b : bool) : Prog unit :=
  fun m => (tt, with_mqtt_connected b m, []).
Definition set_scratch0 (c : Z) : Prog unit :=
  fun m => (tt, with_scratch0 c m, [ScratchWrite c]).

Definition result_of {A} (r : A * Machine * list event) : A := fst (fst r).
Definition machine_of {A} (r : A * Machine * list event) : Machine := snd (fst r).
Definition trace_of {A} (r : A * Machine * list event) : list event := snd r.

(** A result with events put in front of its trace. *)
Definition prepend {A} (t : list event) (r : A * Machine * list event) :
  A * Machine * list event :=
  (fst (fst r), snd (fst r), t ++ snd r).

(** ** SDK calls *)

Definition get_absolute_time : Prog Z := get clock.

(** [absolute_time_diff_us] subtracts two 64-bit counters into an [int64_t]. *)
Definition absolute_time_diff_us (from to : Z) : Z := i64 (to - from).

Definition sleep_ms (ms : Z) : Prog unit :=
  emit (SleepMs ms) ;; elapse (ms * 1000).

(** ** Functions of [src/mqcensor.c] *)

(** C's [/] on [int64_t] truncates towards zero; the [uint32_t] bound is
    converted to [int64_t] for the comparison. *)
Definition ms_passed (t : Z) (ms : Z) : Prog bool :=
  now <- get_absolute_time ;;
  ret (Z.quot (absolute_time_diff_us t now) 1000 >? ms).

(** [cnt++] on a [uint32_t], or [cnt = 0]. *)
Definition guard_counter (watchdog_caused_reboot : bool) (cnt : Z) : Z :=
  if watchdog_caused_reboot then u32 (cnt + 1) else 0.

Definition wd_init_and_bootloop_guard (watchdog_caused_reboot : bool) : Prog bool :=
  cnt <- get scratch0 ;;
  let cnt := guard_counter watchdog_caused_reboot cnt in
  set_scratch0 cnt ;;
  emit (WatchdogEnable WD_TIMEOUT_MS) ;;
  ret (cnt >=? SAFE_REBOOTS).

Definition wd_feed : Prog unit :=
  now <- get clock ;; emit (WatchdogUpdate now).

Definition newline : string := String (ascii_of_nat 10) EmptyString.

(** [request_reboot_now] does not return: the caller stops after it. *)
Definition request_reboot_now (reason : string) : Prog unit :=
  emit (Printf ("WDT reboot requested: " ++ reason ++ newline)%string) ;;
  sleep_ms 50 ;;
  emit WatchdogReboot.

Definition link_is_up (st : Z) : bool := st =? CYW43_LINK_UP.

Definition mqtt_connection_cb (status : Z) : Prog unit :=
  if status =? MQTT_CONNECT_ACCEPTED then set_mqtt_connected true
  else set_mqtt_connected false.

(** ** The environment of one run *)

(** What the SDK answers during one iteration of the main loop. *)
Record CycleEnv : Type := mk_cycle {
  cb_status : list Z;   (* statuses handed to mqtt_connection_cb since the last read of the flag *)
  link_status : Z;      (* cyw43_tcpip_link_status *)
  wifi_r : Z;           (* cyw43_arch_wifi_connect_timeout_ms: result ... *)
  wifi_us : Z;          (* ... and the time it blocked *)
  mqtt_err : Z;         (* mqtt_client_connect *)
  i2c_w_r : Z;          (* i2c_write_timeout_us: result, which the source discards ... *)
  i2c_w_us : Z;         (* ... and the time it blocked *)
  i2c_r : Z;            (* i2c_read_timeout_us: result ... *)
  i2c_r_us : Z;         (* ... the time it blocked ... *)
  i2c_buf : I2cBuf      (* ... and the bytes in the buffer *)
}.

(** What the SDK answers before the main loop. *)
Record BootEnv : Type := mk_boot {
  watchdog_caused_reboot : bool;
  arch_init_r : Z;              (* cyw43_arch_init *)
  boot_wifi : list (Z * Z);     (* result and blocking time of each wifi_connect of the boot loop *)
  client_new_ok : bool;         (* mqtt_client_new returned a client *)
  boot_mqtt_err : Z;            (* mqtt_client_connect *)
  wait_cb : list (list Z)       (* callbacks before each test of the wait loop *)
}.

(** The connection callback runs in the background context of the network
    stack; the loop only ever reads the flag, so the callbacks since the last
    read are delivered just before the next one. *)
Fixpoint deliver_callbacks (statuses : list Z) : Prog unit :=
  match statuses with
  | [] => ret tt
  | st :: rest => mqtt_connection_cb st ;; deliver_callbacks rest
  end.

Definition wifi_connect (r us : Z) : Prog bool :=
  emit WifiConnect ;; elapse us ;; ret (r =? 0).

Definition read_aht20 (e : CycleEnv) : Prog AHT22Result :=
  emit I2cWrite ;; elapse (i2c_w_us e) ;;
  sleep_ms 80 ;;
  emit I2cRead ;; elapse (i2c_r_us e) ;;
  ret (aht20_result (i2c_r e) (i2c_buf e)).

Definition wifi_mqtt_conn_init (e : CycleEnv) : Prog bool :=
  ok <- wifi_connect (wifi_r e) (wifi_us e) ;;
  if negb ok then ret false
  else
    emit LwipBegin ;;
    emit MqttClientConnect ;;
    emit LwipEnd ;;
    if negb (mqtt_err e =? ERR_OK) then ret false
    else emit (Led true) ;; ret true.

(** ** [main] *)

Inductive control : Type :=
| Continue   (* the loop goes on to its next iteration *)
| Halted.    (* request_reboot_now was called *)

(** The health test of the loop, on the two signals it reads. *)
Definition health_state (st : Z) (connected : bool) : bool :=
  link_is_up st && connected.

(** From the deadline test to the end of the loop body. *)
Definition escalate_and_publish (e : CycleEnv) : Prog control :=
  safe <- get safe_mode ;;
  t <- get last_ok ;;
  passed <- ms_passed t DEADLINE_MS ;;
  if negb safe && passed then
    request_reboot_now "no recovery >5min" ;; ret Halted
  else
    r <- read_aht20 e ;;
    emit LwipBegin ;;
    emit (MqttPublish (format_payload r)) ;;
    emit LwipEnd ;;
    sleep_ms 1000 ;;
    ret Continue.

(** One iteration of [while (true)]. *)
Definition loop_body (e : CycleEnv) : Prog control :=
  wd_feed ;;
  deliver_callbacks (cb_status e) ;;
  connected <- get mqtt_connected ;;
  if health_state (link_status e) connected then
    now <- get_absolute_time ;;
    set_last_ok now ;;
    escalate_and_publish e
  else
    is_success <- wifi_mqtt_conn_init e ;;
    if negb is_success then
      sleep_ms 1000 ;; ret Continue
    else escalate_and_publish e.

Fixpoint main_loop (es : list CycleEnv) : Prog control :=
  match es with
  | [] => ret Continue
  | e :: es' =>
      c <- loop_body e ;;
      match c with
      | Continue => main_loop es'
      | Halted => ret Halted
      end
  end.

Inductive boot : Type :=
| Exit (code : Z)   (* main returned *)
| Stuck             (* still in one of the two waiting loops *)
| Enter.            (* the main loop is entered *)

(** [while (!wifi_connect()) sleep_ms(2000);] *)
Fixpoint boot_connect (attempts : list (Z * Z)) : Prog bool :=
  match attempts with
  | [] => ret false
  | (r, us) :: rest =>
      ok <- wifi_connect r us ;;
      if ok then ret true else sleep_ms 2000 ;; boot_connect rest
  end.

(** [while (!mqtt_connected) sleep_ms(10);] *)
Fixpoint wait_connected (polls : list (list Z)) : Prog bool :=
  match polls with
  | [] => ret false
  | cbs :: rest =>
      deliver_callbacks cbs ;;
      connected <- get mqtt_connected ;;
      if connected then ret true else sleep_ms 10 ;; wait_connected rest
  end.

(** The branch of [main] on [safe_mode]: join the network, or switch the
    radio interface off. *)
Definition boot_radio (b : BootEnv) (safe : bool) : Prog bool :=
  if negb safe then
    ok <- boot_connect (boot_wifi b) ;;
    if ok then emit (Led true) ;; ret true else ret false
  else
    emit (WifiSetUp false) ;; emit (Led false) ;; ret true.

(** From [mqtt_client_new] to the entry of the main loop. *)
Definition boot_session (b : BootEnv) : Prog boot :=
  if negb (client_new_ok b) then ret (Exit (-1))
  else
    emit LwipBegin ;;
    emit MqttClientConnect ;;
    emit LwipEnd ;;
    if negb (boot_mqtt_err b =? ERR_OK) then ret (Exit (-1))
    else
      connected <- wait_connected (wait_cb b) ;;
      if negb connected then ret Stuck
      else
        now <- get_absolute_time ;;
        set_last_ok now ;;
        ret Enter.

(** [main] after the bootloop guard, up to the main loop. *)
Definition boot_after_guard (b : BootEnv) (safe : bool) : Prog boot :=
  if negb (arch_init_r b =? 0) then ret (Exit (-1))
  else
    emit StaMode ;;
    joined <- boot_radio b safe ;;
    if negb joined then ret Stuck else boot_session b.

Definition main_boot (b : BootEnv) : Prog boot :=
  sleep_ms 1500 ;;
  set_safe_mode false ;;
  safe <- wd_init_and_bootloop_guard (watchdog_caused_reboot b) ;;
  set_safe_mode safe ;;
  boot_after_guard b safe.

Definition main (b : BootEnv) (es : list CycleEnv) : Prog (boot * control) :=
  st <- main_boot b ;;
  match st with
  | Enter => c <- main_loop es ;; ret (Enter, c)
  | _ => ret (st, Continue)
  end.

(** The machine at reset: statics are zero, the scratch register keeps the
    value the previous boot left. *)
Definition reset_machine (scratch : Z) : Machine :=
  mk_machine 0 0 false false scratch.

(** ** The earlier variant ([src/unnamed/part_000]) *)

Module Simple.

Definition FAILRESULT : AHT22Result := new_aht22result f_m1 f_m1.

Definition is_failed (result : AHT22Result) : bool :=
  fleb (hum result) f_0 || fleb (temp result) f_0.

Definition aht20_result (r : Z) (buf : I2cBuf) : AHT22Result :=
  if r =? SUCCESS then
    let hum := hum_of_raw (raw_h buf) in
    let tmp := temp_of_raw (raw_t buf) in
    new_aht22result tmp hum
  else FAILRESULT.

Definition format_payload (r : AHT22Result) : string :=
  if is_failed r then snprintf PAYLOAD_SIZE "failed"
  else snprintf PAYLOAD_SIZE (render r).

Definition read_aht20 (e : CycleEnv) : Prog AHT22Result :=
  emit I2cWrite ;; elapse (i2c_w_us e) ;;
  sleep_ms 80 ;;
  emit I2cRead ;; elapse (i2c_r_us e) ;;
  ret (aht20_result (i2c_r e) (i2c_buf e)).

(** One iteration of its [while (true)]: read, format, publish, sleep.
    This variant calls [mqtt_publish] without taking the lwIP lock. *)
Definition loop_body (e : CycleEnv) : Prog control :=
  r <- read_aht20 e ;;
  emit (MqttPublish (format_payload r)) ;;
  sleep_ms 1000 ;;
  ret Continue.

(** The two flags the connection callback of this variant writes;
    [mqtt_failed] is never read. *)
Record Flags : Type := mk_flags { connected : bool; failed : bool }.

Definition reset_flags : Flags := mk_flags false false.

Definition mqtt_connection_cb (status : Z) (f : Flags) : Flags :=
  if status =? MQTT_CONNECT_ACCEPTED then mk_flags true (failed f)
  else mk_flags (connected f) true.

Definition deliver_callbacks (statuses : list Z) (f : Flags) : Flags :=
  fold_left (fun f st => mqtt_connection_cb st f) statuses f.

(** What the SDK answers before its main loop. *)
Record BootEnv : Type := mk_boot {
  s_arch_init_r : Z;          (* cyw43_arch_init *)
  s_wifi_r : Z;               (* cyw43_arch_wifi_connect_timeout_ms: result ... *)
  s_wifi_us : Z;              (* ... and the time it blocked *)
  s_client_new_ok : bool;     (* mqtt_client_new returned a client *)
  s_mqtt_err : Z;             (* mqtt_client_connect *)
  s_wait_cb : list (list Z)   (* callbacks before each test of the wait loop *)
}.

(** [while (!mqtt_connected) sleep_ms(10);] *)
Fixpoint wait_connected (polls : list (list Z)) (f : Flags) : Prog (bool * Flags) :=
  match polls with
  | [] => ret (false, f)
  | cbs :: rest =>
      let f' := deliver_callbacks cbs f in
      if connected f' then ret (true, f')
      else sleep_ms 10 ;; wait_connected rest f'
  end.

(** [main] up to its main loop. *)
Definition main_boot (b : BootEnv) (f : Flags) : Prog (boot * Flags) :=
  sleep_ms 1500 ;;
  if negb (s_arch_init_r b =? 0) then ret (Exit (-1), f)
  else
    emit StaMode ;;
    emit WifiConnect ;; elapse (s_wifi_us b) ;;
    if negb (s_wifi_r b =? 0) then ret (Exit (-1), f)
    else
      emit (Led true) ;;
      if negb (s_client_new_ok b) then ret (Exit (-1), f)
      else
        emit LwipBegin ;;
        emit MqttClientConnect ;;
        emit LwipEnd ;;
        if negb (s_mqtt_err b =? ERR_OK) then ret (Exit (-1), f)
        else
          w <- wait_connected (s_wait_cb b) f ;;
          if fst w then ret (Enter, snd w) else ret (Stuck, snd w).

Fixpoint main_loop (es : list CycleEnv) : Prog control :=
  match es with
  | [] => ret Continue
  | e :: es' => loop_body e ;; main_loop es'
  end.

End Simple.

(** ** Observations on runs *)

(** The flag after the callbacks of [statuses] have run. *)
Definition flag_after (statuses : list Z) (flag : bool) : bool :=
  fold_left (fun _ st => st =? MQTT_CONNECT_ACCEPTED) statuses flag.

(** The value of [mqtt_connected] the loop body reads in this iteration. *)
Definition connected_of (e : CycleEnv) (m : Machine) : bool :=
  flag_after (cb_status e) (mqtt_connected m).

(** The health test as this iteration evaluates it. *)
Definition healthy (e : CycleEnv) (m : Machine) : bool :=
  health_state (link_status e) (connected_of e m).

(** The deadline test of the loop on the machine it finds. *)
Definition deadline_passed (m : Machine) : bool :=
  Z.quot (absolute_time_diff_us (last_ok m) (clock m)) 1000 >? DEADLINE_MS.

(** Whether the soft recovery of this iteration succeeds, and its calls. *)
Definition reconnect_ok (e : CycleEnv) : bool :=
  (wifi_r e =? 0) && (mqtt_err e =? ERR_OK).

Definition reconnect_trace (e : CycleEnv) : list event :=
  WifiConnect ::
  (if wifi_r e =? 0 then
     LwipBegin :: MqttClientConnect :: LwipEnd ::
     (if mqtt_err e =? ERR_OK then [Led true] else [])
   else []).

(** Every event of every run of [p] satisfies [P]. *)
Definition emits_only {A} (P : event -> bool) (p : Prog A) : Prop :=
  forall m, forallb P (trace_of (p m)) = true.

(** No run of [p] changes the component [f] of the machine. *)
Definition preserves {A X} (f : Machine -> X) (p : Prog A) : Prop :=
  forall m, f (machine_of (p m)) = f m.

Definition is_last_ok_store (ev : event) : bool :=
  match ev with LastOkStore _ => true | _ => false end.

Definition is_scratch_write (ev : event) : bool :=
  match ev with ScratchWrite _ => true | _ => false end.

Definition is_wifi_connect (ev : event) : bool :=
  match ev with WifiConnect => true | _ => false end.

Definition is_reboot (ev : event) : bool :=
  match ev with WatchdogReboot => true | _ => false end.

(** The times at which the watchdog was fed. *)
Fixpoint feed_times (t : list event) : list Z :=
  match t with
  | [] => []
  | WatchdogUpdate u :: t' => u :: feed_times t'
  | _ :: t' => feed_times t'
  end.

(** The counter a boot leaves in the scratch register, from the one it found. *)
Definition next_counter (caused : bool) (cnt : Z) : Z :=
  scratch0 (machine_of (wd_init_and_bootloop_guard caused (reset_machine cnt))).

Definition is_watchdog_enable (ev : event) : bool :=
  match ev with WatchdogEnable _ => true | _ => false end.

(** The calls that concern the watchdog and its scratch register. *)
Definition is_watchdog (ev : event) : bool :=
  match ev with
  | ScratchWrite _ | WatchdogEnable _ | WatchdogUpdate _ | WatchdogReboot => true
  | _ => false
  end.

Definition is_feed (ev : event) : bool :=
  match ev with WatchdogUpdate _ => true | _ => false end.

Definition is_i2c (ev : event) : bool :=
  match ev with I2cWrite | I2cRead => true | _ => false end.

(** The payloads handed to [mqtt_publish], in order. *)
Fixpoint publishes (t : list event) : list string :=
  match t with
  | [] => []
  | MqttPublish p :: t' => p :: publishes t'
  | _ :: t' => publishes t'
  end.

(** The same answers of the SDK, but for the result of the command write. *)
Definition with_i2c_w_r (w : Z) (e : CycleEnv) : CycleEnv :=
  mk_cycle (cb_status e) (link_status e) (wifi_r e) (wifi_us e) (mqtt_err e)
           w (i2c_w_us e) (i2c_r e) (i2c_r_us e) (i2c_buf e).

(** No blocking call of the iteration takes negative time. *)
Definition nonneg_times (e : CycleEnv) : Prop :=
  0 <= wifi_us e /\ 0 <= i2c_w_us e /\ 0 <= i2c_r_us e.

(** Both bus calls return within the 3000 us timeout the source passes. *)
Definition bus_in_time (e : CycleEnv) : Prop :=
  i2c_w_us e <= 3000 /\ i2c_r_us e <= 3000.

(** The time of an iteration that reconnects, reads and publishes. *)
Definition cycle_time (e : CycleEnv) : Z :=
  wifi_us e + i2c_w_us e + 80 * 1000 + i2c_r_us e + 1000 * 1000.

Definition total_time (es : list CycleEnv) : Z :=
  fold_right (fun e s => cycle_time e + s) 0 es.

(** Whether the wait loop of the boot sees the flag set within [polls]. *)
Fixpoint connects (polls : list (list Z)) (flag : bool) : bool :=
  match polls with
  | [] => false
  | cbs :: rest =>
      let f := flag_after cbs flag in
      f || connects rest f
  end.

(** The time the connect calls of [attempts] block. *)
Definition blocked (attempts : list (Z * Z)) : Z :=
  fold_right (fun a s => snd a + s) 0 attempts.

(** The time the connect loop of the boot takes: each failed attempt is
    followed by the 2000 ms sleep. *)
Fixpoint connect_time (attempts : list (Z * Z)) : Z :=
  match attempts with
  | [] => 0
  | (r, us) :: rest =>
      if r =? 0 then us else us + 2000 * 1000 + connect_time rest
  end.

(** The time the wait loop of the boot takes: 10 ms for each test that
    finds the flag clear. *)
Fixpoint wait_time (polls : list (list Z)) (flag : bool) : Z :=
  match polls with
  | [] => 0
  | cbs :: rest =>
      let f := flag_after cbs flag in
      if f then 0 else 10 * 1000 + wait_time rest f
  end.

(** [n] failed rounds of the boot loop. *)
Definition retries (n : nat) : list event :=
  List.concat (repeat [WifiConnect; SleepMs 2000] n).

(** Environments used as examples. *)
Definition sample_buf : I2cBuf :=
  mk_buf Byte.x1c Byte.x7a Byte.x3f Byte.x15 Byte.x9e Byte.x22.

(** A response with humidity 50 % and temperature -50 degrees. *)
Definition cold_buf : I2cBuf :=
  mk_buf Byte.x00 Byte.x80 Byte.x00 Byte.x00 Byte.x00 Byte.x00.

(** A response with humidity 50 % and temperature 0 degrees. *)
Definition freezing_buf : I2cBuf :=
  mk_buf Byte.x1c Byte.x80 Byte.x00 Byte.x04 Byte.x00 Byte.x00.

(** Link up, session connected, sensor answers. *)
Definition cycle_ok : CycleEnv := mk_cycle [] 3 0 0 0 3 400 6 600 sample_buf.

(** Link up, session connected, the sensor read times out. *)
Definition cycle_sensor_timeout : CycleEnv :=
  mk_cycle [] 3 0 0 0 3 400 (-2) 3000 sample_buf.

(** Link up, session connected; the command write times out
    (PICO_ERROR_TIMEOUT after the 3000 us the source allows), the read that
    follows delivers six bytes. *)
Definition cycle_write_timeout : CycleEnv :=
  mk_cycle [] 3 0 0 0 (-2) 3000 6 600 sample_buf.

(** Link down and the access point does not answer: the connect call runs
    into the 30000 ms timeout the source passes and returns an error. *)
Definition cycle_link_down : CycleEnv :=
  mk_cycle [] 0 (-2) 30000000 0 3 400 6 600 sample_buf.

(** Link down; the connect calls report success after 4 s, but the link
    status has not changed when the loop looks again. *)
Definition cycle_reconnected : CycleEnv :=
  mk_cycle [] 0 0 4000000 0 3 400 6 600 sample_buf.

(** Link down, the passphrase is refused: the connect call returns
    PICO_ERROR_BADAUTH after 2 s. *)
Definition cycle_bad_auth : CycleEnv :=
  mk_cycle [] 0 (-7) 2000000 0 3 400 6 600 sample_buf.

(** A boot after a watchdog reset that finds 4 in the scratch register; the
    broker session is reported accepted at the third test of the wait loop. *)
Definition boot_fifth_watchdog : BootEnv :=
  mk_boot true 0 [] true 0 [[]; []; [0]].

(** A cold boot in which the first connect call runs into its 30000 ms
    timeout and the second joins after 4 s; the session is accepted at the
    second test of the wait loop. *)
Definition boot_slow_join : BootEnv :=
  mk_boot false 0 [(-2, 30000000); (0, 4000000)] true 0 [[]; [0]].

(** The machine when that boot enters the main loop: Safe Mode is selected. *)
Definition safe_machine : Machine :=
  machine_of (main_boot boot_fifth_watchdog (reset_machine 4)).

(** * Proofs *)

(** ** Closed forms of the loop body *)

Lemma deliver_callbacks_spec (cbs : list Z) (m : Machine) :
  deliver_callbacks cbs m =
  (tt, with_mqtt_connected (flag_after cbs (mqtt_connected m)) m, []).
Proof.
  revert m. induction cbs as [|st cbs IH]; intros [c l s f x].
  - reflexivity.
  - cbn [deliver_callbacks]. unfold bind at 1.
    unfold mqtt_connection_cb.
    destruct (st =? MQTT_CONNECT_ACCEPTED) eqn:E;
      cbv [set_mqtt_connected]; rewrite IH; cbn; unfold flag_after; cbn;
      rewrite E; reflexivity.
Qed.

Lemma wifi_mqtt_conn_init_spec (e : CycleEnv) (m : Machine) :
  wifi_mqtt_conn_init e m =
  (reconnect_ok e, with_clock (clock m + wifi_us e) m, reconnect_trace e).
Proof.
  destruct m as [c l s f x].
  unfold wifi_mqtt_conn_init, reconnect_ok, reconnect_trace, wifi_connect.
  cbv [bind emit elapse ret with_clock clock last_ok safe_mode mqtt_connected scratch0].
  destruct (wifi_r e =? 0); cbn; [|reflexivity].
  destruct (mqtt_err e =? ERR_OK); reflexivity.
Qed.

Lemma escalate_and_publish_spec (e : CycleEnv) (m : Machine) :
  escalate_and_publish e m =
  if negb (safe_mode m) && deadline_passed m then
    (Halted, with_clock (clock m + 50 * 1000) m,
     [Printf ("WDT reboot requested: no recovery >5min" ++ newline)%string;
      SleepMs 50; WatchdogReboot])
  else
    (Continue,
     with_clock (clock m + i2c_w_us e + 80 * 1000 + i2c_r_us e + 1000 * 1000) m,
     [I2cWrite; SleepMs 80; I2cRead; LwipBegin;
      MqttPublish (format_payload (aht20_result (i2c_r e) (i2c_buf e)));
      LwipEnd; SleepMs 1000]).
Proof.
  destruct m as [c l s f x].
  unfold escalate_and_publish, deadline_passed.
  cbv [bind get ms_passed get_absolute_time ret clock last_ok safe_mode].
  destruct (negb s && _); reflexivity.
Qed.

Lemma loop_body_spec (e : CycleEnv) (m : Machine) :
  loop_body e m =
  let m0 := with_mqtt_connected (connected_of e m) m in
  if healthy e m then
    prepend [WatchdogUpdate (clock m); LastOkStore (clock m)]
            (escalate_and_publish e (with_last_ok (clock m) m0))
  else if reconnect_ok e then
    prepend (WatchdogUpdate (clock m) :: reconnect_trace e)
            (escalate_and_publish e (with_clock (clock m + wifi_us e) m0))
  else
    (Continue, with_clock (clock m + wifi_us e + 1000 * 1000) m0,
     WatchdogUpdate (clock m) :: reconnect_trace e ++ [SleepMs 1000]).
Proof.
  unfold loop_body. unfold bind at 1. unfold wd_feed at 1.
  unfold bind at 1. cbv [get emit]. unfold bind at 1.
  rewrite deliver_callbacks_spec. unfold bind at 1.
  replace (mqtt_connected (with_mqtt_connected _ m)) with (connected_of e m)
    by (destruct m; reflexivity).
  fold (healthy e m). cbv zeta.
  destruct (healthy e m).
  - unfold bind at 1. unfold get_absolute_time, get.
    unfold bind at 1. unfold set_last_ok.
    destruct m as [c l s f x]. cbn [with_mqtt_connected with_last_ok clock last_ok safe_mode mqtt_connected scratch0].
    destruct (escalate_and_publish e _) as [[r m2] t]. reflexivity.
  - unfold bind at 1. rewrite wifi_mqtt_conn_init_spec.
    destruct (reconnect_ok e); cbn [negb].
    + destruct m as [c l s f x]. cbn [with_mqtt_connected with_clock clock last_ok safe_mode mqtt_connected scratch0].
      destruct (escalate_and_publish e _) as [[r m2] t]. reflexivity.
    + destruct m as [c l s f x].
      cbv [bind sleep_ms emit elapse ret with_mqtt_connected with_clock
           clock last_ok safe_mode mqtt_connected scratch0].
      cbn [app]. reflexivity.
Qed.

Lemma bind_spec {A B} (p : Prog A) (k : A -> Prog B) (m : Machine) :
  bind p k m = prepend (trace_of (p m)) (k (result_of (p m)) (machine_of (p m))).
Proof.
  unfold bind, prepend, trace_of, result_of, machine_of.
  destruct (p m) as [[a m1] t1]. cbn.
  destruct (k a m1) as [[b m2] t2]. reflexivity.
Qed.

Lemma trace_prepend {A} (t : list event) (r : A * Machine * list event) :
  trace_of (prepend t r) = t ++ trace_of r.
Proof. reflexivity. Qed.

Lemma machine_prepend {A} (t : list event) (r : A * Machine * list event) :
  machine_of (prepend t r) = machine_of r.
Proof. reflexivity. Qed.

Lemma result_prepend {A} (t : list event) (r : A * Machine * list event) :
  result_of (prepend t r) = result_of r.
Proof. reflexivity. Qed.

(** Case analysis on the branches of one iteration. *)
Ltac loop_cases e m :=
  rewrite (loop_body_spec e m); cbv zeta;
  repeat rewrite escalate_and_publish_spec;
  unfold reconnect_trace, reconnect_ok;
  destruct (healthy e m) eqn:Hhealthy;
  [ | destruct (wifi_r e =? 0) eqn:Hwifi;
      [ destruct (mqtt_err e =? ERR_OK) eqn:Hmqtt | ] ];
  cbn [andb];
  repeat match goal with
         | |- context [if negb ?s && ?d then _ else _] =>
             destruct (negb s && d) eqn:?
         end;
  cbn [prepend trace_of machine_of result_of fst snd app].

(** ** The health predicate *)

Lemma health_state_true (st : Z) (c : bool) :
  health_state st c = true <-> st = CYW43_LINK_UP /\ c = true.
Proof.
  unfold health_state, link_is_up.
  rewrite andb_true_iff, Z.eqb_eq. tauto.
Qed.

Lemma flag_after_last (cbs : list Z) (st : Z) (flag : bool) :
  flag_after (cbs ++ [st]) flag = (st =? MQTT_CONNECT_ACCEPTED).
Proof. unfold flag_after. rewrite fold_left_app. reflexivity. Qed.

(** C6: the health test of an iteration is the conjunction of the link
    status being "up" and the session flag being set, on each of the four
    combinations of the two signals; the flag is what the latest connection
    callback reported; and the branch an iteration takes is decided by the
    signals of that iteration alone: it stores [last_ok] exactly when both
    are true and starts the soft recovery exactly when they are not. *)
Theorem health_predicate_truth_table :
  (forall st c,
      health_state st c =
      match link_is_up st, c with
      | true, true => true
      | true, false => false
      | false, true => false
      | false, false => false
      end) /\
  (forall st, link_is_up st = true <-> st = CYW43_LINK_UP) /\
  (forall st c, health_state st c = true <-> st = CYW43_LINK_UP /\ c = true) /\
  (forall cbs st flag,
      flag_after (cbs ++ [st]) flag = true <-> st = MQTT_CONNECT_ACCEPTED) /\
  (forall flag, flag_after [] flag = flag) /\
  (forall e m,
      (In (LastOkStore (clock m)) (trace_of (loop_body e m)) <->
       link_status e = CYW43_LINK_UP /\ connected_of e m = true) /\
      (In WifiConnect (trace_of (loop_body e m)) <->
       ~ (link_status e = CYW43_LINK_UP /\ connected_of e m = true))).
Proof.
  split; [|split; [|split; [|split; [|split]]]].
  - intros st c. unfold health_state. destruct (link_is_up st), c; reflexivity.
  - intros st. unfold link_is_up. apply Z.eqb_eq.
  - apply health_state_true.
  - intros cbs st flag. rewrite flag_after_last. apply Z.eqb_eq.
  - reflexivity.
  - intros e m.
    rewrite <- (health_state_true (link_status e) (connected_of e m)).
    fold (healthy e m).
    loop_cases e m; cbn [In];
      (split; split; intros H;
       repeat match goal with
              | H : _ \/ _ |- _ => destruct H
              | H : False |- _ => destruct H
              | H : _ = _ |- _ => discriminate H
              | H : ~ (false = true) |- _ => clear H
              | H : ~ (true = true) |- _ => exfalso; apply H; reflexivity
              end;
       try reflexivity; try discriminate; try (now auto); try (now intuition)).
Qed.

(** ** Frame rules: what a program emits and what it leaves unchanged *)

Section Frames.

Context (P : event -> bool).

Lemma emits_ret {A} (a : A) : emits_only P (ret a).
Proof. intros m. reflexivity. Qed.

Lemma emits_get {A} (f : Machine -> A) : emits_only P (get f).
Proof. intros m. reflexivity. Qed.

Lemma emits_bind {A B} (p : Prog A) (k : A -> Prog B) :
  emits_only P p -> (forall a, emits_only P (k a)) -> emits_only P (bind p k).
Proof.
  intros Hp Hk m. rewrite bind_spec, trace_prepend, forallb_app.
  rewrite Hp, Hk. reflexivity.
Qed.

Lemma emits_emit (ev : event) : P ev = true -> emits_only P (emit ev).
Proof. intros H m. cbn. rewrite H. reflexivity. Qed.

Lemma emits_elapse (us : Z) : emits_only P (elapse us).
Proof. intros m. reflexivity. Qed.

Lemma emits_set_mqtt_connected (b : bool) : emits_only P (set_mqtt_connected b).
Proof. intros m. reflexivity. Qed.

Lemma emits_set_safe_mode (b : bool) : emits_only P (set_safe_mode b).
Proof. intros m. reflexivity. Qed.

Lemma emits_deliver_callbacks (cbs : list Z) : emits_only P (deliver_callbacks cbs).
Proof. intros m. rewrite deliver_callbacks_spec. reflexivity. Qed.

Lemma emits_sleep_ms (ms : Z) : P (SleepMs ms) = true -> emits_only P (sleep_ms ms).
Proof.
  intros H. unfold sleep_ms.
  apply emits_bind; [apply emits_emit, H | intros _; apply emits_elapse].
Qed.

Lemma emits_wait_connected (polls : list (list Z)) :
  (forall ms, P (SleepMs ms) = true) -> emits_only P (wait_connected polls).
Proof.
  intros H. induction polls as [|cbs polls IH]; cbn [wait_connected].
  - apply emits_ret.
  - apply emits_bind; [apply emits_deliver_callbacks|intros _].
    apply emits_bind; [apply emits_get|intros c].
    destruct c; [apply emits_ret|].
    apply emits_bind; [apply emits_sleep_ms, H|intros _; exact IH].
Qed.

Lemma emits_boot_connect (attempts : list (Z * Z)) :
  (forall ms, P (SleepMs ms) = true) -> P WifiConnect = true ->
  emits_only P (boot_connect attempts).
Proof.
  intros Hs Hw. induction attempts as [|[r us] rest IH]; cbn [boot_connect].
  - apply emits_ret.
  - apply emits_bind.
    + unfold wifi_connect.
      apply emits_bind; [apply emits_emit, Hw|intros _].
      apply emits_bind; [apply emits_elapse|intros _; apply emits_ret].
    + intros ok. destruct ok; [apply emits_ret|].
      apply emits_bind; [apply emits_sleep_ms, Hs|intros _; exact IH].
Qed.

End Frames.

Lemma forallb_negb_filter {A} (f : A -> bool) (l : list A) :
  forallb (fun x => negb (f x)) l = true -> filter f l = [].
Proof.
  induction l as [|x l IH]; cbn; [reflexivity|].
  rewrite andb_true_iff. intros [Hx Hl].
  destruct (f x); [discriminate|]. auto.
Qed.

Section Preserved.

Context {X : Type} (f : Machine -> X).
Hypothesis f_clock : forall c m, f (with_clock c m) = f m.

Lemma preserves_ret {A} (a : A) : preserves f (ret a).
Proof. intros m. reflexivity. Qed.

Lemma preserves_get {A} (g : Machine -> A) : preserves f (get g).
Proof. intros m. reflexivity. Qed.

Lemma preserves_emit (ev : event) : preserves f (emit ev).
Proof. intros m. reflexivity. Qed.

Lemma preserves_bind {A B} (p : Prog A) (k : A -> Prog B) :
  preserves f p -> (forall a, preserves f (k a)) -> preserves f (bind p k).
Proof.
  intros Hp Hk m. rewrite bind_spec, machine_prepend, Hk, Hp. reflexivity.
Qed.

Lemma preserves_elapse (us : Z) : preserves f (elapse us).
Proof. intros m. apply f_clock. Qed.

Lemma preserves_sleep_ms (ms : Z) : preserves f (sleep_ms ms).
Proof.
  unfold sleep_ms.
  apply preserves_bind; [apply preserves_emit|intros _; apply preserves_elapse].
Qed.

Lemma preserves_wifi_connect (r us : Z) : preserves f (wifi_connect r us).
Proof.
  unfold wifi_connect.
  apply preserves_bind; [apply preserves_emit|intros _].
  apply preserves_bind; [apply preserves_elapse|intros _; apply preserves_ret].
Qed.

Lemma preserves_boot_connect (attempts : list (Z * Z)) :
  preserves f (boot_connect attempts).
Proof.
  induction attempts as [|[r us] rest IH]; cbn [boot_connect].
  - apply preserves_ret.
  - apply preserves_bind; [apply preserves_wifi_connect|intros ok].
    destruct ok; [apply preserves_ret|].
    apply preserves_bind; [apply preserves_sleep_ms|intros _; exact IH].
Qed.

Hypothesis f_flag : forall b m, f (with_mqtt_connected b m) = f m.

Lemma preserves_deliver_callbacks (cbs : list Z) :
  preserves f (deliver_callbacks cbs).
Proof. intros m. rewrite deliver_callbacks_spec. apply f_flag. Qed.

Lemma preserves_wait_connected (polls : list (list Z)) :
  preserves f (wait_connected polls).
Proof.
  induction polls as [|cbs polls IH]; cbn [wait_connected].
  - apply preserves_ret.
  - apply preserves_bind; [apply preserves_deliver_callbacks|intros _].
    apply preserves_bind; [apply preserves_get|intros c].
    destruct c; [apply preserves_ret|].
    apply preserves_bind; [apply preserves_sleep_ms|intros _; exact IH].
Qed.

Lemma preserves_boot_radio (b : BootEnv) (safe : bool) :
  preserves f (boot_radio b safe).
Proof.
  unfold boot_radio. destruct safe; cbn [negb].
  - apply preserves_bind; [apply preserves_emit|intros _].
    apply preserves_bind; [apply preserves_emit|intros _; apply preserves_ret].
  - apply preserves_bind; [apply preserves_boot_connect|intros ok].
    destruct ok; [|apply preserves_ret].
    apply preserves_bind; [apply preserves_emit|intros _; apply preserves_ret].
Qed.

Hypothesis f_last_ok : forall t m, f (with_last_ok t m) = f m.

Lemma preserves_loop_body (e : CycleEnv) : preserves f (loop_body e).
Proof.
  intros m. loop_cases e m;
    rewrite ?f_clock, ?f_last_ok, ?f_flag; reflexivity.
Qed.

Lemma preserves_main_loop (es : list CycleEnv) : preserves f (main_loop es).
Proof.
  induction es as [|e es IH]; cbn [main_loop].
  - apply preserves_ret.
  - apply preserves_bind; [apply preserves_loop_body|intros c].
    destruct c; [exact IH|apply preserves_ret].
Qed.

End Preserved.

Lemma trace_bind {A B} (p : Prog A) (k : A -> Prog B) (m : Machine) :
  trace_of (bind p k m) =
  trace_of (p m) ++ trace_of (k (result_of (p m)) (machine_of (p m))).
Proof. rewrite bind_spec. reflexivity. Qed.

Lemma result_bind {A B} (p : Prog A) (k : A -> Prog B) (m : Machine) :
  result_of (bind p k m) = result_of (k (result_of (p m)) (machine_of (p m))).
Proof. rewrite bind_spec. reflexivity. Qed.

Lemma machine_bind {A B} (p : Prog A) (k : A -> Prog B) (m : Machine) :
  machine_of (bind p k m) = machine_of (k (result_of (p m)) (machine_of (p m))).
Proof. rewrite bind_spec. reflexivity. Qed.

Lemma emits_filter {A} (f : event -> bool) (p : Prog A) (m : Machine) :
  emits_only (fun ev => negb (f ev)) p -> filter f (trace_of (p m)) = [].
Proof. intros H. apply forallb_negb_filter, H. Qed.

(** ** LastHealthyTimestamp *)

Lemma boot_session_last_ok (b : BootEnv) (m : Machine) :
  let r := boot_session b m in
  filter is_last_ok_store (trace_of r) =
    match result_of r with
    | Enter => [LastOkStore (clock (machine_of r))]
    | _ => []
    end /\
  match result_of r with
  | Enter => last_ok (machine_of r) = clock (machine_of r)
  | _ => True
  end.
Proof.
  unfold boot_session.
  destruct (client_new_ok b); cbn [negb]; [|cbn; auto].
  cbv zeta.
  do 3 (rewrite trace_bind, result_bind, machine_bind;
        cbn [emit trace_of result_of machine_of fst snd app filter is_last_ok_store]).
  destruct (boot_mqtt_err b =? ERR_OK); cbn [negb]; [|cbn; auto].
  rewrite trace_bind, result_bind, machine_bind, filter_app.
  rewrite (emits_filter is_last_ok_store (wait_connected (wait_cb b)) m)
    by (apply emits_wait_connected; reflexivity).
  cbn [app].
  destruct (result_of (wait_connected (wait_cb b) m)); cbn [negb]; [|cbn; auto].
  destruct (machine_of (wait_connected (wait_cb b) m)) as [c l s f x].
  cbn. auto.
Qed.

Lemma main_boot_spec (b : BootEnv) (m : Machine) :
  main_boot b m =
  let cnt := guard_counter (watchdog_caused_reboot b) (scratch0 m) in
  let safe := cnt >=? SAFE_REBOOTS in
  prepend [SleepMs 1500; ScratchWrite cnt; WatchdogEnable WD_TIMEOUT_MS]
    (boot_after_guard b safe
       (mk_machine (clock m + 1500 * 1000) (last_ok m) safe (mqtt_connected m) cnt)).
Proof.
  destruct m as [c l s f x].
  cbv [main_boot bind sleep_ms emit elapse ret set_safe_mode
       wd_init_and_bootloop_guard get set_scratch0 with_clock with_safe_mode
       with_scratch0 clock last_ok safe_mode mqtt_connected scratch0 prepend].
  destruct (boot_after_guard b _ _) as [[r m'] t]. reflexivity.
Qed.

Lemma boot_radio_emits (P : event -> bool) (b : BootEnv) (safe : bool) :
  (forall ms, P (SleepMs ms) = true) -> (forall on, P (Led on) = true) ->
  P (WifiSetUp false) = true -> (safe = false -> P WifiConnect = true) ->
  emits_only P (boot_radio b safe).
Proof.
  intros Hs Hl Hd Hw. unfold boot_radio. destruct safe; cbn [negb].
  - apply emits_bind; [apply emits_emit, Hd|intros _].
    apply emits_bind; [apply emits_emit, Hl|intros _; apply emits_ret].
  - apply emits_bind; [apply emits_boot_connect; auto|intros ok].
    destruct ok; [|apply emits_ret].
    apply emits_bind; [apply emits_emit, Hl|intros _; apply emits_ret].
Qed.

Lemma boot_after_guard_last_ok (b : BootEnv) (safe : bool) (m : Machine) :
  let r := boot_after_guard b safe m in
  filter is_last_ok_store (trace_of r) =
    match result_of r with
    | Enter => [LastOkStore (clock (machine_of r))]
    | _ => []
    end /\
  match result_of r with
  | Enter => last_ok (machine_of r) = clock (machine_of r)
  | _ => True
  end.
Proof.
  unfold boot_after_guard.
  destruct (arch_init_r b =? 0); cbn [negb]; [|cbn; auto].
  cbv zeta.
  repeat (rewrite trace_bind, result_bind, machine_bind, filter_app).
  cbn [emit trace_of result_of machine_of fst snd app filter is_last_ok_store].
  rewrite (emits_filter is_last_ok_store (boot_radio b safe) m)
    by (apply boot_radio_emits; reflexivity).
  cbn [app].
  destruct (result_of (boot_radio b safe m)); cbn [negb]; [|cbn; auto].
  apply boot_session_last_ok.
Qed.

Lemma main_boot_last_ok (b : BootEnv) (m : Machine) :
  let r := main_boot b m in
  filter is_last_ok_store (trace_of r) =
    match result_of r with
    | Enter => [LastOkStore (clock (machine_of r))]
    | _ => []
    end /\
  match result_of r with
  | Enter => last_ok (machine_of r) = clock (machine_of r)
  | _ => True
  end.
Proof.
  rewrite main_boot_spec. cbv zeta.
  rewrite trace_prepend, result_prepend, machine_prepend.
  cbn [app filter is_last_ok_store].
  apply boot_after_guard_last_ok.
Qed.

(** C5: an iteration in which the health test fails leaves [last_ok] as it
    was; an iteration in which it succeeds sets [last_ok] to the time read in
    that iteration.  The only stores to [last_ok] are the one of the healthy
    branch and the one that initialises it when the main loop is entered. *)
Theorem last_ok_follows_health :
  (forall e m,
      last_ok (machine_of (loop_body e m)) =
        (if healthy e m then clock m else last_ok m) /\
      filter is_last_ok_store (trace_of (loop_body e m)) =
        (if healthy e m then [LastOkStore (clock m)] else [])) /\
  (forall b m,
      let r := main_boot b m in
      filter is_last_ok_store (trace_of r) =
        match result_of r with
        | Enter => [LastOkStore (clock (machine_of r))]
        | _ => []
        end /\
      match result_of r with
      | Enter => last_ok (machine_of r) = clock (machine_of r)
      | _ => True
      end).
Proof.
  split.
  - intros e m. loop_cases e m; destruct m; split; reflexivity.
  - apply main_boot_last_ok.
Qed.

(** ** Bootloop Guard *)

Lemma guard_spec (caused : bool) (m : Machine) :
  wd_init_and_bootloop_guard caused m =
  let cnt := guard_counter caused (scratch0 m) in
  (cnt >=? SAFE_REBOOTS, with_scratch0 cnt m,
   [ScratchWrite cnt; WatchdogEnable WD_TIMEOUT_MS]).
Proof. destruct m. reflexivity. Qed.

Lemma next_counter_eq (caused : bool) (cnt : Z) :
  next_counter caused cnt = guard_counter caused cnt.
Proof. reflexivity. Qed.

Lemma iter_watchdog_boots (n : nat) :
  Z.of_nat n < 2 ^ 32 -> Nat.iter n (next_counter true) 0 = Z.of_nat n.
Proof.
  induction n as [|n IH]; intros Hn; [reflexivity|].
  rewrite Nat.iter_succ, IH by lia.
  rewrite next_counter_eq. unfold guard_counter, u32.
  rewrite Z.mod_small; lia.
Qed.

Lemma boot_session_emits (P : event -> bool) (b : BootEnv) :
  (forall ms, P (SleepMs ms) = true) -> P MqttClientConnect = true ->
  (forall t, P (LastOkStore t) = true) ->
  P LwipBegin = true -> P LwipEnd = true ->
  emits_only P (boot_session b).
Proof.
  intros Hs Hm Hl Hb He. unfold boot_session.
  destruct (client_new_ok b); cbn [negb]; [|apply emits_ret].
  apply emits_bind; [apply emits_emit, Hb|intros _].
  apply emits_bind; [apply emits_emit, Hm|intros _].
  apply emits_bind; [apply emits_emit, He|intros _].
  destruct (boot_mqtt_err b =? ERR_OK); cbn [negb]; [|apply emits_ret].
  apply emits_bind; [apply emits_wait_connected, Hs|intros c].
  destruct c; cbn [negb]; [|apply emits_ret].
  apply emits_bind; [apply emits_get|intros now].
  apply emits_bind; [|intros _; apply emits_ret].
  intros m. cbn. rewrite Hl. reflexivity.
Qed.

Lemma boot_after_guard_emits (P : event -> bool) (b : BootEnv) (safe : bool) :
  (forall ms, P (SleepMs ms) = true) -> (forall on, P (Led on) = true) ->
  P (WifiSetUp false) = true -> (safe = false -> P WifiConnect = true) ->
  P MqttClientConnect = true -> (forall t, P (LastOkStore t) = true) ->
  P StaMode = true -> P LwipBegin = true -> P LwipEnd = true ->
  emits_only P (boot_after_guard b safe).
Proof.
  intros Hs Hl Hd Hw Hm Ho Hsta Hb He. unfold boot_after_guard.
  destruct (arch_init_r b =? 0); cbn [negb]; [|apply emits_ret].
  apply emits_bind; [apply emits_emit, Hsta|intros _].
  apply emits_bind; [apply boot_radio_emits; auto|intros j].
  destruct j; cbn [negb]; [|apply emits_ret].
  apply boot_session_emits; auto.
Qed.

Lemma loop_body_emits (P : event -> bool) (e : CycleEnv) :
  (forall ev, is_scratch_write ev = false -> P ev = true) ->
  emits_only P (loop_body e).
Proof.
  intros H m. loop_cases e m; cbn [forallb];
    rewrite ?H by reflexivity; reflexivity.
Qed.

Lemma main_loop_emits (P : event -> bool) (es : list CycleEnv) :
  (forall ev, is_scratch_write ev = false -> P ev = true) ->
  emits_only P (main_loop es).
Proof.
  intros H. induction es as [|e es IH]; cbn [main_loop].
  - apply emits_ret.
  - apply emits_bind; [apply loop_body_emits, H|intros c].
    destruct c; [exact IH|apply emits_ret].
Qed.

Lemma boot_session_safe_mode (b : BootEnv) : preserves safe_mode (boot_session b).
Proof.
  unfold boot_session.
  destruct (client_new_ok b); cbn [negb]; [|apply preserves_ret].
  do 3 (apply preserves_bind; [apply preserves_emit|intros _]).
  destruct (boot_mqtt_err b =? ERR_OK); cbn [negb]; [|apply preserves_ret].
  apply preserves_bind;
    [apply preserves_wait_connected; intros ? []; reflexivity|intros c].
  destruct c; cbn [negb]; [|apply preserves_ret].
  apply preserves_bind; [apply preserves_get|intros now].
  apply preserves_bind; [intros []; reflexivity|intros _; apply preserves_ret].
Qed.

Lemma boot_after_guard_safe_mode (b : BootEnv) (safe : bool) :
  preserves safe_mode (boot_after_guard b safe).
Proof.
  unfold boot_after_guard.
  destruct (arch_init_r b =? 0); cbn [negb]; [|apply preserves_ret].
  apply preserves_bind; [apply preserves_emit|intros _].
  apply preserves_bind;
    [apply preserves_boot_radio; intros ? []; reflexivity|intros j].
  destruct j; cbn [negb]; [apply boot_session_safe_mode|apply preserves_ret].
Qed.

Lemma main_trace (b : BootEnv) (es : list CycleEnv) (m : Machine) :
  exists t,
    trace_of (main b es m) = trace_of (main_boot b m) ++ t /\
    (t = [] \/ t = trace_of (main_loop es (machine_of (main_boot b m)))) /\
    (machine_of (main b es m) = machine_of (main_boot b m) \/
     machine_of (main b es m) = machine_of (main_loop es (machine_of (main_boot b m)))).
Proof.
  unfold main. rewrite trace_bind, machine_bind.
  destruct (result_of (main_boot b m)).
  - exists []. cbn. auto.
  - exists []. cbn. auto.
  - exists (trace_of (main_loop es (machine_of (main_boot b m)))).
    rewrite trace_bind, machine_bind. cbn. rewrite app_nil_r. auto.
Qed.

(** C3 (as amended): the guard stores [counter + 1] reduced modulo [2^32],
    the width of the scratch register, when the boot was caused by the
    watchdog, and [0] otherwise; below the top of the register this is
    [counter + 1], so that [n < 2^32] watchdog boots in a row from a cleared
    counter leave [n], and a boot of another cause clears it.  Safe Mode is
    selected exactly when the stored counter is at least 5, and keeps that
    value for the whole run.  A run writes the scratch register once, in the
    guard. *)
Theorem bootloop_guard_counter :
  (forall caused m,
      let r := wd_init_and_bootloop_guard caused m in
      scratch0 (machine_of r) =
        (if caused then (scratch0 m + 1) mod 2 ^ 32 else 0) /\
      result_of r = (scratch0 (machine_of r) >=? SAFE_REBOOTS)) /\
  (forall caused cnt,
      0 <= cnt < 2 ^ 32 - 1 ->
      next_counter caused cnt = if caused then cnt + 1 else 0) /\
  (forall n : nat,
      Z.of_nat n < 2 ^ 32 -> Nat.iter n (next_counter true) 0 = Z.of_nat n) /\
  (forall cnt, next_counter false cnt = 0) /\
  (forall b es m,
      let cnt := guard_counter (watchdog_caused_reboot b) (scratch0 m) in
      filter is_scratch_write (trace_of (main b es m)) = [ScratchWrite cnt] /\
      scratch0 (machine_of (main b es m)) = cnt /\
      safe_mode (machine_of (main b es m)) = (cnt >=? SAFE_REBOOTS) /\
      (safe_mode (machine_of (main b es m)) = true <-> 5 <= cnt)).
Proof.
  split; [|split; [|split; [|split]]].
  - intros caused m. rewrite guard_spec. cbv zeta.
    destruct m, caused; split; reflexivity.
  - intros caused cnt H. rewrite next_counter_eq. unfold guard_counter, u32.
    destruct caused; [|reflexivity]. rewrite Z.mod_small; lia.
  - apply iter_watchdog_boots.
  - reflexivity.
  - intros b es m cnt.
    assert (Hboot : machine_of (main_boot b m) =
                    machine_of (boot_after_guard b (cnt >=? SAFE_REBOOTS)
                      (mk_machine (clock m + 1500 * 1000) (last_ok m)
                         (cnt >=? SAFE_REBOOTS) (mqtt_connected m) cnt)))
      by (rewrite main_boot_spec; reflexivity).
    assert (Hsafe : safe_mode (machine_of (main b es m)) = (cnt >=? SAFE_REBOOTS)).
    { destruct (main_trace b es m) as (t & _ & _ & [Hm|Hm]); rewrite Hm.
      - rewrite Hboot, boot_after_guard_safe_mode. reflexivity.
      - rewrite preserves_main_loop by (intros ? []; reflexivity).
        rewrite Hboot, boot_after_guard_safe_mode. reflexivity. }
    assert (Hscr : forall safe m0, scratch0 (machine_of (boot_after_guard b safe m0))
                                   = scratch0 m0).
    { intros safe m0. unfold boot_after_guard.
      destruct (arch_init_r b =? 0); cbn [negb]; [|reflexivity].
      rewrite machine_bind, machine_bind. cbn [emit result_of machine_of fst snd].
      assert (Hr : scratch0 (machine_of (boot_radio b safe m0)) = scratch0 m0)
        by (apply (preserves_boot_radio scratch0); intros ? []; reflexivity).
      destruct (result_of (boot_radio b safe m0)); cbn [negb]; [|exact Hr].
      rewrite <- Hr. generalize (machine_of (boot_radio b safe m0)). intros m1.
      unfold boot_session.
      destruct (client_new_ok b); cbn [negb]; [|reflexivity].
      do 3 (rewrite machine_bind; cbn [emit result_of machine_of fst snd]).
      destruct (boot_mqtt_err b =? ERR_OK); cbn [negb]; [|reflexivity].
      rewrite machine_bind.
      assert (Hw : scratch0 (machine_of (wait_connected (wait_cb b) m1)) = scratch0 m1)
        by (apply (preserves_wait_connected scratch0); intros ? []; reflexivity).
      destruct (result_of (wait_connected (wait_cb b) m1)); cbn [negb]; [|exact Hw].
      rewrite <- Hw. destruct (machine_of (wait_connected (wait_cb b) m1)).
      reflexivity. }
    split; [|split; [|split]].
    + destruct (main_trace b es m) as (t & Ht & Hcases & _).
      rewrite Ht, filter_app.
      replace (filter is_scratch_write t) with (@nil event).
      * rewrite app_nil_r, main_boot_spec. cbv zeta.
        rewrite trace_prepend. cbn [app filter is_scratch_write].
        fold cnt. f_equal.
        apply emits_filter, boot_after_guard_emits; reflexivity.
      * destruct Hcases as [->| ->]; [reflexivity|].
        symmetry. apply emits_filter, main_loop_emits.
        intros ev Hev. rewrite Hev. reflexivity.
    + destruct (main_trace b es m) as (t & _ & _ & [Hm|Hm]); rewrite Hm.
      * rewrite Hboot, Hscr. reflexivity.
      * rewrite preserves_main_loop by (intros ? []; reflexivity).
        rewrite Hboot, Hscr. reflexivity.
    + exact Hsafe.
    + rewrite Hsafe. unfold SAFE_REBOOTS. rewrite Z.geb_leb. apply Z.leb_le.
Qed.

Lemma bootloop_guard_counter_witness :
  next_counter true 4 = 4 + 1 /\
  Nat.iter 5 (next_counter true) 0 = Z.of_nat 5.
Proof.
  destruct bootloop_guard_counter as (_ & Hnext & Hiter & _).
  split.
  - apply (Hnext true 4). lia.
  - apply (Hiter 5%nat). reflexivity.
Defined.

(** C3 as stated fails at the top of the register: a watchdog-caused boot
    that finds 4294967295 stores 0, not 4294967296, and does not select
    Safe Mode. *)
Lemma bootloop_counter_wraps :
  ~ (forall caused cnt,
        0 <= cnt < 2 ^ 32 ->
        let r := wd_init_and_bootloop_guard caused (reset_machine cnt) in
        scratch0 (machine_of r) = (if caused then cnt + 1 else 0) /\
        (result_of r = true <-> (if caused then cnt + 1 else 0) >= 5)).
Proof.
  intros H. destruct (H true 4294967295) as [H1 _]; [lia|].
  vm_compute in H1. discriminate H1.
Qed.

(** ** Sensor failures *)

Lemma healthy_link_down (e : CycleEnv) (m : Machine) :
  link_status e <> CYW43_LINK_UP -> healthy e m = false.
Proof.
  intros H. unfold healthy, health_state, link_is_up.
  apply Z.eqb_neq in H. rewrite H. reflexivity.
Qed.

Lemma format_payload_FAILRESULT : format_payload FAILRESULT = "failed"%string.
Proof. reflexivity. Qed.

Lemma aht20_result_failure (r : Z) (buf : I2cBuf) :
  r <> SUCCESS -> aht20_result r buf = FAILRESULT.
Proof.
  intros H. unfold aht20_result. apply Z.eqb_neq in H. rewrite H. reflexivity.
Qed.

(** ** The hard-recovery deadline *)

Lemma loop_body_reconnect_fails (e : CycleEnv) (m : Machine) :
  link_status e <> CYW43_LINK_UP -> reconnect_ok e = false ->
  loop_body e m =
  (Continue,
   with_clock (clock m + wifi_us e + 1000 * 1000)
              (with_mqtt_connected (connected_of e m) m),
   WatchdogUpdate (clock m) :: reconnect_trace e ++ [SleepMs 1000]).
Proof.
  intros Hl Hr. rewrite loop_body_spec. cbv zeta.
  rewrite (healthy_link_down e m Hl), Hr. reflexivity.
Qed.

Lemma reconnect_trace_no_reboot (e : CycleEnv) :
  filter is_reboot (reconnect_trace e) = [].
Proof.
  unfold reconnect_trace.
  destruct (wifi_r e =? 0); [|reflexivity].
  destruct (mqtt_err e =? ERR_OK); reflexivity.
Qed.

Lemma loop_body_reboot (e : CycleEnv) (m : Machine) :
  filter is_reboot (trace_of (loop_body e m)) =
  match result_of (loop_body e m) with
  | Halted => [WatchdogReboot]
  | Continue => []
  end.
Proof. loop_cases e m; reflexivity. Qed.

Lemma main_loop_reboot (es : list CycleEnv) (m : Machine) :
  filter is_reboot (trace_of (main_loop es m)) =
  match result_of (main_loop es m) with
  | Halted => [WatchdogReboot]
  | Continue => []
  end.
Proof.
  revert m. induction es as [|e es IH]; intros m; [reflexivity|].
  cbn [main_loop]. rewrite trace_bind, result_bind, filter_app, loop_body_reboot.
  destruct (result_of (loop_body e m)); cbn [app].
  - apply IH.
  - reflexivity.
Qed.

Lemma i64_small (x : Z) : 0 <= x < 2 ^ 63 -> i64 x = x.
Proof.
  intros H. unfold i64.
  change (2 ^ 63) with 9223372036854775808 in *.
  change (2 ^ 64) with 18446744073709551616.
  rewrite Z.mod_small; lia.
Qed.

Lemma deadline_passed_elapsed (m : Machine) :
  deadline_passed m = true ->
  0 <= clock m - last_ok m < 2 ^ 63 ->
  DEADLINE_MS * 1000 < clock m - last_ok m.
Proof.
  unfold deadline_passed, absolute_time_diff_us, DEADLINE_MS. intros H Hr.
  rewrite i64_small in H by exact Hr.
  apply Z.gtb_lt in H. rewrite Z.quot_div_nonneg in H by lia.
  pose proof (Z.div_mod (clock m - last_ok m) 1000 ltac:(lia)).
  pose proof (Z.mod_pos_bound (clock m - last_ok m) 1000 ltac:(lia)). lia.
Qed.

Lemma deadline_not_passed_now (m : Machine) :
  deadline_passed (with_last_ok (clock m) m) = false.
Proof.
  unfold deadline_passed, absolute_time_diff_us. destruct m as [c l s f x].
  cbn [with_last_ok clock last_ok]. rewrite Z.sub_diag. reflexivity.
Qed.

Lemma loop_body_halted (e : CycleEnv) (m : Machine) :
  result_of (loop_body e m) = Halted ->
  safe_mode m = false /\ healthy e m = false /\ reconnect_ok e = true /\
  deadline_passed
    (with_clock (clock m + wifi_us e)
                (with_mqtt_connected (connected_of e m) m)) = true.
Proof.
  rewrite loop_body_spec. cbv zeta.
  destruct (healthy e m) eqn:Hh; [|destruct (reconnect_ok e) eqn:Hr].
  - rewrite result_prepend, escalate_and_publish_spec.
    replace (deadline_passed _) with false
      by (symmetry;
          apply (deadline_not_passed_now (with_mqtt_connected (connected_of e m) m))).
    rewrite andb_false_r. discriminate.
  - rewrite result_prepend, escalate_and_publish_spec.
    destruct (negb _ && deadline_passed _) eqn:Hc; [|discriminate].
    apply andb_true_iff in Hc. destruct Hc as [Hs Hd]. intros _.
    apply negb_true_iff in Hs. destruct m; auto.
  - discriminate.
Qed.

(** C1, what holds and what does not.  A run of the main loop requests the
    reboot at most once, and stops there.  It is requested only in Normal
    mode, on an iteration whose health test failed, and only when more
    than [DEADLINE_MS] have passed since [last_ok] (barring a counter
    beyond [2^63] microseconds).  But it is requested only on iterations
    whose soft recovery succeeded: while the link is down and the soft
    recovery fails, every iteration ends at [sleep_ms(1000); continue;]
    before the deadline test, so that no reboot is requested however long
    this lasts: the loop is still running, [last_ok] is where it was, and
    the clock has advanced by at least one second per iteration. *)
Theorem deadline_escalation :
  (forall es m,
      filter is_reboot (trace_of (main_loop es m)) =
      match result_of (main_loop es m) with
      | Halted => [WatchdogReboot]
      | Continue => []
      end) /\
  (forall e m,
      result_of (loop_body e m) = Halted ->
      safe_mode m = false /\ healthy e m = false /\ reconnect_ok e = true /\
      (0 <= clock m + wifi_us e - last_ok m < 2 ^ 63 ->
       DEADLINE_MS * 1000 < clock m + wifi_us e - last_ok m)) /\
  (forall es m,
      Forall (fun e => link_status e <> CYW43_LINK_UP /\
                       reconnect_ok e = false /\ 0 <= wifi_us e) es ->
      let r := main_loop es m in
      result_of r = Continue /\
      filter is_reboot (trace_of r) = [] /\
      last_ok (machine_of r) = last_ok m /\
      safe_mode (machine_of r) = safe_mode m /\
      clock m + 1000000 * Z.of_nat (List.length es) <= clock (machine_of r)).
Proof.
  split; [exact main_loop_reboot|]. split.
  - intros e m H. destruct (loop_body_halted e m H) as (Hs & Hh & Hr & Hd).
    repeat (split; [assumption|]). intros Hrange.
    apply deadline_passed_elapsed in Hd; destruct m; cbn in *; lia.
  - intros es. induction es as [|e es IH]; intros m Hall; cbv zeta.
    + cbn. repeat split; lia.
    + inversion Hall as [|? ? (Hl & Hr & Hus) Hall']; subst.
      cbn [main_loop]. rewrite result_bind, trace_bind, machine_bind.
      rewrite (loop_body_reconnect_fails e m Hl Hr).
      cbn [result_of machine_of trace_of fst snd].
      specialize (IH (with_clock (clock m + wifi_us e + 1000 * 1000)
                        (with_mqtt_connected (connected_of e m) m)) Hall').
      cbv zeta in IH. destruct IH as (I1 & I2 & I3 & I4 & I5).
      split; [exact I1|]. split; [|split; [|split]].
      * rewrite filter_app. cbn [filter is_reboot].
        rewrite filter_app, reconnect_trace_no_reboot. cbn. exact I2.
      * rewrite I3. destruct m; reflexivity.
      * rewrite I4. destruct m; reflexivity.
      * etransitivity; [|exact I5].
        destruct m. cbn [with_clock with_mqtt_connected clock List.length].
        lia.
Qed.

Lemma deadline_escalation_witness :
  (let m := mk_machine 306000000 5000000 false true 0 in
   result_of (loop_body cycle_reconnected m) = Halted /\
   DEADLINE_MS * 1000 < clock m + wifi_us cycle_reconnected - last_ok m) /\
  (let m := mk_machine 5000000 5000000 false true 0 in
   let r := main_loop (repeat cycle_bad_auth 302) m in
   (result_of r = Continue /\
    filter is_reboot (trace_of r) = [] /\
    last_ok (machine_of r) = last_ok m /\
    safe_mode (machine_of r) = safe_mode m /\
    clock m + 1000000 * Z.of_nat (List.length (repeat cycle_bad_auth 302))
    <= clock (machine_of r)) /\
   deadline_passed (machine_of r) = true).
Proof.
  destruct deadline_escalation as (_ & Hhalt & Hmiss).
  split; [|split].
  - cbv zeta. split; [reflexivity|].
    apply (Hhalt cycle_reconnected (mk_machine 306000000 5000000 false true 0)).
    + reflexivity.
    + vm_compute. split; [discriminate|reflexivity].
  - apply Hmiss.
    apply Forall_forall. intros e He. apply repeat_spec in He. subst e.
    split; [discriminate|]. split; [reflexivity|]. vm_compute. discriminate.
  - vm_compute. reflexivity.
Defined.

(** ** Safe Mode *)

Lemma boot_after_guard_safe (b : BootEnv) (m : Machine) :
  boot_after_guard b true m =
  if negb (arch_init_r b =? 0) then (Exit (-1), m, [])
  else prepend [StaMode; WifiSetUp false; Led false] (boot_session b m).
Proof.
  unfold boot_after_guard, boot_radio.
  destruct (arch_init_r b =? 0); cbn [negb]; [|reflexivity].
  cbv [bind emit ret prepend fst snd app negb].
  destruct (boot_session b m) as [[r m'] t]. reflexivity.
Qed.

Lemma escalate_safe_no_reboot (e : CycleEnv) (m : Machine) :
  safe_mode m = true ->
  filter is_reboot (trace_of (escalate_and_publish e m)) = [].
Proof.
  intros H. rewrite escalate_and_publish_spec, H. reflexivity.
Qed.

(** C2, what holds and what does not: a boot that selects Safe Mode makes
    no wifi-connect call and requests no reboot, and switches the radio
    interface off before it enters the main loop; no iteration of the main
    loop requests the reboot in Safe Mode; but an iteration that finds the
    link down calls wifi connect in Safe Mode as in Normal mode, because
    the soft recovery of the loop does not test [safe_mode]. *)
Theorem safe_mode_loop_reconnects :
  (forall b m,
      let r := main_boot b m in
      safe_mode (machine_of r) = true ->
      filter is_wifi_connect (trace_of r) = [] /\
      filter is_reboot (trace_of r) = [] /\
      (result_of r = Enter -> In (WifiSetUp false) (trace_of r))) /\
  (forall e m,
      safe_mode m = true ->
      filter is_reboot (trace_of (loop_body e m)) = []) /\
  (forall e m,
      safe_mode m = true ->
      link_status e <> CYW43_LINK_UP ->
      In WifiConnect (trace_of (loop_body e m))).
Proof.
  split; [|split].
  - intros b m. cbv zeta. rewrite main_boot_spec. cbv zeta.
    rewrite machine_prepend, trace_prepend, result_prepend.
    rewrite boot_after_guard_safe_mode. cbn [safe_mode]. intros Hsafe.
    rewrite Hsafe. rewrite !filter_app. cbn [filter is_wifi_connect is_reboot app].
    split; [|split].
    + apply emits_filter, boot_after_guard_emits; try reflexivity. discriminate.
    + apply emits_filter, boot_after_guard_emits; reflexivity.
    + rewrite boot_after_guard_safe.
      destruct (arch_init_r b =? 0); cbn [negb]; [|discriminate].
      intros _. rewrite trace_prepend. cbn [app In]. tauto.
  - intros e m Hs. rewrite loop_body_spec. cbv zeta.
    destruct (healthy e m); [|destruct (reconnect_ok e)];
      rewrite ?trace_prepend, ?filter_app; cbn [trace_of snd filter is_reboot app];
      rewrite ?filter_app, ?reconnect_trace_no_reboot; cbn [app filter is_reboot];
      try apply escalate_safe_no_reboot; try (destruct m; exact Hs).
    reflexivity.
  - intros e m _ Hl. rewrite loop_body_spec. cbv zeta.
    rewrite (healthy_link_down e m Hl).
    destruct (reconnect_ok e); rewrite ?trace_prepend;
      unfold reconnect_trace; cbn [trace_of snd app In]; tauto.
Qed.

Lemma safe_mode_loop_reconnects_witness :
  safe_mode safe_machine = true /\
  link_status cycle_link_down <> CYW43_LINK_UP /\
  In (WifiSetUp false) (trace_of (main_boot boot_fifth_watchdog (reset_machine 4))) /\
  In WifiConnect (trace_of (loop_body cycle_link_down safe_machine)).
Proof.
  destruct safe_mode_loop_reconnects as (Hboot & _ & Hloop).
  split; [reflexivity|]. split; [discriminate|]. split.
  - apply (Hboot boot_fifth_watchdog (reset_machine 4)); reflexivity.
  - apply Hloop; [reflexivity|discriminate].
Defined.

(** ** Watchdog cadence *)

Lemma reconnect_trace_no_feed (e : CycleEnv) :
  feed_times (reconnect_trace e) = [].
Proof.
  unfold reconnect_trace.
  destruct (wifi_r e =? 0); [|reflexivity].
  destruct (mqtt_err e =? ERR_OK); reflexivity.
Qed.

Lemma feed_times_app (t1 t2 : list event) :
  feed_times (t1 ++ t2) = feed_times t1 ++ feed_times t2.
Proof.
  induction t1 as [|ev t1 IH]; [reflexivity|].
  destruct ev; cbn; rewrite ?IH; reflexivity.
Qed.

Lemma loop_body_feeds_once (e : CycleEnv) (m : Machine) :
  feed_times (trace_of (loop_body e m)) = [clock m].
Proof. loop_cases e m; reflexivity. Qed.

(** C4, the iterations on which the cadence is lost: every iteration feeds
    the watchdog once, at its start.  When the link is down and the soft
    recovery fails, the next feed comes after the whole time the connect
    call blocked plus the 1000 ms sleep; the source lets that call block
    for up to 30000 ms, so as soon as it blocks for 7000 ms the two feeds
    are not less than the 8000 ms of the watchdog timeout apart. *)
Theorem feed_gap_on_failed_reconnect :
  (forall e m, feed_times (trace_of (loop_body e m)) = [clock m]) /\
  (forall e e' m,
      link_status e <> CYW43_LINK_UP -> reconnect_ok e = false ->
      feed_times (trace_of (main_loop [e; e'] m)) =
      [clock m; clock m + wifi_us e + 1000 * 1000]) /\
  (forall e e' m,
      link_status e <> CYW43_LINK_UP -> reconnect_ok e = false ->
      (WD_TIMEOUT_MS - 1000) * 1000 <= wifi_us e ->
      exists t1 t2,
        feed_times (trace_of (main_loop [e; e'] m)) = [t1; t2] /\
        WD_TIMEOUT_MS * 1000 <= t2 - t1).
Proof.
  assert (Hgap : forall e e' m,
      link_status e <> CYW43_LINK_UP -> reconnect_ok e = false ->
      feed_times (trace_of (main_loop [e; e'] m)) =
      [clock m; clock m + wifi_us e + 1000 * 1000]).
  { intros e e' m Hl Hr. cbn [main_loop].
    rewrite trace_bind, (loop_body_reconnect_fails e m Hl Hr).
    cbn [result_of machine_of trace_of fst snd].
    rewrite trace_bind. rewrite !feed_times_app, loop_body_feeds_once.
    cbn [feed_times]. rewrite feed_times_app, reconnect_trace_no_feed.
    destruct (result_of (loop_body e' _)); destruct m; reflexivity. }
  split; [exact loop_body_feeds_once|]. split; [exact Hgap|].
  intros e e' m Hl Hr Hus.
  exists (clock m), (clock m + wifi_us e + 1000 * 1000).
  split; [apply Hgap; assumption|]. unfold WD_TIMEOUT_MS in *. lia.
Qed.

Lemma feed_gap_on_failed_reconnect_witness :
  feed_times (trace_of (main_loop [cycle_link_down; cycle_ok]
                                  (mk_machine 5000000 5000000 false true 0))) =
  [5000000; 5000000 + wifi_us cycle_link_down + 1000 * 1000] /\
  WD_TIMEOUT_MS * 1000 < wifi_us cycle_link_down + 1000 * 1000.
Proof.
  destruct feed_gap_on_failed_reconnect as (_ & Hgap & _).
  split.
  - apply (Hgap cycle_link_down cycle_ok (mk_machine 5000000 5000000 false true 0)).
    + discriminate.
    + reflexivity.
  - reflexivity.
Defined.

(** ** The two variants *)




(** * binary32 arithmetic

    Bounds on the results of the operations of [SpecFloat] at precision 24,
    for numbers far from underflow and overflow. *)

(** ** Mantissas and shifts *)

Lemma digits2_pos_spec (p : positive) :
  2 ^ (Zpos (digits2_pos p) - 1) <= Zpos p < 2 ^ Zpos (digits2_pos p).
Proof.
  induction p as [p IH|p IH|]; cbn [digits2_pos].
  - rewrite Pos2Z.inj_succ.
    replace (Z.succ (Zpos (digits2_pos p)) - 1) with (Z.succ (Zpos (digits2_pos p) - 1)) by lia.
    rewrite !Z.pow_succ_r by lia. lia.
  - rewrite Pos2Z.inj_succ.
    replace (Z.succ (Zpos (digits2_pos p)) - 1) with (Z.succ (Zpos (digits2_pos p) - 1)) by lia.
    rewrite !Z.pow_succ_r by lia. lia.
  - cbn. lia.
Qed.

Lemma digits2_pos_unique (p : positive) (d : Z) :
  2 ^ (d - 1) <= Zpos p < 2 ^ d -> Zpos (digits2_pos p) = d.
Proof.
  intros [Hl Hu]. pose proof (digits2_pos_spec p) as [Hl' Hu'].
  assert (0 < d).
  { destruct (Z.ltb_spec 0 d) as [|Hd]; [assumption|].
    assert (2 ^ d <= 2 ^ 0) by (apply Z.pow_le_mono_r; lia).
    change (2 ^ 0) with 1 in *. lia. }
  destruct (Z.lt_trichotomy (Zpos (digits2_pos p)) d) as [Hlt|[Heq|Hgt]].
  - assert (2 ^ Zpos (digits2_pos p) <= 2 ^ (d - 1)) by (apply Z.pow_le_mono_r; lia). lia.
  - exact Heq.
  - assert (2 ^ d <= 2 ^ (Zpos (digits2_pos p) - 1)) by (apply Z.pow_le_mono_r; lia). lia.
Qed.

Lemma iter_pos_nat {A} (f : A -> A) (p : positive) (x : A) :
  iter_pos f p x = Nat.iter (Pos.to_nat p) f x.
Proof.
  revert x. induction p as [p IH|p IH|]; intros x; cbn [iter_pos].
  - rewrite !IH, Pos2Nat.inj_xI.
    replace (S (2 * Pos.to_nat p)) with (Pos.to_nat p + (Pos.to_nat p + 1))%nat by lia.
    rewrite !Nat.iter_add. reflexivity.
  - rewrite !IH, Pos2Nat.inj_xO.
    replace (2 * Pos.to_nat p)%nat with (Pos.to_nat p + Pos.to_nat p)%nat by lia.
    rewrite Nat.iter_add. reflexivity.
  - reflexivity.
Qed.

Lemma shr_1_nonneg (m : Z) (r s : bool) :
  0 <= m ->
  shr_1 (Build_shr_record m r s) = Build_shr_record (Z.div2 m) (Z.odd m) (r || s).
Proof.
  intros H. destruct m as [|p|p]; [reflexivity| |lia].
  destruct p; reflexivity.
Qed.

(** [n] shifts of a non-negative mantissa whose location is exact. *)
Lemma shr_iter (P : Z) (n : nat) :
  0 <= P ->
  Nat.iter (S n) shr_1 (Build_shr_record P false false) =
  Build_shr_record (P / 2 ^ Z.of_nat (S n))
                   (Z.testbit P (Z.of_nat n))
                   (negb (P mod 2 ^ Z.of_nat n =? 0)).
Proof.
  intros HP. induction n as [|n IH].
  - cbn [Nat.iter]. rewrite shr_1_nonneg by assumption.
    rewrite Z.div2_div. change (2 ^ Z.of_nat 1) with 2.
    change (2 ^ Z.of_nat 0) with 1. rewrite Z.mod_1_r.
    rewrite Z.bit0_odd. reflexivity.
  - rewrite Nat.iter_succ, IH.
    assert (Hq : 0 <= P / 2 ^ Z.of_nat (S n)) by (apply Z.div_pos; lia).
    rewrite shr_1_nonneg by assumption.
    f_equal.
    + rewrite Z.div2_div, Z.div_div by lia.
      f_equal. rewrite (Nat2Z.inj_succ (S n)), Z.pow_succ_r by lia. lia.
    + rewrite <- Z.bit0_odd, <- Z.shiftr_div_pow2 by lia.
      rewrite Z.shiftr_spec by lia. f_equal.
    + rewrite (Nat2Z.inj_succ n), Z.pow_succ_r by lia.
      set (k := Z.of_nat n). set (a := 2 ^ k).
      assert (Ha : 0 < a) by (apply Z.pow_pos_nonneg; lia).
      pose proof (Z.mod_pos_bound P a Ha).
      pose proof (Z.mod_pos_bound (P / a) 2 ltac:(lia)).
      assert (E : P mod (2 * a) = a * ((P / a) mod 2) + P mod a).
      { rewrite (Z.mul_comm 2 a). rewrite Z.rem_mul_r by lia. lia. }
      rewrite E.
      destruct (Z.testbit P k) eqn:Hb.
      * apply Z.testbit_true in Hb; [|lia]. fold a in Hb. rewrite Hb. cbn [orb].
        symmetry. apply negb_true_iff, Z.eqb_neq. nia.
      * apply Z.testbit_false in Hb; [|lia]. fold a in Hb. rewrite Hb. cbn [orb].
        f_equal. f_equal. lia.
Qed.

(** ** Rounding *)

Lemma fexp_normal (x : Z) : -125 <= x -> fexp prec emax x = x - 24.
Proof. intros H. unfold fexp, emin, prec, emax. lia. Qed.

Lemma canon_digits (m : positive) :
  2 ^ 23 <= Zpos m < 2 ^ 24 -> Zpos (digits2_pos m) = 24.
Proof. intros H. apply digits2_pos_unique. exact H. Qed.

Lemma shr_fexp_canon (m : positive) (e : Z) :
  2 ^ 23 <= Zpos m < 2 ^ 24 -> -149 <= e ->
  shr_fexp prec emax (Zpos m) e loc_Exact = (Build_shr_record (Zpos m) false false, e).
Proof.
  intros Hm He. unfold shr_fexp. cbn [Zdigits2 shr_record_of_loc].
  rewrite (canon_digits m Hm), fexp_normal by lia.
  replace (24 + e - 24 - e) with 0 by lia. reflexivity.
Qed.

(** What the first shift and the rounding of [binary_round_aux] leave. *)
Lemma shr_round (P : Z) (E : Z) (pn : positive) :
  0 <= P ->
  let '(mrs, e') := shr (Build_shr_record P false false) E (Zpos pn) in
  let rnd := round_nearest_even (shr_m mrs) (loc_of_shr_record mrs) in
  e' = E + Zpos pn /\
  P / 2 ^ Zpos pn <= rnd <= P / 2 ^ Zpos pn + 1 /\
  (P mod 2 ^ Zpos pn = 0 -> rnd = P / 2 ^ Zpos pn).
Proof.
  intros HP. unfold shr. rewrite iter_pos_nat.
  destruct (Pos2Nat.is_succ pn) as [k Hk]. rewrite Hk, shr_iter by assumption.
  assert (Hn : Zpos pn = Z.of_nat (S k)) by lia.
  rewrite <- Hn. cbv zeta. cbn [shr_m].
  split; [reflexivity|].
  set (q := P / 2 ^ Zpos pn).
  set (r := Z.testbit P (Z.of_nat k)).
  set (s := negb (P mod 2 ^ Z.of_nat k =? 0)).
  split.
  - destruct r, s; cbn [loc_of_shr_record round_nearest_even];
      try destruct (Z.even q); lia.
  - intros Hexact.
    assert (Ha : 0 < 2 ^ Z.of_nat k) by (apply Z.pow_pos_nonneg; lia).
    assert (E2 : P mod (2 * 2 ^ Z.of_nat k) =
                 2 ^ Z.of_nat k * ((P / 2 ^ Z.of_nat k) mod 2) + P mod 2 ^ Z.of_nat k).
    { rewrite (Z.mul_comm 2). rewrite Z.rem_mul_r by lia. lia. }
    rewrite Hn, Nat2Z.inj_succ, Z.pow_succ_r in Hexact by lia.
    rewrite E2 in Hexact.
    pose proof (Z.mod_pos_bound P (2 ^ Z.of_nat k) Ha).
    pose proof (Z.mod_pos_bound (P / 2 ^ Z.of_nat k) 2 ltac:(lia)).
    assert (Hr : r = false).
    { subst r. apply Z.testbit_false; [lia|]. nia. }
    assert (Hs : s = false).
    { subst s. apply negb_false_iff, Z.eqb_eq. nia. }
    rewrite Hr, Hs. reflexivity.
Qed.

Lemma pow2_split (a b : Z) : 0 <= a -> 0 <= b -> 2 ^ (a + b) = 2 ^ a * 2 ^ b.
Proof. intros. apply Z.pow_add_r; assumption. Qed.

(** Rounding a mantissa of at least 24 bits: the result is a normal number,
    one of the two multiples of the unit [2^(E+n)] around the value, and the
    lower one when the value is such a multiple. *)
Lemma binary_round_aux_spec (s : bool) (P : positive) (E : Z) :
  let d := Zpos (digits2_pos P) in
  let n := d - 24 in
  0 <= n -> -149 <= E + n -> E + n + 1 <= 104 ->
  exists m' e',
    binary_round_aux prec emax s (Zpos P) E loc_Exact = S754_finite s m' e' /\
    canon m' e' /\
    let q := Zpos P / 2 ^ n in
    let U := 2 ^ (E + n + 149) in
    2 ^ 23 <= q < 2 ^ 24 /\
    (V m' e' = q * U \/ V m' e' = (q + 1) * U) /\
    (Zpos P mod 2 ^ n = 0 -> V m' e' = q * U).
Proof.
  intros d n Hn Hlo Hhi.
  pose proof (digits2_pos_spec P) as [HPl HPu]. fold d in HPl, HPu.
  assert (Hd : d = n + 24) by lia.
  assert (H2n : 0 < 2 ^ n) by (apply Z.pow_pos_nonneg; lia).
  assert (Hq : 2 ^ 23 <= Zpos P / 2 ^ n < 2 ^ 24).
  { rewrite Hd in HPl, HPu.
    replace (n + 24 - 1) with (n + 23) in HPl by lia.
    rewrite pow2_split in HPl, HPu by lia.
    split.
    - apply Z.div_le_lower_bound; lia.
    - apply Z.div_lt_upper_bound; lia. }
  unfold binary_round_aux, shr_fexp at 1.
  cbn [Zdigits2 shr_record_of_loc]. fold d.
  rewrite fexp_normal by lia.
  replace (d + E - 24 - E) with n by lia.
  destruct n as [|pn|pn] eqn:En; [| |lia].
  - (* no shift *)
    cbn [shr shr_m loc_of_shr_record round_nearest_even].
    assert (HP : 2 ^ 23 <= Zpos P < 2 ^ 24).
    { rewrite Hd in HPl, HPu. cbn in HPl, HPu. cbn. lia. }
    rewrite shr_fexp_canon by lia. cbn [shr_m].
    replace (E <=? emax - prec) with true
      by (symmetry; apply Z.leb_le; unfold emax, prec; lia).
    exists P, E. split; [reflexivity|]. split; [split; [exact HP|lia]|].
    cbv zeta. change (2 ^ 0) with 1. rewrite Z.div_1_r, Z.add_0_r.
    split; [exact HP|]. unfold V. split; [left; reflexivity|reflexivity].
  - pose proof (shr_round (Zpos P) E pn ltac:(lia)) as Hsr.
    destruct (shr (Build_shr_record (Zpos P) false false) E (Zpos pn)) as [mrs e'].
    cbv zeta in Hsr. destruct Hsr as (He' & Hrnd & Hexact).
    set (rnd := round_nearest_even (shr_m mrs) (loc_of_shr_record mrs)) in *.
    set (q := Zpos P / 2 ^ Zpos pn) in *.
    subst e'.
    destruct (Z.ltb_spec rnd (2 ^ 24)) as [Hlt|Hge].
    + (* no carry *)
      destruct rnd as [|pr|pr] eqn:Ernd; [lia| |lia].
      rewrite shr_fexp_canon by lia. cbn [shr_m].
      replace (E + Zpos pn <=? emax - prec) with true
        by (symmetry; apply Z.leb_le; unfold emax, prec; lia).
      exists pr, (E + Zpos pn). split; [reflexivity|].
      split; [split; lia|]. cbv zeta. split; [exact Hq|].
      unfold V. split.
      * assert (Zpos pr = q \/ Zpos pr = q + 1) as [->| ->] by lia; auto.
      * intros Hx. rewrite (Hexact Hx). reflexivity.
    + (* the rounding carried into a 25th bit *)
      assert (Hr : rnd = 2 ^ 24) by lia.
      assert (Hq1 : q + 1 = 2 ^ 24) by lia.
      rewrite Hr. change (2 ^ 24) with (Zpos 16777216).
      unfold shr_fexp. cbn [Zdigits2 digits2_pos Pos.succ shr_record_of_loc].
      rewrite fexp_normal by lia.
      replace (25 + (E + Zpos pn) - 24 - (E + Zpos pn)) with 1 by lia.
      cbn [shr iter_pos shr_1 shr_m orb].
      replace (E + Zpos pn + 1 <=? emax - prec) with true
        by (symmetry; apply Z.leb_le; unfold emax, prec; lia).
      exists 8388608%positive, (E + Zpos pn + 1). split; [reflexivity|].
      split; [split; [cbn; lia|lia]|]. cbv zeta. split; [exact Hq|].
      assert (HV : V 8388608 (E + Zpos pn + 1) = (q + 1) * 2 ^ (E + Zpos pn + 149)).
      { unfold V. rewrite Hq1.
        replace (E + Zpos pn + 1 + 149) with (1 + (E + Zpos pn + 149)) by lia.
        rewrite pow2_split by lia. change (2 ^ 1) with 2. lia. }
      split; [right; exact HV|].
      intros Hx. specialize (Hexact Hx). lia.
Qed.

Lemma pow2_lt_inv (a b : Z) : 0 <= b -> 2 ^ a < 2 ^ b -> a < b.
Proof. intros Hb H. apply (Z.pow_lt_mono_r_iff 2); lia. Qed.

Lemma V_pos (m : positive) (e : Z) : -149 <= e -> 0 < V m e.
Proof.
  intros H. unfold V.
  assert (0 < 2 ^ (e + 149)) by (apply Z.pow_pos_nonneg; lia). lia.
Qed.

(** The two multiples of the unit around a value, against a normal number
    on either side of the value. *)
Lemma unit_le (X q U Y : Z) (a : Z) (mr : positive) (er : Z) :
  0 <= a -> U = 2 ^ a -> 2 ^ 23 <= q ->
  q * U <= X < (q + 1) * U ->
  (Y = q * U \/ Y = (q + 1) * U) -> (X = q * U -> Y = q * U) ->
  canon mr er -> X <= V mr er -> Y <= V mr er.
Proof.
  intros Ha HU Hq HX HY Hexact [Hmr Her] HXR.
  assert (HU0 : 0 < U) by (subst U; apply Z.pow_pos_nonneg; lia).
  destruct HY as [->| ->]; [lia|].
  destruct (Z.eq_dec X (q * U)) as [Hx|Hx]; [specialize (Hexact Hx); lia|].
  assert (Hexp : a <= er + 149).
  { assert (2 ^ (23 + a) < 2 ^ (24 + (er + 149))).
    { rewrite (pow2_split 23), (pow2_split 24) by lia. unfold V in HXR. subst U.
      assert (0 < 2 ^ (er + 149)) by (apply Z.pow_pos_nonneg; lia). nia. }
    apply pow2_lt_inv in H; lia. }
  unfold V in *. replace (er + 149) with ((er + 149 - a) + a) in * by lia.
  rewrite pow2_split in * by lia. rewrite <- HU in *.
  assert (0 < 2 ^ (er + 149 - a)) by (apply Z.pow_pos_nonneg; lia).
  set (k := Zpos mr * 2 ^ (er + 149 - a)) in *.
  assert (q < k) by nia. nia.
Qed.

Lemma unit_ge (X q U Y : Z) (a : Z) (mr : positive) (er : Z) :
  0 <= a -> U = 2 ^ a -> 2 ^ 23 <= q ->
  q * U <= X < (q + 1) * U ->
  (Y = q * U \/ Y = (q + 1) * U) ->
  canon mr er -> V mr er <= X -> V mr er <= Y.
Proof.
  intros Ha HU Hq HX HY [Hmr Her] HXR.
  assert (HU0 : 0 < U) by (subst U; apply Z.pow_pos_nonneg; lia).
  assert (HqY : q * U <= Y) by (destruct HY as [->| ->]; lia).
  apply Z.le_trans with (q * U); [|exact HqY].
  destruct (Z.le_gt_cases a (er + 149)) as [Hle|Hgt].
  - unfold V in *. replace (er + 149) with ((er + 149 - a) + a) in * by lia.
    rewrite pow2_split in * by lia. rewrite <- HU in *.
    assert (0 < 2 ^ (er + 149 - a)) by (apply Z.pow_pos_nonneg; lia).
    set (k := Zpos mr * 2 ^ (er + 149 - a)) in *.
    assert (k <= q) by nia. nia.
  - unfold V in *.
    assert (2 ^ (24 + (er + 149)) <= 2 ^ (23 + a))
      by (apply Z.pow_le_mono_r; lia).
    rewrite (pow2_split 24), (pow2_split 23) in H by lia. rewrite <- HU in H.
    assert (0 < 2 ^ (er + 149)) by (apply Z.pow_pos_nonneg; lia).
    nia.
Qed.

Lemma binary_round_aux_bounds (s : bool) (P : positive) (E : Z) :
  let d := Zpos (digits2_pos P) in
  24 <= d -> -149 <= E -> E + d - 24 + 1 <= 104 ->
  exists m' e',
    binary_round_aux prec emax s (Zpos P) E loc_Exact = S754_finite s m' e' /\
    canon m' e' /\
    (forall mr er, canon mr er -> V P E <= V mr er -> V m' e' <= V mr er) /\
    (forall mr er, canon mr er -> V mr er <= V P E -> V mr er <= V m' e').
Proof.
  intros d Hd HE Hhi.
  destruct (binary_round_aux_spec s P E) as (m' & e' & Heq & Hc & Hq & HY & Hexact);
    fold d; try lia.
  exists m', e'. split; [exact Heq|]. split; [exact Hc|].
  cbv zeta in *. set (n := d - 24) in *.
  set (q := Zpos P / 2 ^ n) in *. set (U := 2 ^ (E + n + 149)) in *.
  assert (H2n : 0 < 2 ^ n) by (apply Z.pow_pos_nonneg; lia).
  assert (HU : U = 2 ^ n * 2 ^ (E + 149)).
  { unfold U. replace (E + n + 149) with (n + (E + 149)) by lia.
    apply pow2_split; lia. }
  assert (H2E : 0 < 2 ^ (E + 149)) by (apply Z.pow_pos_nonneg; lia).
  assert (HX : q * U <= V P E < (q + 1) * U).
  { unfold V. rewrite HU.
    pose proof (Z.div_mod (Zpos P) (2 ^ n) ltac:(lia)) as Hdm. fold q in Hdm.
    pose proof (Z.mod_pos_bound (Zpos P) (2 ^ n) H2n). nia. }
  assert (Hex : V P E = q * U -> V m' e' = q * U).
  { intros Hv. apply Hexact. unfold V in Hv. rewrite HU in Hv.
    pose proof (Z.div_mod (Zpos P) (2 ^ n) ltac:(lia)) as Hdm. fold q in Hdm.
    assert (Hp : Zpos P = q * 2 ^ n).
    { apply (Z.mul_cancel_r _ _ (2 ^ (E + 149))); lia. }
    unfold q, n, d in *. lia. }
  assert (Ha : 0 <= E + n + 149) by (unfold n; lia).
  destruct Hq as [Hq _].
  split; intros mr er Hcr Hle.
  - apply (unit_le (V P E) q U (V m' e') (E + n + 149)); auto.
  - apply (unit_ge (V P E) q U (V m' e') (E + n + 149)); auto.
Qed.

Lemma iter_xO (P : positive) (k : positive) :
  Zpos (Pos.iter xO P k) = Zpos P * 2 ^ Zpos k.
Proof.
  induction k as [|k IH] using Pos.peano_ind.
  - cbn. lia.
  - rewrite Pos.iter_succ, Pos2Z.inj_xO, IH, Pos2Z.inj_succ, Z.pow_succ_r by lia.
    lia.
Qed.

(** Rounding any positive mantissa, as [binary_normalize] and the
    conversions from integers do. *)
Lemma binary_round_bounds (s : bool) (P : positive) (E : Z) :
  let d := Zpos (digits2_pos P) in
  -149 <= E -> -149 <= E + d - 24 -> E + d - 24 + 1 <= 104 ->
  exists m' e',
    binary_round prec emax s P E = S754_finite s m' e' /\
    canon m' e' /\
    (forall mr er, canon mr er -> V P E <= V mr er -> V m' e' <= V mr er) /\
    (forall mr er, canon mr er -> V mr er <= V P E -> V mr er <= V m' e') /\
    (d <= 24 -> V m' e' = V P E).
Proof.
  intros d HE Hlo Hhi.
  pose proof (digits2_pos_spec P) as [HPl HPu]. fold d in HPl, HPu.
  assert (Hd0 : 0 < d) by (unfold d; lia).
  unfold binary_round. rewrite fexp_normal by (fold d; lia). fold d.
  unfold shl_align.
  replace (d + E - 24 - E) with (d - 24) by lia.
  destruct (d - 24) as [|pn|pn] eqn:Edn.
  - (* exactly 24 bits *)
    destruct (binary_round_aux_bounds s P E) as (m' & e' & Heq & Hc & Hle & Hge);
      fold d; try lia.
    exists m', e'. repeat (split; [assumption|]).
    intros _.
    assert (HcP : canon P E).
    { split; [|lia]. replace d with 24 in HPl, HPu by lia. exact (conj HPl HPu). }
    apply Z.le_antisymm; [apply Hle|apply Hge]; auto; lia.
  - (* more than 24 bits: rounded *)
    destruct (binary_round_aux_bounds s P E) as (m' & e' & Heq & Hc & Hle & Hge);
      fold d; try lia.
    exists m', e'. repeat (split; [assumption|]). lia.
  - (* fewer than 24 bits: shifted left, exact *)
    set (P' := Pos.iter xO P pn).
    assert (HP' : Zpos P' = Zpos P * 2 ^ Zpos pn) by apply iter_xO.
    assert (Hk : Zpos pn = 24 - d) by lia.
    assert (H2k : 0 < 2 ^ Zpos pn) by (apply Z.pow_pos_nonneg; lia).
    assert (Hcan : 2 ^ 23 <= Zpos P' < 2 ^ 24).
    { rewrite HP'.
      replace (2 ^ 23) with (2 ^ (d - 1) * 2 ^ Zpos pn)
        by (rewrite <- pow2_split by lia; f_equal; lia).
      replace (2 ^ 24) with (2 ^ d * 2 ^ Zpos pn)
        by (rewrite <- pow2_split by lia; f_equal; lia).
      nia. }
    assert (HV : V P' (d + E - 24) = V P E).
    { unfold V. rewrite HP'.
      replace (E + 149) with (Zpos pn + (d + E - 24 + 149)) by lia.
      rewrite (pow2_split (Zpos pn)) by lia. ring. }
    unfold binary_round_aux. rewrite shr_fexp_canon by lia.
    cbn [shr_m loc_of_shr_record round_nearest_even].
    rewrite shr_fexp_canon by lia. cbn [shr_m].
    replace (d + E - 24 <=? emax - prec) with true
      by (symmetry; apply Z.leb_le; unfold emax, prec; lia).
    exists P', (d + E - 24). split; [reflexivity|].
    split; [split; [exact Hcan|lia]|].
    rewrite HV. repeat split; auto.
Qed.

(** ** Comparison of normal numbers *)

Lemma V_lt_exp (m1 m2 : positive) (e1 e2 : Z) :
  canon m1 e1 -> canon m2 e2 -> e1 < e2 -> V m1 e1 < V m2 e2.
Proof.
  intros [Hm1 He1] [Hm2 He2] Hlt. unfold V.
  replace (e2 + 149) with ((e2 - e1 - 1) + (1 + (e1 + 149))) by lia.
  rewrite (pow2_split (e2 - e1 - 1)), (pow2_split 1) by lia.
  assert (0 < 2 ^ (e1 + 149)) by (apply Z.pow_pos_nonneg; lia).
  assert (0 < 2 ^ (e2 - e1 - 1)) by (apply Z.pow_pos_nonneg; lia).
  change (2 ^ 1) with 2. change (2 ^ 23) with 8388608 in *.
  change (2 ^ 24) with 16777216 in *.
  set (a := 2 ^ (e1 + 149)) in *. set (b := 2 ^ (e2 - e1 - 1)) in *.
  assert (Zpos m1 * a < 2 * Zpos m2 * a) by nia.
  assert (2 * Zpos m2 * a <= (2 * Zpos m2 * a) * b) by nia.
  replace (Zpos m2 * (b * (2 * a))) with ((2 * Zpos m2 * a) * b) by ring.
  lia.
Qed.

Lemma V_compare (m1 m2 : positive) (e1 e2 : Z) :
  canon m1 e1 -> canon m2 e2 ->
  match Z.compare e1 e2 with
  | Lt => Lt
  | Gt => Gt
  | Eq => Pos.compare_cont Eq m1 m2
  end = (V m1 e1 ?= V m2 e2).
Proof.
  intros H1 H2. destruct (Z.compare_spec e1 e2) as [He|He|He].
  - subst e2. unfold V.
    assert (0 < 2 ^ (e1 + 149)) by (apply Z.pow_pos_nonneg; destruct H1; lia).
    change (Pos.compare_cont Eq m1 m2) with (Zpos m1 ?= Zpos m2).
    destruct (Z.compare_spec (Zpos m1) (Zpos m2)) as [Hc|Hc|Hc]; symmetry.
    + apply Z.compare_eq_iff. rewrite Hc. reflexivity.
    + apply Z.compare_lt_iff. nia.
    + apply Z.compare_gt_iff. nia.
  - symmetry. apply Z.compare_lt_iff. apply V_lt_exp; assumption.
  - symmetry. apply Z.compare_gt_iff. apply V_lt_exp; assumption.
Qed.

Lemma compare_pos (m1 m2 : positive) (e1 e2 : Z) :
  canon m1 e1 -> canon m2 e2 ->
  SFcompare (S754_finite false m1 e1) (S754_finite false m2 e2) =
  Some (V m1 e1 ?= V m2 e2).
Proof. intros H1 H2. cbn [SFcompare]. f_equal. apply V_compare; assumption. Qed.

Lemma compare_neg (m1 m2 : positive) (e1 e2 : Z) :
  canon m1 e1 -> canon m2 e2 ->
  SFcompare (S754_finite true m1 e1) (S754_finite true m2 e2) =
  Some (V m2 e2 ?= V m1 e1).
Proof.
  intros H1 H2. cbn [SFcompare]. f_equal.
  rewrite (Z.compare_antisym (V m1 e1) (V m2 e2)).
  rewrite <- (V_compare m1 m2 e1 e2) by assumption.
  destruct (e1 ?= e2); reflexivity.
Qed.

(** ** The operations of the sensor conversion *)

Lemma digits_le (p : positive) (k : Z) :
  Zpos p < 2 ^ k -> Zpos (digits2_pos p) <= k.
Proof.
  intros H. pose proof (digits2_pos_spec p) as [Hl _].
  destruct (Z.le_gt_cases (Zpos (digits2_pos p)) k) as [|Hgt]; [assumption|].
  assert (2 ^ k <= 2 ^ (Zpos (digits2_pos p) - 1)) by (apply Z.pow_le_mono_r; lia).
  lia.
Qed.

Lemma digits_ge (p : positive) (k : Z) :
  0 <= k -> 2 ^ k <= Zpos p -> k + 1 <= Zpos (digits2_pos p).
Proof.
  intros Hk H. pose proof (digits2_pos_spec p) as [_ Hu].
  destruct (Z.le_gt_cases (k + 1) (Zpos (digits2_pos p))) as [|Hgt]; [assumption|].
  assert (2 ^ Zpos (digits2_pos p) <= 2 ^ k) by (apply Z.pow_le_mono_r; lia).
  lia.
Qed.

(** Conversion of a positive integer below [2^24]: exact. *)
Lemma f32_of_Z_exact (p : positive) :
  Zpos p < 2 ^ 24 ->
  exists m e, f32_of_Z (Zpos p) = S754_finite false m e /\
              canon m e /\ V m e = V p 0.
Proof.
  intros Hp. pose proof (digits_le p 24 Hp) as Hd.
  assert (0 < Zpos (digits2_pos p)) by lia.
  destruct (binary_round_bounds false p 0) as (m & e & Heq & Hc & _ & _ & Hex);
    try lia.
  exists m, e. split; [exact Heq|]. split; [exact Hc|]. apply Hex, Hd.
Qed.

(** Multiplication of two positive normal numbers. *)
Lemma fmul_bounds (m c : positive) (e ec : Z) :
  canon m e -> canon c ec -> -149 <= e + ec -> e + ec + 25 <= 104 ->
  exists m' e',
    fmul (S754_finite false m e) (S754_finite false c ec) = S754_finite false m' e' /\
    canon m' e' /\
    (forall mr er, canon mr er -> V (m * c) (e + ec) <= V mr er -> V m' e' <= V mr er) /\
    (forall mr er, canon mr er -> V mr er <= V (m * c) (e + ec) -> V mr er <= V m' e').
Proof.
  intros [Hm He] [Hc Hec] Hlo Hhi.
  assert (Hprod : 2 ^ 46 <= Zpos (m * c) < 2 ^ 48).
  { rewrite Pos2Z.inj_mul.
    change (2 ^ 46) with (2 ^ 23 * 2 ^ 23). change (2 ^ 48) with (2 ^ 24 * 2 ^ 24).
    change (2 ^ 23) with 8388608 in *. change (2 ^ 24) with 16777216 in *. nia. }
  pose proof (digits_le (m * c) 48 ltac:(lia)).
  pose proof (digits_ge (m * c) 46 ltac:(lia) ltac:(lia)).
  unfold fmul. cbn [SFmul xorb].
  apply binary_round_aux_bounds; lia.
Qed.

(** Division by [2^20] moves the exponent. *)
Lemma fdiv_pow2 (m : positive) (e : Z) :
  canon m e -> -128 <= e ->
  fdiv (S754_finite false m e) f_1048576 = S754_finite false m (e - 20).
Proof.
  intros [Hm He] Hlo. unfold fdiv, f_1048576. cbn [SFdiv xorb].
  unfold SFdiv_core_binary. cbn [Zdigits2].
  rewrite (canon_digits m Hm).
  change (Zpos (digits2_pos 8388608)) with 24.
  replace (24 + e - (24 + -3)) with (e + 3) by lia.
  rewrite fexp_normal by lia.
  replace (Z.min (e + 3 - 24) (e - -3)) with (e - 21) by lia.
  replace (e - -3 - (e - 21)) with 24 by lia.
  cbv beta iota zeta.
  rewrite Z.shiftl_mul_pow2 by lia.
  assert (Hq : Z.div_eucl (Zpos m * 2 ^ 24) 8388608 = (Zpos (xO m), 0)).
  { pose proof (Z.div_eucl_eq (Zpos m * 2 ^ 24) 8388608 ltac:(lia)) as Heq.
    pose proof (Z.mod_pos_bound (Zpos m * 2 ^ 24) 8388608 ltac:(lia)) as Hb.
    unfold Z.modulo in Hb.
    destruct (Z.div_eucl (Zpos m * 2 ^ 24) 8388608) as [q r].
    change (2 ^ 24) with 16777216 in Heq.
    assert (r = 0) by lia. assert (q = Zpos (xO m)) by lia. congruence. }
  rewrite Hq. cbn [new_location Z.even new_location_even Z.eqb].
  unfold binary_round_aux, shr_fexp at 1.
  cbn [Zdigits2 digits2_pos shr_record_of_loc].
  rewrite Pos2Z.inj_succ, (canon_digits m Hm).
  rewrite fexp_normal by lia.
  replace (Z.succ 24 + (e - 21) - 24 - (e - 21)) with 1 by lia.
  cbn [shr iter_pos shr_1 shr_m orb loc_of_shr_record round_nearest_even].
  rewrite shr_fexp_canon by lia. cbn [shr_m].
  replace (e - 21 + 1) with (e - 20) by lia.
  replace (e - 20 <=? emax - prec) with true
    by (symmetry; apply Z.leb_le; unfold emax, prec; lia).
  reflexivity.
Qed.

Lemma shl_align_fst (m : positive) (e ez : Z) :
  ez <= e -> Zpos (fst (shl_align m e ez)) = Zpos m * 2 ^ (e - ez).
Proof.
  intros H. unfold shl_align.
  destruct (ez - e) as [|d|d] eqn:E; cbn [fst].
  - replace (e - ez) with 0 by lia. cbn. lia.
  - lia.
  - rewrite iter_xO. f_equal. f_equal. lia.
Qed.

(** Subtraction of 50 from a positive normal number below [2^8]. *)
Lemma fsub_50_bounds (m : positive) (e : Z) :
  canon m e -> -126 <= e -> e <= -16 ->
  let X := V m e - V 13107200 (-18) in
  (X = 0 /\ fsub (S754_finite false m e) f_50 = S754_zero false) \/
  (0 < X /\
   exists m' e',
     fsub (S754_finite false m e) f_50 = S754_finite false m' e' /\
     canon m' e' /\
     (forall mr er, canon mr er -> X <= V mr er -> V m' e' <= V mr er) /\
     (forall mr er, canon mr er -> V mr er <= X -> V mr er <= V m' e')) \/
  (X < 0 /\
   exists m' e',
     fsub (S754_finite false m e) f_50 = S754_finite true m' e' /\
     canon m' e' /\
     (forall mr er, canon mr er -> - X <= V mr er -> V m' e' <= V mr er) /\
     (forall mr er, canon mr er -> V mr er <= - X -> V mr er <= V m' e')).
Proof.
  intros [Hm He] Hlo Hhi X.
  unfold fsub, f_50. cbn [SFsub cond_Zopp].
  set (ez := Z.min e (-18)).
  assert (Hez : ez <= e /\ ez <= -18 /\ -126 <= ez) by (unfold ez; lia).
  rewrite !shl_align_fst by lia.
  set (A := Zpos m * 2 ^ (e - ez)).
  set (B := 13107200 * 2 ^ (-18 - ez)).
  assert (H2 : 0 < 2 ^ (ez + 149)) by (apply Z.pow_pos_nonneg; lia).
  assert (HA : A * 2 ^ (ez + 149) = V m e).
  { unfold A, V. rewrite <- Z.mul_assoc, <- pow2_split by lia.
    f_equal. f_equal. lia. }
  assert (HB : B * 2 ^ (ez + 149) = V 13107200 (-18)).
  { unfold B, V. rewrite <- Z.mul_assoc, <- pow2_split by lia.
    f_equal. f_equal. lia. }
  assert (HX : X = (A - B) * 2 ^ (ez + 149)) by (unfold X; lia).
  assert (HAlt : A < 2 ^ (8 - ez)).
  { unfold A. replace (8 - ez) with (24 + (-16 - e) + (e - ez)) by lia.
    rewrite (pow2_split (24 + (-16 - e))), (pow2_split 24) by lia.
    assert (0 < 2 ^ (e - ez)) by (apply Z.pow_pos_nonneg; lia).
    assert (0 < 2 ^ (-16 - e)) by (apply Z.pow_pos_nonneg; lia).
    nia. }
  assert (HBlt : B < 2 ^ (8 - ez)).
  { unfold B. replace (8 - ez) with (26 + (-18 - ez)) by lia.
    rewrite (pow2_split 26) by lia.
    assert (0 < 2 ^ (-18 - ez)) by (apply Z.pow_pos_nonneg; lia).
    change (2 ^ 26) with 67108864. nia. }
  assert (HA0 : 0 < A).
  { unfold A. assert (0 < 2 ^ (e - ez)) by (apply Z.pow_pos_nonneg; lia). nia. }
  assert (HB0 : 0 < B).
  { unfold B. assert (0 < 2 ^ (-18 - ez)) by (apply Z.pow_pos_nonneg; lia). nia. }
  destruct (A - B) as [|p|p] eqn:ED; cbn [binary_normalize].
  - left. split; [lia|reflexivity].
  - right; left. split; [nia|].
    pose proof (digits_le p (8 - ez) ltac:(lia)).
    assert (0 < Zpos (digits2_pos p)) by lia.
    destruct (binary_round_bounds false p ez) as (m' & e' & Heq & Hc & Hle & Hge & _);
      try lia.
    exists m', e'. split; [exact Heq|]. split; [exact Hc|].
    assert (HV : V p ez = X) by (unfold V; lia).
    rewrite <- HV. split; assumption.
  - right; right. split; [nia|].
    pose proof (digits_le p (8 - ez) ltac:(lia)).
    assert (0 < Zpos (digits2_pos p)) by lia.
    destruct (binary_round_bounds true p ez) as (m' & e' & Heq & Hc & Hle & Hge & _);
      try lia.
    exists m', e'. split; [exact Heq|]. split; [exact Hc|].
    assert (HV : V p ez = - X) by (unfold V; lia).
    rewrite <- HV. split; assumption.
Qed.

Lemma canon_exp_upper (m : positive) (e k : Z) :
  canon m e -> 0 <= k -> V m e < 2 ^ k -> e + 172 < k.
Proof.
  intros [Hm He] Hk H. unfold V in H.
  assert (0 < 2 ^ (e + 149)) by (apply Z.pow_pos_nonneg; lia).
  assert (2 ^ (23 + (e + 149)) < 2 ^ k).
  { rewrite (pow2_split 23) by lia. nia. }
  apply pow2_lt_inv in H1; lia.
Qed.

Lemma canon_exp_lower (m : positive) (e k : Z) :
  canon m e -> 0 <= k -> 2 ^ k <= V m e -> k < e + 173.
Proof.
  intros [Hm He] Hk H. unfold V in H.
  assert (0 < 2 ^ (e + 149)) by (apply Z.pow_pos_nonneg; lia).
  assert (2 ^ k < 2 ^ (24 + (e + 149))).
  { rewrite (pow2_split 24) by lia. nia. }
  apply pow2_lt_inv in H1; lia.
Qed.

Lemma V_shift (m : positive) (e k : Z) :
  0 <= k -> -149 <= e - k -> V m e = V m (e - k) * 2 ^ k.
Proof.
  intros Hk He. unfold V.
  replace (e + 149) with ((e - k + 149) + k) by lia.
  rewrite pow2_split by lia. ring.
Qed.

Lemma V_mul_const (m c : positive) (e ec k : Z) :
  -149 <= e + ec -> ec <= 0 -> Zpos c = k * 2 ^ (- ec) ->
  V (m * c) (e + ec) = k * V m e.
Proof.
  intros Hlo Hec Hc. unfold V. rewrite Pos2Z.inj_mul, Hc.
  replace (e + 149) with (- ec + (e + ec + 149)) by lia.
  rewrite (pow2_split (- ec)) by lia. ring.
Qed.

(** The product [raw * k] for [k = 100] or [200], after the division by
    [2^20]: a normal number between [k / 2^20] and the float below [k]. *)
Lemma scaled_product (p : positive) (c : positive) (ec : Z) (k : Z) :
  Zpos p < 2 ^ 20 -> canon c ec -> -20 <= ec <= 0 ->
  Zpos c = k * 2 ^ (- ec) -> 64 <= k <= 256 ->
  forall (lo hi : positive) (elo ehi : Z),
    canon lo elo -> canon hi ehi ->
    V lo elo <= k * 2 ^ 149 -> k * (2 ^ 20 - 1) * 2 ^ 149 <= V hi ehi ->
    exists m e,
      fdiv (fmul (f32_of_Z (Zpos p)) (S754_finite false c ec)) f_1048576 =
      S754_finite false m e /\
      canon m e /\ -126 <= e <= -16 /\
      V lo elo <= V m e * 2 ^ 20 <= V hi ehi.
Proof.
  intros Hp Hc Hec Hck Hk lo hi elo ehi Hlo Hhi Hlob Hhib.
  destruct (f32_of_Z_exact p) as (m & e & Hconv & Hcm & HVm);
    [change (2 ^ 24) with 16777216; change (2 ^ 20) with 1048576 in Hp; lia|].
  assert (HVp : V p 0 = Zpos p * 2 ^ 149) by reflexivity.
  assert (H149 : 0 < 2 ^ 149) by (apply Z.pow_pos_nonneg; lia).
  assert (He1 : e + 172 < 169).
  { apply (canon_exp_upper m e 169 Hcm); [lia|].
    rewrite HVm, HVp. change (2 ^ 169) with (2 ^ 20 * 2 ^ 149). nia. }
  assert (He2 : 149 < e + 173).
  { apply (canon_exp_lower m e 149 Hcm); [lia|]. rewrite HVm, HVp. nia. }
  destruct (fmul_bounds m c e ec Hcm Hc) as (m1 & e1 & Hmul & Hc1 & Hle & Hge);
    try lia.
  assert (HX : V (m * c) (e + ec) = k * (Zpos p * 2 ^ 149)).
  { rewrite (V_mul_const m c e ec k) by lia. rewrite HVm, HVp. reflexivity. }
  rewrite HX in Hle, Hge.
  assert (Hub : V m1 e1 <= V hi ehi).
  { apply Hle; [exact Hhi|]. apply Z.le_trans with (k * (2 ^ 20 - 1) * 2 ^ 149); [|exact Hhib].
    change (2 ^ 20) with 1048576 in *. nia. }
  assert (Hlb : V lo elo <= V m1 e1).
  { apply Hge; [exact Hlo|]. apply Z.le_trans with (k * 2 ^ 149); [exact Hlob|]. nia. }
  assert (Hlb2 : 2 ^ 155 <= V m1 e1).
  { assert (Hsix : V 8388608 (-17) <= V m1 e1).
    { apply Hge; [split; [cbn; lia|lia]|].
      unfold V. replace (2 ^ (-17 + 149)) with (2 ^ 132) by reflexivity.
      replace (2 ^ 149) with (2 ^ 17 * 2 ^ 132) by reflexivity.
      assert (0 < 2 ^ 132) by (apply Z.pow_pos_nonneg; lia).
      change (2 ^ 17) with 131072. nia. }
    unfold V in Hsix |- *. 
    replace (2 ^ (-17 + 149)) with (2 ^ 132) in Hsix by reflexivity.
    replace (2 ^ 155) with (8388608 * 2 ^ 132) by reflexivity. exact Hsix. }
  assert (Hub2 : V m1 e1 < 2 ^ 177).
  { assert (Hbig : V m1 e1 <= V 16777215 4).
    { apply Hle; [split; [cbn; lia|lia]|].
      unfold V. replace (2 ^ (4 + 149)) with (2 ^ 4 * 2 ^ 149) by reflexivity.
      change (2 ^ 4) with 16. change (2 ^ 20) with 1048576 in Hp. nia. }
    unfold V in Hbig |- *.
    replace (2 ^ (4 + 149)) with (2 ^ 4 * 2 ^ 149) in Hbig by reflexivity.
    replace (2 ^ 177) with (2 ^ 28 * 2 ^ 149) by reflexivity.
    change (2 ^ 4) with 16 in Hbig. change (2 ^ 28) with 268435456. lia. }
  pose proof (canon_exp_upper m1 e1 177 Hc1 ltac:(lia) Hub2) as He1u.
  pose proof (canon_exp_lower m1 e1 155 Hc1 ltac:(lia) Hlb2) as He1l.
  exists m1, (e1 - 20).
  rewrite Hconv, Hmul, fdiv_pow2 by (try exact Hc1; lia).
  split; [reflexivity|].
  destruct Hc1 as [Hm1 He1c].
  split; [split; [exact Hm1|lia]|]. split; [lia|].
  rewrite <- (V_shift m1 e1 20) by lia. split; assumption.
Qed.

(** ** The range of the sensor conversion *)

Lemma hum_of_raw_range (raw : Z) :
  0 <= raw < 2 ^ 20 ->
  hum_of_raw raw = S754_zero false \/
  exists m e, hum_of_raw raw = S754_finite false m e /\
              canon m e /\ e <= -16 /\ V m e <= V 13107199 (-17).
Proof.
  intros [H0 H1]. destruct raw as [|p|p]; [left; reflexivity| |lia]. right.
  assert (Hc1 : canon 13107200 (-17)) by (split; [cbn; lia|lia]).
  assert (Hc2 : canon 13107199 3) by (split; [cbn; lia|lia]).
  assert (Hk : Zpos 13107200 = 100 * 2 ^ (- (-17))) by reflexivity.
  assert (Hlob : V 13107200 (-17) <= 100 * 2 ^ 149)
    by (vm_compute; discriminate).
  assert (Hhib : 100 * (2 ^ 20 - 1) * 2 ^ 149 <= V 13107199 3)
    by (vm_compute; discriminate).
  destruct (scaled_product p 13107200 (-17) 100 H1 Hc1 ltac:(lia) Hk ltac:(lia)
              13107200%positive 13107199%positive (-17) 3 Hc1 Hc2 Hlob Hhib)
    as (m & e & Heq & Hc & He & Hlo & Hhi).
  exists m, e. split; [exact Heq|]. split; [exact Hc|]. split; [lia|].
  rewrite (V_shift 13107199 3 20) in Hhi by lia.
  replace (3 - 20) with (-17) in Hhi by lia.
  assert (0 < 2 ^ 20) by reflexivity. nia.
Qed.

Lemma temp_of_raw_range (raw : Z) :
  0 <= raw < 2 ^ 20 ->
  temp_of_raw raw = S754_zero false \/
  (exists m e, temp_of_raw raw = S754_finite false m e /\
               canon m e /\ e <= -16 /\ V m e <= V 9830399 (-16)) \/
  (exists m e, temp_of_raw raw = S754_finite true m e /\
               canon m e /\ e <= -16 /\ V m e <= V 13107200 (-18)).
Proof.
  intros [H0 H1]. destruct raw as [|p|p]; [| |lia].
  - right; right. exists 13107200%positive, (-18).
    split; [reflexivity|]. split; [split; [cbn; lia|lia]|]. split; lia.
  - unfold temp_of_raw.
    assert (Hc1 : canon 13107200 (-16)) by (split; [cbn; lia|lia]).
    assert (Hc2 : canon 13107199 4) by (split; [cbn; lia|lia]).
    assert (Hk : Zpos 13107200 = 200 * 2 ^ (- (-16))) by reflexivity.
    assert (Hlob : V 13107200 (-16) <= 200 * 2 ^ 149)
      by (vm_compute; discriminate).
    assert (Hhib : 200 * (2 ^ 20 - 1) * 2 ^ 149 <= V 13107199 4)
      by (vm_compute; discriminate).
    destruct (scaled_product p 13107200 (-16) 200 H1 Hc1 ltac:(lia) Hk ltac:(lia)
                13107200%positive 13107199%positive (-16) 4 Hc1 Hc2 Hlob Hhib)
      as (m & e & Heq & Hc & He & Hlo & Hhi).
    unfold f_200. rewrite Heq.
    assert (H20 : 0 < 2 ^ 20) by reflexivity.
    assert (H50 : V 13107200 (-18) * 2 ^ 20 = V 13107200 2)
      by (rewrite (V_shift 13107200 2 20) by lia; reflexivity).
    assert (H150 : V 9830399 (-16) * 2 ^ 20 = V 9830399 4)
      by (rewrite (V_shift 9830399 4 20) by lia; reflexivity).
    assert (Hnum : V 13107199 4 - V 13107200 2 = V 9830399 4) by reflexivity.
    destruct (fsub_50_bounds m e Hc) as [[HX Hz]|[(HX & m' & e' & Hs & Hc' & Hle & _)|
                                                 (HX & m' & e' & Hs & Hc' & Hle & _)]];
      try lia.
    + left. exact Hz.
    + right; left. exists m', e'. split; [exact Hs|]. split; [exact Hc'|].
      assert (Hb : V m' e' <= V 9830399 (-16)).
      { apply Hle; [split; [cbn; lia|lia]|]. nia. }
      split; [|exact Hb].
      assert (V m' e' < 2 ^ 157).
      { apply Z.le_lt_trans with (V 9830399 (-16)); [exact Hb|]. reflexivity. }
      pose proof (canon_exp_upper m' e' 157 Hc' ltac:(lia) H). lia.
    + right; right. exists m', e'. split; [exact Hs|]. split; [exact Hc'|].
      assert (Hb : V m' e' <= V 13107200 (-18)).
      { apply Hle; [split; [cbn; lia|lia]|].
        assert (0 < V m e) by (apply V_pos; destruct Hc; lia). lia. }
      split; [|exact Hb].
      assert (V m' e' < 2 ^ 157).
      { apply Z.le_lt_trans with (V 13107200 (-18)); [exact Hb|]. reflexivity. }
      pose proof (canon_exp_upper m' e' 157 Hc' ltac:(lia) H). lia.
Qed.

(** ** The raw fields of a response *)

Lemma byte_val_range (b : Byte.byte) : 0 <= byte_val b < 256.
Proof. destruct b; cbn; lia. Qed.

Lemma lor_range (a b n : Z) :
  0 <= n -> 0 <= a < 2 ^ n -> 0 <= b < 2 ^ n -> 0 <= Z.lor a b < 2 ^ n.
Proof.
  intros Hn Ha Hb. split; [apply Z.lor_nonneg; lia|].
  destruct (Z.eq_dec a 0) as [->|Ha0]; [rewrite Z.lor_0_l; lia|].
  destruct (Z.eq_dec b 0) as [->|Hb0]; [rewrite Z.lor_0_r; lia|].
  assert (0 < Z.lor a b).
  { assert (0 <= Z.lor a b) by (apply Z.lor_nonneg; lia).
    destruct (Z.eq_dec (Z.lor a b) 0) as [E|E]; [|lia].
    apply Z.lor_eq_0_iff in E. lia. }
  apply Z.log2_lt_pow2; [assumption|].
  rewrite Z.log2_lor by lia.
  apply Z.max_lub_lt; apply Z.log2_lt_pow2; lia.
Qed.

Lemma raw_h_range (buf : I2cBuf) : 0 <= raw_h buf < 2 ^ 20.
Proof.
  unfold raw_h, u32.
  pose proof (byte_val_range (b1 buf)). pose proof (byte_val_range (b2 buf)).
  pose proof (byte_val_range (b3 buf)).
  rewrite !Z.shiftl_mul_pow2, Z.shiftr_div_pow2 by lia.
  change (2 ^ 12) with 4096. change (2 ^ 4) with 16. change (2 ^ 32) with 4294967296.
  rewrite (Z.mod_small (byte_val (b1 buf) * 4096)) by lia.
  rewrite (Z.mod_small (byte_val (b2 buf) * 16)) by lia.
  assert (0 <= byte_val (b3 buf) / 16 < 16)
    by (split; [apply Z.div_pos; lia|apply Z.div_lt_upper_bound; lia]).
  assert (Hl : 0 <= Z.lor (Z.lor (byte_val (b1 buf) * 4096) (byte_val (b2 buf) * 16))
                      (byte_val (b3 buf) / 16) < 2 ^ 20).
  { apply lor_range; [lia| |change (2 ^ 20) with 1048576; lia].
    apply lor_range; change (2 ^ 20) with 1048576; lia. }
  change (2 ^ 20) with 1048576 in *. rewrite Z.mod_small; lia.
Qed.

Lemma raw_t_range (buf : I2cBuf) : 0 <= raw_t buf < 2 ^ 20.
Proof.
  unfold raw_t, u32.
  pose proof (byte_val_range (b3 buf)). pose proof (byte_val_range (b4 buf)).
  pose proof (byte_val_range (b5 buf)).
  change 15 with (Z.ones 4). rewrite Z.land_ones by lia.
  rewrite !Z.shiftl_mul_pow2 by lia.
  change (2 ^ 16) with 65536. change (2 ^ 8) with 256. change (2 ^ 4) with 16.
  change (2 ^ 32) with 4294967296.
  pose proof (Z.mod_pos_bound (byte_val (b3 buf)) 16 ltac:(lia)).
  rewrite (Z.mod_small (byte_val (b3 buf) mod 16 * 65536)) by lia.
  rewrite (Z.mod_small (byte_val (b4 buf) * 256)) by lia.
  assert (Hl : 0 <= Z.lor (Z.lor (byte_val (b3 buf) mod 16 * 65536) (byte_val (b4 buf) * 256))
                      (byte_val (b5 buf)) < 2 ^ 20).
  { apply lor_range; [lia| |change (2 ^ 20) with 1048576; lia].
    apply lor_range; change (2 ^ 20) with 1048576; lia. }
  change (2 ^ 20) with 1048576 in *. rewrite Z.mod_small; lia.
Qed.

(** ** The sentinel against legal sensor output *)

Lemma V_lt_succ_100 (m : positive) (e : Z) :
  V m e <= V 13107199 (-17) -> V m e < V 13107200 (-17).
Proof. intros H. apply Z.le_lt_trans with (V 13107199 (-17)); [exact H|reflexivity]. Qed.

Lemma hum_in_range (x : f32) :
  (x = S754_zero false \/
   exists m e, x = S754_finite false m e /\ canon m e /\ e <= -16 /\
               V m e <= V 13107199 (-17)) ->
  fleb f_0 x = true /\ fltb x f_100 = true /\ feqb x f_m100 = false.
Proof.
  intros [->|(m & e & -> & Hc & _ & Hv)]; [repeat split|].
  split; [reflexivity|]. split; [|reflexivity].
  unfold fltb, SFltb, f_100. rewrite compare_pos;
    [|exact Hc|split; [cbn; lia|lia]].
  apply V_lt_succ_100 in Hv. apply Z.compare_lt_iff in Hv. rewrite Hv. reflexivity.
Qed.

Lemma temp_in_range (x : f32) :
  (x = S754_zero false \/
   (exists m e, x = S754_finite false m e /\ canon m e /\ e <= -16 /\
                V m e <= V 9830399 (-16)) \/
   (exists m e, x = S754_finite true m e /\ canon m e /\ e <= -16 /\
                V m e <= V 13107200 (-18))) ->
  fleb f_m50 x = true /\ fltb x f_150 = true /\ fleb x f_m100 = false.
Proof.
  intros [->|[(m & e & -> & Hc & _ & Hv)|(m & e & -> & Hc & _ & Hv)]].
  - repeat split.
  - split; [reflexivity|]. split; [|reflexivity].
    unfold fltb, SFltb, f_150. rewrite compare_pos;
      [|exact Hc|split; [cbn; lia|lia]].
    assert (Hlt : V m e < V 9830400 (-16))
      by (apply Z.le_lt_trans with (V 9830399 (-16)); [exact Hv|reflexivity]).
    apply Z.compare_lt_iff in Hlt. rewrite Hlt. reflexivity.
  - split; [|split; [reflexivity|]].
    + unfold fleb, SFleb, f_m50. rewrite compare_neg;
        [|split; [cbn; lia|lia]|exact Hc].
      destruct (Z.compare_spec (V m e) (V 13107200 (-18))); [reflexivity|reflexivity|lia].
    + unfold fleb, SFleb, f_m100. rewrite compare_neg;
        [|exact Hc|split; [cbn; lia|lia]].
      assert (Hlt : V m e < V 13107200 (-17))
        by (apply Z.le_lt_trans with (V 13107200 (-18)); [exact Hv|reflexivity]).
      apply Z.compare_gt_iff in Hlt. rewrite Hlt. reflexivity.
Qed.

(** C9: for every six bytes of a successful response the converted reading
    has [0 <= hum < 100] and [-50 <= temp < 150] in binary32 arithmetic, and
    the failure classifier rejects it; the classifier accepts the sentinel. *)
Theorem sentinel_never_collides :
  (forall buf,
      let r := aht20_result SUCCESS buf in
      fleb f_0 (hum r) = true /\ fltb (hum r) f_100 = true /\
      fleb f_m50 (temp r) = true /\ fltb (temp r) f_150 = true /\
      is_failed r = false) /\
  is_failed FAILRESULT = true.
Proof.
  split; [|reflexivity].
  intros buf. cbv zeta. unfold aht20_result. cbn [Z.eqb SUCCESS Pos.eqb temp hum].
  destruct (hum_in_range _ (hum_of_raw_range _ (raw_h_range buf))) as (Hh1 & Hh2 & Hh3).
  destruct (temp_in_range _ (temp_of_raw_range _ (raw_t_range buf))) as (Ht1 & Ht2 & Ht3).
  unfold is_failed. cbn [temp hum]. rewrite Hh3, Ht3. auto.
Qed.

(** ** The payload *)

Lemma length_append (s1 s2 : string) :
  String.length (s1 ++ s2) = (String.length s1 + String.length s2)%nat.
Proof. induction s1 as [|c s1 IH]; cbn; [reflexivity|]. rewrite IH. reflexivity. Qed.

Lemma substring_length (n : nat) (s : string) :
  (String.length (substring 0 n s) <= n)%nat.
Proof.
  revert s. induction n as [|n IH]; intros s; destruct s as [|c s]; cbn; try lia.
  specialize (IH s). lia.
Qed.

Lemma substring_all (n : nat) (s : string) :
  (String.length s <= n)%nat -> substring 0 n s = s.
Proof.
  revert s. induction n as [|n IH]; intros s; destruct s as [|c s]; cbn; intros H;
    try reflexivity; try lia.
  rewrite IH by lia. reflexivity.
Qed.

Lemma dec_digits_length (fuel : nat) (n : Z) (acc : string) :
  (String.length (dec_digits fuel n acc) <= fuel + String.length acc)%nat.
Proof.
  revert n acc. induction fuel as [|fuel IH]; intros n acc; cbn [dec_digits].
  - lia.
  - destruct (n <? 10); [cbn; lia|].
    etransitivity; [apply IH|]. cbn. lia.
Qed.

Lemma dec_length (n k : Z) :
  0 <= n < 2 ^ k -> 0 < k -> (String.length (dec n) <= Z.to_nat k)%nat.
Proof.
  intros Hn Hk. unfold dec.
  etransitivity; [apply dec_digits_length|]. cbn [String.length].
  destruct (Z.eq_dec n 0) as [->|Hn0]; [cbn; lia|].
  assert (Z.log2 n < k) by (apply Z.log2_lt_pow2; lia).
  pose proof (Z.log2_nonneg n). lia.
Qed.

Lemma dec_small (n : Z) : 0 <= n < 10 -> dec n = String (digit_char n) "".
Proof.
  intros H. unfold dec. cbn [dec_digits].
  replace (n <? 10) with true by (symmetry; apply Z.ltb_lt; lia).
  rewrite Z.mod_small by lia. reflexivity.
Qed.

Lemma digit_char_value (d : Z) :
  0 <= d < 10 -> Z.of_nat (nat_of_ascii (digit_char d)) - 48 = d.
Proof.
  intros H. unfold digit_char. rewrite nat_ascii_embedding by lia. lia.
Qed.

Lemma dec_digits_value (fuel : nat) (n : Z) (acc : string) :
  0 <= n < 10 ^ Z.of_nat fuel ->
  dec_value (dec_digits fuel n acc) =
  n * 10 ^ Z.of_nat (String.length acc) + dec_value acc.
Proof.
  revert n acc. induction fuel as [|fuel IH]; intros n acc Hn.
  - cbn in Hn. assert (n = 0) by lia. subst n. reflexivity.
  - cbn [dec_digits].
    pose proof (Z.mod_pos_bound n 10 ltac:(lia)) as Hm.
    assert (Hacc : dec_value (String (digit_char (n mod 10)) acc) =
                   n mod 10 * 10 ^ Z.of_nat (String.length acc) + dec_value acc).
    { cbn [dec_value]. rewrite digit_char_value by lia. reflexivity. }
    destruct (Z.ltb_spec n 10) as [Hlt|Hge].
    + rewrite Hacc, Z.mod_small by lia. reflexivity.
    + rewrite IH.
      * rewrite Hacc. cbn [String.length].
        rewrite Nat2Z.inj_succ, Z.pow_succ_r by lia.
        pose proof (Z.div_mod n 10 ltac:(lia)). nia.
      * rewrite Nat2Z.inj_succ, Z.pow_succ_r in Hn by lia.
        split; [apply Z.div_pos; lia|apply Z.div_lt_upper_bound; lia].
Qed.

(** The digits [dec] writes denote the number: in particular the recursion
    never stops short of the leading digit. *)
Lemma dec_value_dec (n : Z) : 0 <= n -> dec_value (dec n) = n.
Proof.
  intros Hn. unfold dec. rewrite dec_digits_value.
  - cbn. lia.
  - split; [exact Hn|].
    destruct (Z.eq_dec n 0) as [->|Hn0]; [reflexivity|].
    pose proof (Z.log2_nonneg n).
    rewrite Nat2Z.inj_succ, Z2Nat.id by lia.
    apply Z.lt_le_trans with (2 ^ Z.succ (Z.log2 n)).
    + apply Z.log2_spec. lia.
    + apply Z.pow_le_mono_l. lia.
Qed.

(** [tenths] is a nearest integer to ten times the magnitude. *)
Lemma tenths_nearest (m : positive) (e : Z) :
  (0 <= e -> tenths m e = Zpos m * 2 ^ e * 10) /\
  (e < 0 -> 2 * Z.abs (Zpos m * 10 - tenths m e * 2 ^ (- e)) <= 2 ^ (- e)).
Proof.
  unfold tenths. split; intros He.
  - replace (0 <=? e) with true by (symmetry; apply Z.leb_le; lia). reflexivity.
  - replace (0 <=? e) with false by (symmetry; apply Z.leb_gt; lia).
    cbv zeta.
    assert (Hd : 0 < 2 ^ (- e)) by (apply Z.pow_pos_nonneg; lia).
    pose proof (Z.div_mod (Zpos m * 10) (2 ^ (- e)) ltac:(lia)) as Hdm.
    pose proof (Z.mod_pos_bound (Zpos m * 10) (2 ^ (- e)) Hd) as Hb.
    set (d := 2 ^ (- e)) in *. set (q := Zpos m * 10 / d) in *.
    set (r := (Zpos m * 10) mod d) in *.
    destruct (Z.ltb_spec (2 * r) d); [|destruct (Z.ltb_spec d (2 * r))];
      [| |assert (2 * r = d) by lia; destruct (Z.even q)]; nia.
Qed.

Lemma tenths_nonneg (m : positive) (e : Z) : 0 <= tenths m e.
Proof.
  unfold tenths. destruct (0 <=? e) eqn:He.
  - apply Z.leb_le in He.
    assert (0 < 2 ^ e) by (apply Z.pow_pos_nonneg; lia). nia.
  - apply Z.leb_gt in He.
    assert (0 < 2 ^ (- e)) by (apply Z.pow_pos_nonneg; lia).
    assert (0 <= Zpos m * 10 / 2 ^ (- e)) by (apply Z.div_pos; lia).
    cbv zeta. repeat match goal with |- context [if ?b then _ else _] => destruct b end; lia.
Qed.

Lemma tenths_small (m : positive) (e : Z) :
  canon m e -> e <= -16 -> tenths m e < 2 ^ 12.
Proof.
  intros [Hm He] Hle. unfold tenths.
  replace (0 <=? e) with false by (symmetry; apply Z.leb_gt; lia).
  cbv zeta.
  assert (Hd : 2 ^ 16 <= 2 ^ (- e)) by (apply Z.pow_le_mono_r; lia).
  assert (Hq : Zpos m * 10 / 2 ^ (- e) < 2560).
  { apply Z.div_lt_upper_bound; [lia|].
    change (2 ^ 24) with 16777216 in Hm. change (2 ^ 16) with 65536 in Hd. nia. }
  change (2 ^ 12) with 4096.
  repeat match goal with |- context [if ?b then _ else _] => destruct b end; lia.
Qed.

Lemma fmt_f1_finite (s : bool) (m : positive) (e : Z) :
  fmt_f1 (S754_finite s m e) =
  (sign_str s ++ dec (tenths m e / 10) ++ "." ++
   String (digit_char (tenths m e mod 10)) "")%string.
Proof.
  cbn [fmt_f1]. rewrite (dec_small (tenths m e mod 10)); [reflexivity|].
  apply Z.mod_pos_bound. lia.
Qed.

Lemma fmt_f1_length (s : bool) (m : positive) (e : Z) :
  canon m e -> e <= -16 ->
  (String.length (fmt_f1 (S754_finite s m e)) <= 15)%nat.
Proof.
  intros Hc He. rewrite fmt_f1_finite, !length_append.
  pose proof (tenths_nonneg m e). pose proof (tenths_small m e Hc He).
  assert (Hd : (String.length (dec (tenths m e / 10)) <= 12)%nat).
  { apply (dec_length _ 12); [|lia]. change (2 ^ 12) with 4096 in *.
    split; [apply Z.div_pos; lia|]. apply Z.div_lt_upper_bound; lia. }
  destruct s; cbn [sign_str String.length]; lia.
Qed.

Lemma render_length (t h : f32) :
  (String.length (fmt_f1 t) <= 15)%nat -> (String.length (fmt_f1 h) <= 15)%nat ->
  (String.length (render (new_aht22result t h)) <= 44)%nat.
Proof.
  intros Ht Hh. unfold render. cbn [temp hum].
  rewrite !length_append. cbn [String.length degree]. lia.
Qed.

Lemma sensor_reading_renders (buf : I2cBuf) :
  let r := aht20_result SUCCESS buf in
  is_failed r = false /\ format_payload r = render r.
Proof.
  cbv zeta. unfold aht20_result. cbn [Z.eqb SUCCESS Pos.eqb].
  pose proof (hum_of_raw_range _ (raw_h_range buf)) as Hh.
  pose proof (temp_of_raw_range _ (raw_t_range buf)) as Ht.
  destruct (hum_in_range _ Hh) as (_ & _ & Hh3).
  destruct (temp_in_range _ Ht) as (_ & _ & Ht3).
  assert (Hf : is_failed (new_aht22result (temp_of_raw (raw_t buf))
                                          (hum_of_raw (raw_h buf))) = false).
  { unfold is_failed. cbn [temp hum]. rewrite Hh3, Ht3. reflexivity. }
  split; [exact Hf|].
  unfold format_payload. rewrite Hf. apply substring_all.
  assert (Hlh : (String.length (fmt_f1 (hum_of_raw (raw_h buf))) <= 15)%nat).
  { destruct Hh as [->|(m & e & -> & Hc & He & _)]; [cbn; lia|].
    apply fmt_f1_length; assumption. }
  assert (Hlt : (String.length (fmt_f1 (temp_of_raw (raw_t buf))) <= 15)%nat).
  { destruct Ht as [->|[(m & e & -> & Hc & He & _)|(m & e & -> & Hc & He & _)]];
      [cbn; lia| |]; apply fmt_f1_length; assumption. }
  pose proof (render_length _ _ Hlt Hlh). unfold PAYLOAD_SIZE. lia.
Qed.

(** * Further properties of the code *)

(** ** The deadline test *)

Lemma i64_id (x : Z) : - 2 ^ 63 <= x < 2 ^ 63 -> i64 x = x.
Proof.
  intros H. unfold i64.
  change (2 ^ 64) with (2 * 2 ^ 63). 
  rewrite Z.mod_small; lia.
Qed.

Lemma quot_gt_iff (d ms : Z) :
  0 <= ms -> (Z.quot d 1000 >? ms) = ((ms + 1) * 1000 <=? d).
Proof.
  intros Hms.
  destruct (Z_lt_le_dec d 0) as [Hneg|Hpos].
  - assert (Hq : Z.quot d 1000 <= 0).
    { rewrite <- (Z.opp_involutive d), Z.quot_opp_l by lia.
      assert (0 <= Z.quot (- d) 1000) by (apply Z.quot_pos; lia). lia. }
    destruct (Z.gtb_spec (Z.quot d 1000) ms); destruct (Z.leb_spec ((ms + 1) * 1000) d);
      try reflexivity; lia.
  - rewrite Z.quot_div_nonneg by lia.
    destruct (Z.gtb_spec (d / 1000) ms); destruct (Z.leb_spec ((ms + 1) * 1000) d);
      try reflexivity.
    + assert (d / 1000 < ms + 1) by (apply Z.div_lt_upper_bound; lia). lia.
    + assert (ms + 1 <= d / 1000) by (apply Z.div_le_lower_bound; lia). lia.
Qed.

(** X1. [ms_passed] counts whole milliseconds and compares strictly: as long
    as the difference of the two times fits an [int64_t], it answers true
    exactly from [ms + 1] full milliseconds on (and false for a time [t] that
    lies in the future); it changes nothing and calls nothing. *)
Theorem ms_passed_threshold (t ms : Z) (m : Machine) :
  0 <= ms ->
  - 2 ^ 63 <= clock m - t < 2 ^ 63 ->
  ms_passed t ms m = ((ms + 1) * 1000 <=? clock m - t, m, []).
Proof.
  intros Hms Hd. unfold ms_passed, bind, get_absolute_time, get, ret.
  cbn [app]. unfold absolute_time_diff_us.
  rewrite (i64_id _ Hd), (quot_gt_iff _ _ Hms). reflexivity.
Qed.

Lemma ms_passed_threshold_witness :
  ms_passed 5000000 DEADLINE_MS (mk_machine 305000999 5000000 false true 0) =
    (false, mk_machine 305000999 5000000 false true 0, []) /\
  ms_passed 5000000 DEADLINE_MS (mk_machine 305001000 5000000 false true 0) =
    (true, mk_machine 305001000 5000000 false true 0, []).
Proof.
  split.
  - apply (ms_passed_threshold 5000000 DEADLINE_MS
             (mk_machine 305000999 5000000 false true 0)).
    + unfold DEADLINE_MS; lia.
    + cbn [clock]. split; [vm_compute; discriminate | reflexivity].
  - apply (ms_passed_threshold 5000000 DEADLINE_MS
             (mk_machine 305001000 5000000 false true 0)).
    + unfold DEADLINE_MS; lia.
    + cbn [clock]. split; [vm_compute; discriminate | reflexivity].
Defined.

(** ** The boot sequence *)

Lemma wifi_connect_spec (r us : Z) (m : Machine) :
  wifi_connect r us m = (r =? 0, with_clock (clock m + us) m, [WifiConnect]).
Proof. reflexivity. Qed.

Lemma sleep_ms_spec (ms : Z) (m : Machine) :
  sleep_ms ms m = (tt, with_clock (clock m + ms * 1000) m, [SleepMs ms]).
Proof. reflexivity. Qed.

Lemma boot_connect_cons (r us : Z) (rest : list (Z * Z)) (m : Machine) :
  boot_connect ((r, us) :: rest) m =
  if r =? 0 then (true, with_clock (clock m + us) m, [WifiConnect])
  else prepend [WifiConnect; SleepMs 2000]
         (boot_connect rest (with_clock (clock m + us + 2000 * 1000) m)).
Proof.
  cbn [boot_connect]. rewrite bind_spec, wifi_connect_spec.
  cbn [result_of machine_of trace_of fst snd].
  destruct (r =? 0); [reflexivity|].
  rewrite bind_spec, sleep_ms_spec. cbn [result_of machine_of trace_of fst snd].
  destruct m as [c l s f x]. cbn [with_clock clock last_ok safe_mode mqtt_connected scratch0].
  destruct (boot_connect rest _) as [[a m'] t]. reflexivity.
Qed.

Lemma boot_connect_result (attempts : list (Z * Z)) (m : Machine) :
  result_of (boot_connect attempts m) = existsb (fun a => fst a =? 0) attempts.
Proof.
  revert m. induction attempts as [|[r us] rest IH]; intros m; [reflexivity|].
  rewrite boot_connect_cons. cbn [existsb fst].
  destruct (r =? 0); [reflexivity|]. rewrite result_prepend. apply IH.
Qed.

Lemma wait_connected_cons (cbs : list Z) (rest : list (list Z)) (m : Machine) :
  wait_connected (cbs :: rest) m =
  let m0 := with_mqtt_connected (flag_after cbs (mqtt_connected m)) m in
  if flag_after cbs (mqtt_connected m) then (true, m0, [])
  else prepend [SleepMs 10]
         (wait_connected rest (with_clock (clock m + 10 * 1000) m0)).
Proof.
  cbn [wait_connected]. rewrite bind_spec, deliver_callbacks_spec.
  cbn [result_of machine_of trace_of fst snd]. cbv zeta.
  rewrite bind_spec. cbn [get result_of machine_of trace_of fst snd].
  destruct m as [c l s f x]. cbn [with_mqtt_connected clock last_ok safe_mode mqtt_connected scratch0].
  destruct (flag_after cbs f); [reflexivity|].
  rewrite bind_spec, sleep_ms_spec. cbn [result_of machine_of trace_of fst snd].
  cbn [with_clock clock last_ok safe_mode mqtt_connected scratch0].
  destruct (wait_connected rest _) as [[a m'] t]. reflexivity.
Qed.

Lemma wait_connected_result (polls : list (list Z)) (m : Machine) :
  result_of (wait_connected polls m) = connects polls (mqtt_connected m).
Proof.
  revert m. induction polls as [|cbs rest IH]; intros m; [reflexivity|].
  rewrite wait_connected_cons. cbv zeta. cbn [connects].
  destruct (flag_after cbs (mqtt_connected m)) eqn:Hf; [reflexivity|].
  rewrite result_prepend, IH. destruct m; cbn. reflexivity.
Qed.

Lemma wait_connected_flag (polls : list (list Z)) (m : Machine) :
  result_of (wait_connected polls m) = true ->
  mqtt_connected (machine_of (wait_connected polls m)) = true.
Proof.
  revert m. induction polls as [|cbs rest IH]; intros m; [discriminate|].
  rewrite wait_connected_cons. cbv zeta.
  destruct (flag_after cbs (mqtt_connected m)) eqn:Hf.
  - intros _. destruct m; reflexivity.
  - rewrite result_prepend, machine_prepend. apply IH.
Qed.

Lemma boot_radio_result (b : BootEnv) (safe : bool) (m : Machine) :
  result_of (boot_radio b safe m) =
  safe || existsb (fun a => fst a =? 0) (boot_wifi b).
Proof.
  unfold boot_radio. destruct safe; cbn [negb orb]; [reflexivity|].
  rewrite result_bind, boot_connect_result.
  destruct (existsb _ _); reflexivity.
Qed.

Lemma boot_radio_flag (b : BootEnv) (safe : bool) :
  preserves mqtt_connected (boot_radio b safe).
Proof. apply preserves_boot_radio; intros; destruct m; reflexivity. Qed.

Lemma boot_session_result (b : BootEnv) (m : Machine) :
  result_of (boot_session b m) =
  if negb (client_new_ok b) then Exit (-1)
  else if negb (boot_mqtt_err b =? ERR_OK) then Exit (-1)
  else if connects (wait_cb b) (mqtt_connected m) then Enter else Stuck.
Proof.
  unfold boot_session. destruct (client_new_ok b); cbn [negb]; [|reflexivity].
  do 3 (rewrite result_bind; cbn [emit result_of machine_of fst snd]).
  destruct (boot_mqtt_err b =? ERR_OK); cbn [negb]; [|reflexivity].
  rewrite result_bind, wait_connected_result.
  destruct (connects _ _); reflexivity.
Qed.

Lemma boot_session_flag (b : BootEnv) (m : Machine) :
  result_of (boot_session b m) = Enter ->
  mqtt_connected (machine_of (boot_session b m)) = true.
Proof.
  unfold boot_session. destruct (client_new_ok b); cbn [negb]; [|discriminate].
  do 3 (rewrite result_bind, machine_bind; cbn [emit result_of machine_of fst snd]).
  destruct (boot_mqtt_err b =? ERR_OK); cbn [negb]; [|discriminate].
  rewrite result_bind, machine_bind.
  pose proof (wait_connected_flag (wait_cb b) m) as Hw.
  destruct (result_of (wait_connected (wait_cb b) m)); cbn [negb]; [|discriminate].
  intros _. specialize (Hw eq_refl).
  destruct (machine_of (wait_connected (wait_cb b) m)) as [c l s f x].
  cbn in Hw |- *. exact Hw.
Qed.

Lemma boot_after_guard_result (b : BootEnv) (safe : bool) (m : Machine) :
  result_of (boot_after_guard b safe m) =
  if negb (arch_init_r b =? 0) then Exit (-1)
  else if negb (safe || existsb (fun a => fst a =? 0) (boot_wifi b)) then Stuck
  else if negb (client_new_ok b) then Exit (-1)
  else if negb (boot_mqtt_err b =? ERR_OK) then Exit (-1)
  else if connects (wait_cb b) (mqtt_connected m) then Enter else Stuck.
Proof.
  unfold boot_after_guard. destruct (arch_init_r b =? 0); cbn [negb]; [|reflexivity].
  rewrite result_bind. cbn [emit result_of machine_of fst snd].
  rewrite result_bind, boot_radio_result.
  destruct (safe || existsb _ _); cbn [negb]; [|reflexivity].
  rewrite boot_session_result, boot_radio_flag. reflexivity.
Qed.

Lemma boot_after_guard_flag (b : BootEnv) (safe : bool) (m : Machine) :
  result_of (boot_after_guard b safe m) = Enter ->
  mqtt_connected (machine_of (boot_after_guard b safe m)) = true.
Proof.
  unfold boot_after_guard. destruct (arch_init_r b =? 0); cbn [negb]; [|discriminate].
  rewrite result_bind, machine_bind. cbn [emit result_of machine_of fst snd].
  rewrite result_bind, machine_bind.
  destruct (result_of (boot_radio b safe m)); cbn [negb]; [|discriminate].
  apply boot_session_flag.
Qed.

(** X2. How the boot ends is decided by the answers of the SDK alone: [main]
    returns, always with -1, when the radio driver, the client allocation or
    the connect request fails; it stays in a waiting loop when no connect
    attempt of the Normal boot succeeds or no accepted status arrives; it
    enters the main loop otherwise, and then with [mqtt_connected] set. *)
Theorem boot_outcome (b : BootEnv) (m : Machine) :
  let cnt := guard_counter (watchdog_caused_reboot b) (scratch0 m) in
  let safe := cnt >=? SAFE_REBOOTS in
  let joined := safe || existsb (fun a => fst a =? 0) (boot_wifi b) in
  let r := main_boot b m in
  result_of r =
    (if negb (arch_init_r b =? 0) then Exit (-1)
     else if negb joined then Stuck
     else if negb (client_new_ok b) then Exit (-1)
     else if negb (boot_mqtt_err b =? ERR_OK) then Exit (-1)
     else if connects (wait_cb b) (mqtt_connected m) then Enter else Stuck) /\
  (result_of r = Enter -> mqtt_connected (machine_of r) = true) /\
  (forall code, result_of r = Exit code -> code = -1).
Proof.
  cbv zeta. rewrite main_boot_spec. cbv zeta.
  rewrite result_prepend, machine_prepend, boot_after_guard_result.
  cbn [mqtt_connected].
  split; [reflexivity|]. split.
  - rewrite <- (boot_after_guard_result b _
                  (mk_machine (clock m + 1500 * 1000) (last_ok m)
                     (guard_counter (watchdog_caused_reboot b) (scratch0 m) >=? SAFE_REBOOTS)
                     (mqtt_connected m)
                     (guard_counter (watchdog_caused_reboot b) (scratch0 m)))).
    apply boot_after_guard_flag.
  - intros code.
    repeat match goal with
           | |- context [if ?c then _ else _] => destruct c
           end; intros H; inversion H; reflexivity.
Qed.

Lemma boot_outcome_witness :
  result_of (main_boot boot_fifth_watchdog (reset_machine 4)) = Enter /\
  mqtt_connected (machine_of (main_boot boot_fifth_watchdog (reset_machine 4))) = true.
Proof.
  split; [reflexivity|].
  apply (boot_outcome boot_fifth_watchdog (reset_machine 4)). reflexivity.
Defined.

(** X3. The connect loop of the Normal boot tries again after every failure,
    2000 ms later, and leaves at the first attempt that returns 0: after [n]
    failures it has called the driver [n + 1] times and spent the time the
    calls blocked plus [n] times 2000 ms.  While every attempt fails it does
    not leave. *)
Theorem boot_connect_retries (fails rest : list (Z * Z)) (us : Z) (m : Machine) :
  Forall (fun a => fst a <> 0) fails ->
  boot_connect (fails ++ (0, us) :: rest) m =
    (true,
     with_clock (clock m + blocked fails +
                 2000 * 1000 * Z.of_nat (List.length fails) + us) m,
     retries (List.length fails) ++ [WifiConnect]) /\
  result_of (boot_connect fails m) = false.
Proof.
  intros Hf. revert m. induction Hf as [|[r d] fails Hr Hf IH]; intros m.
  - split; [|reflexivity]. cbn [app]. rewrite boot_connect_cons.
    cbn [Z.eqb blocked fold_right List.length retries repeat List.concat app Z.of_nat].
    replace (clock m + 0 + 2000 * 1000 * 0 + us) with (clock m + us) by lia.
    reflexivity.
  - cbn [fst] in Hr. apply Z.eqb_neq in Hr.
    split.
    + cbn [app]. rewrite boot_connect_cons, Hr.
      destruct (IH (with_clock (clock m + d + 2000 * 1000) m)) as [IH1 _].
      rewrite IH1. unfold prepend. cbn [fst snd].
      cbn [retries repeat List.concat List.length blocked fold_right snd app].
      rewrite Nat2Z.inj_succ. fold (blocked fails).
      destruct m as [c0 l s f x].
      unfold with_clock. cbn [clock last_ok safe_mode mqtt_connected scratch0].
      unfold retries. f_equal. f_equal. f_equal. lia.
    + rewrite boot_connect_cons, Hr, result_prepend. apply IH.
Qed.

Lemma boot_connect_retries_witness :
  boot_connect [(-2, 30000000); (-7, 2000000); (0, 4000000)] (reset_machine 0) =
  (true, with_clock 40000000 (reset_machine 0),
   [WifiConnect; SleepMs 2000; WifiConnect; SleepMs 2000; WifiConnect]).
Proof.
  apply (boot_connect_retries [(-2, 30000000); (-7, 2000000)] [] 4000000
           (reset_machine 0)).
  repeat constructor; cbn; discriminate.
Defined.

(** X4. The wait loop of the boot polls the flag every 10 ms and leaves at
    the first test that finds it set, with the flag set; the loop adds no
    call of its own besides the sleeps. *)
Theorem wait_connected_polls (waits rest : list (list Z)) (cbs : list Z) (m : Machine) :
  mqtt_connected m = false ->
  Forall (fun c => flag_after c false = false) waits ->
  flag_after cbs false = true ->
  wait_connected (waits ++ cbs :: rest) m =
    (true,
     with_clock (clock m + 10 * 1000 * Z.of_nat (List.length waits))
                (with_mqtt_connected true m),
     repeat (SleepMs 10) (List.length waits)) /\
  result_of (wait_connected waits m) = false.
Proof.
  intros Hm Hw Hc. revert m Hm. induction Hw as [|c waits Hcf Hw IH]; intros m Hm.
  - split; [|reflexivity]. cbn [app]. rewrite wait_connected_cons. cbv zeta.
    rewrite Hm, Hc. cbn [List.length repeat Z.of_nat].
    destruct m; cbn. rewrite Z.add_0_r. reflexivity.
  - split.
    + cbn [app]. rewrite wait_connected_cons. cbv zeta. rewrite Hm, Hcf.
      destruct (IH (with_clock (clock m + 10 * 1000) (with_mqtt_connected false m)))
        as [IH1 _]; [destruct m; reflexivity|].
      rewrite IH1. unfold prepend. cbn [fst snd List.length repeat app].
      rewrite Nat2Z.inj_succ. destruct m as [c0 l s f x].
      unfold with_clock, with_mqtt_connected.
      cbn [clock last_ok safe_mode mqtt_connected scratch0].
      f_equal. f_equal. f_equal. lia.
    + rewrite wait_connected_cons. cbv zeta. rewrite Hm, Hcf, result_prepend.
      apply IH. destruct m; reflexivity.
Qed.

Lemma wait_connected_polls_witness :
  wait_connected [[]; [5]; [0]] (reset_machine 0) =
  (true, with_clock 20000 (with_mqtt_connected true (reset_machine 0)),
   [SleepMs 10; SleepMs 10]).
Proof.
  apply (wait_connected_polls [[]; [5]] [] [0] (reset_machine 0));
    [reflexivity | repeat constructor | reflexivity].
Defined.

Lemma feed_times_none (t : list event) :
  forallb (fun ev => negb (is_feed ev)) t = true -> feed_times t = [].
Proof.
  induction t as [|ev t IH]; [reflexivity|].
  cbn [forallb]. intros H. apply andb_true_iff in H. destruct H as [H1 H2].
  destruct ev; cbn in H1; try discriminate; cbn [feed_times]; apply IH, H2.
Qed.

Lemma loop_body_no_enable (e : CycleEnv) (m : Machine) :
  filter is_watchdog_enable (trace_of (loop_body e m)) = [].
Proof. loop_cases e m; reflexivity. Qed.

Lemma main_loop_no_enable (es : list CycleEnv) (m : Machine) :
  filter is_watchdog_enable (trace_of (main_loop es m)) = [].
Proof.
  revert m. induction es as [|e es IH]; intros m; [reflexivity|].
  cbn [main_loop]. rewrite trace_bind, filter_app, loop_body_no_enable.
  destruct (result_of (loop_body e m)); [apply IH|reflexivity].
Qed.

Lemma boot_after_guard_quiet (f : event -> bool) (b : BootEnv) (safe : bool)
      (m : Machine) :
  (forall ms, f (SleepMs ms) = false) -> (forall on, f (Led on) = false) ->
  f (WifiSetUp false) = false -> f WifiConnect = false ->
  f MqttClientConnect = false -> (forall t, f (LastOkStore t) = false) ->
  f StaMode = false -> f LwipBegin = false -> f LwipEnd = false ->
  forallb (fun ev => negb (f ev)) (trace_of (boot_after_guard b safe m)) = true.
Proof.
  intros H1 H2 H3 H4 H5 H6 H7 H8 H9.
  apply (boot_after_guard_emits (fun ev => negb (f ev)) b safe);
    intros; rewrite ?H1, ?H2, ?H3, ?H4, ?H5, ?H6, ?H7, ?H8, ?H9; reflexivity.
Qed.

(** X5. Every run arms the watchdog exactly once, with the 8000 ms timeout,
    right after the start-up sleep and the write of the scratch register and
    before the radio is touched, also when [main] returns early.  The boot
    never feeds it and never requests a reboot. *)
Theorem watchdog_armed_once :
  (forall b es m,
      exists t,
        trace_of (main b es m) =
          SleepMs 1500
          :: ScratchWrite (guard_counter (watchdog_caused_reboot b) (scratch0 m))
          :: WatchdogEnable WD_TIMEOUT_MS :: t /\
        filter is_watchdog_enable t = []) /\
  (forall b m,
      feed_times (trace_of (main_boot b m)) = [] /\
      filter is_reboot (trace_of (main_boot b m)) = []).
Proof.
  split.
  - intros b es m.
    destruct (main_trace b es m) as (t & Ht & Hcase & _).
    rewrite Ht, main_boot_spec. cbv zeta. rewrite trace_prepend.
    cbn [app]. eexists. split; [reflexivity|].
    rewrite filter_app. rewrite forallb_negb_filter.
    + destruct Hcase as [Hc|Hc]; rewrite Hc; [reflexivity|].
      apply main_loop_no_enable.
    + apply boot_after_guard_quiet; reflexivity.
  - intros b m. rewrite main_boot_spec. cbv zeta. rewrite trace_prepend.
    split.
    + cbn [app feed_times]. apply feed_times_none.
      apply boot_after_guard_quiet; reflexivity.
    + cbn [app filter is_reboot]. apply forallb_negb_filter.
      apply boot_after_guard_quiet; reflexivity.
Qed.

(** ** One iteration of the main loop, case by case *)

Lemma deadline_passed_iff (m : Machine) :
  - 2 ^ 63 <= clock m - last_ok m < 2 ^ 63 ->
  deadline_passed m = ((DEADLINE_MS + 1) * 1000 <=? clock m - last_ok m).
Proof.
  intros H. unfold deadline_passed, absolute_time_diff_us.
  rewrite (i64_id _ H). apply quot_gt_iff. unfold DEADLINE_MS. lia.
Qed.

Lemma healthy_connected (e : CycleEnv) (m : Machine) :
  healthy e m = true -> connected_of e m = true.
Proof. unfold healthy. intros H. apply health_state_true in H. tauto. Qed.

Lemma loop_body_healthy (e : CycleEnv) (m : Machine) :
  healthy e m = true ->
  loop_body e m =
  (Continue,
   mk_machine (clock m + i2c_w_us e + 80 * 1000 + i2c_r_us e + 1000 * 1000)
              (clock m) (safe_mode m) true (scratch0 m),
   [WatchdogUpdate (clock m); LastOkStore (clock m);
    I2cWrite; SleepMs 80; I2cRead; LwipBegin;
    MqttPublish (format_payload (aht20_result (i2c_r e) (i2c_buf e)));
    LwipEnd; SleepMs 1000]).
Proof.
  intros Hh. rewrite loop_body_spec. cbv zeta. rewrite Hh.
  rewrite escalate_and_publish_spec.
  replace (deadline_passed _) with false
    by (symmetry;
        apply (deadline_not_passed_now (with_mqtt_connected (connected_of e m) m))).
  rewrite andb_false_r, (healthy_connected e m Hh).
  destruct m; reflexivity.
Qed.

Lemma loop_body_recovered (e : CycleEnv) (m : Machine) :
  healthy e m = false -> reconnect_ok e = true ->
  loop_body e m =
  if negb (safe_mode m) && deadline_passed (with_clock (clock m + wifi_us e) m) then
    (Halted,
     mk_machine (clock m + wifi_us e + 50 * 1000)
                (last_ok m) (safe_mode m) (connected_of e m) (scratch0 m),
     WatchdogUpdate (clock m) :: reconnect_trace e ++
       [Printf ("WDT reboot requested: no recovery >5min" ++ newline)%string;
        SleepMs 50; WatchdogReboot])
  else
    (Continue,
     mk_machine (clock m + cycle_time e)
                (last_ok m) (safe_mode m) (connected_of e m) (scratch0 m),
     WatchdogUpdate (clock m) :: reconnect_trace e ++
       [I2cWrite; SleepMs 80; I2cRead; LwipBegin;
        MqttPublish (format_payload (aht20_result (i2c_r e) (i2c_buf e)));
        LwipEnd; SleepMs 1000]).
Proof.
  intros Hh Hr. rewrite loop_body_spec. cbv zeta. rewrite Hh, Hr.
  rewrite escalate_and_publish_spec.
  replace (deadline_passed
             (with_clock (clock m + wifi_us e)
                (with_mqtt_connected (connected_of e m) m)))
    with (deadline_passed (with_clock (clock m + wifi_us e) m))
    by (destruct m; reflexivity).
  replace (safe_mode (with_clock (clock m + wifi_us e)
                        (with_mqtt_connected (connected_of e m) m)))
    with (safe_mode m) by (destruct m; reflexivity).
  destruct (negb (safe_mode m) && _);
    unfold prepend, cycle_time, with_clock, with_mqtt_connected;
    destruct m as [c l s f x];
    cbn [fst snd app clock last_ok safe_mode mqtt_connected scratch0];
    f_equal; f_equal; f_equal; lia.
Qed.

Lemma loop_body_failed (e : CycleEnv) (m : Machine) :
  healthy e m = false -> reconnect_ok e = false ->
  loop_body e m =
  (Continue,
   mk_machine (clock m + wifi_us e + 1000 * 1000)
              (last_ok m) (safe_mode m) (connected_of e m) (scratch0 m),
   WatchdogUpdate (clock m) :: reconnect_trace e ++ [SleepMs 1000]).
Proof.
  intros Hh Hr. rewrite loop_body_spec. cbv zeta. rewrite Hh, Hr.
  destruct m; reflexivity.
Qed.

Lemma publishes_app (t1 t2 : list event) :
  publishes (t1 ++ t2) = publishes t1 ++ publishes t2.
Proof.
  induction t1 as [|ev t1 IH]; [reflexivity|].
  destruct ev; cbn; rewrite ?IH; reflexivity.
Qed.

Lemma reconnect_trace_no_publish (e : CycleEnv) :
  publishes (reconnect_trace e) = [].
Proof.
  unfold reconnect_trace.
  destruct (wifi_r e =? 0); [|reflexivity].
  destruct (mqtt_err e =? ERR_OK); reflexivity.
Qed.

Lemma reconnect_trace_no_i2c (e : CycleEnv) :
  filter is_i2c (reconnect_trace e) = [].
Proof.
  unfold reconnect_trace.
  destruct (wifi_r e =? 0); [|reflexivity].
  destruct (mqtt_err e =? ERR_OK); reflexivity.
Qed.

Lemma format_payload_length (r : AHT22Result) :
  (String.length (format_payload r) < PAYLOAD_SIZE)%nat.
Proof.
  unfold format_payload, snprintf, PAYLOAD_SIZE.
  destruct (is_failed r).
  - cbn. lia.
  - pose proof (substring_length (64 - 1) (render r)). lia.
Qed.

(** What one iteration publishes, by the case it takes. *)
Lemma loop_body_publishes (e : CycleEnv) (m : Machine) :
  publishes (trace_of (loop_body e m)) =
  match result_of (loop_body e m) with
  | Halted => []
  | Continue =>
      if healthy e m || reconnect_ok e
      then [format_payload (aht20_result (i2c_r e) (i2c_buf e))]
      else []
  end.
Proof.
  destruct (healthy e m) eqn:Hh; [|destruct (reconnect_ok e) eqn:Hr].
  - rewrite (loop_body_healthy e m Hh). reflexivity.
  - rewrite (loop_body_recovered e m Hh Hr).
    destruct (negb (safe_mode m) && _);
      cbn [trace_of result_of fst snd publishes orb];
      rewrite publishes_app, reconnect_trace_no_publish; reflexivity.
  - rewrite (loop_body_failed e m Hh Hr).
    cbn [trace_of result_of fst snd publishes orb].
    rewrite publishes_app, reconnect_trace_no_publish. reflexivity.
Qed.

(** X6. An iteration whose soft recovery fails, or that requests the reboot,
    touches neither the sensor nor the broker.  Every other iteration reads
    the sensor once and publishes exactly one message, the formatted reading
    of that read, which fits the 64-byte payload buffer. *)
Theorem iteration_publishes (e : CycleEnv) (m : Machine) :
  let r := loop_body e m in
  publishes (trace_of r) =
    match result_of r with
    | Halted => []
    | Continue =>
        if healthy e m || reconnect_ok e
        then [format_payload (aht20_result (i2c_r e) (i2c_buf e))]
        else []
    end /\
  filter is_i2c (trace_of r) =
    match publishes (trace_of r) with
    | [] => []
    | _ :: _ => [I2cWrite; I2cRead]
    end /\
  Forall (fun p => (String.length p < PAYLOAD_SIZE)%nat) (publishes (trace_of r)).
Proof.
  cbv zeta. split; [apply loop_body_publishes|]. split.
  - rewrite loop_body_publishes.
    destruct (healthy e m) eqn:Hh; [|destruct (reconnect_ok e) eqn:Hr].
    + rewrite (loop_body_healthy e m Hh). reflexivity.
    + rewrite (loop_body_recovered e m Hh Hr).
      destruct (negb (safe_mode m) && _);
        cbn [trace_of result_of fst snd filter is_i2c orb];
        rewrite filter_app, reconnect_trace_no_i2c; reflexivity.
    + rewrite (loop_body_failed e m Hh Hr).
      cbn [trace_of result_of fst snd filter is_i2c orb].
      rewrite filter_app, reconnect_trace_no_i2c. reflexivity.
  - rewrite loop_body_publishes.
    destruct (result_of (loop_body e m)); [|constructor].
    destruct (healthy e m || reconnect_ok e); [|constructor].
    constructor; [apply format_payload_length|constructor].
Qed.

(** ** Runs of the main loop *)

Lemma loop_body_step (e : CycleEnv) (m : Machine) :
  nonneg_times e ->
  let r := loop_body e m in
  clock m + 1080000 * Z.of_nat (List.length (publishes (trace_of r)))
    <= clock (machine_of r) /\
  (List.length (publishes (trace_of r)) <= 1)%nat /\
  clock m <= clock (machine_of r) /\
  (last_ok m <= clock m ->
   last_ok m <= last_ok (machine_of r) <= clock (machine_of r)).
Proof.
  intros (Hw & Hi & Hj). cbv zeta. rewrite loop_body_publishes.
  destruct (healthy e m) eqn:Hh; [|destruct (reconnect_ok e) eqn:Hr].
  - rewrite (loop_body_healthy e m Hh).
    cbn [result_of machine_of fst snd clock last_ok orb List.length]. lia.
  - rewrite (loop_body_recovered e m Hh Hr).
    destruct (negb (safe_mode m) && _);
      cbn [result_of machine_of fst snd clock last_ok orb List.length];
      unfold cycle_time; lia.
  - rewrite (loop_body_failed e m Hh Hr).
    cbn [result_of machine_of fst snd clock last_ok orb List.length]. lia.
Qed.

(** X7. The main loop never publishes more often than once in 1080 ms: a run
    that has published [n] messages has taken at least [n] times the 80 ms
    wait for the sensor plus the 1000 ms sleep.  It publishes at most one
    message per iteration, and each fits the payload buffer. *)
Theorem publish_rate (es : list CycleEnv) (m : Machine) :
  Forall nonneg_times es ->
  let r := main_loop es m in
  clock m + 1080000 * Z.of_nat (List.length (publishes (trace_of r)))
    <= clock (machine_of r) /\
  (List.length (publishes (trace_of r)) <= List.length es)%nat /\
  Forall (fun p => (String.length p < PAYLOAD_SIZE)%nat) (publishes (trace_of r)).
Proof.
  intros Hes. revert m. cbv zeta.
  induction Hes as [|e es He Hes IH]; intros m.
  - cbn. split; [lia|]. split; [lia|constructor].
  - cbn [main_loop]. rewrite trace_bind, machine_bind, publishes_app, length_app.
    destruct (loop_body_step e m He) as (H1 & H2 & _).
    assert (Hlen : Forall (fun p => (String.length p < PAYLOAD_SIZE)%nat)
                     (publishes (trace_of (loop_body e m)))).
    { rewrite loop_body_publishes.
      destruct (result_of (loop_body e m)); [|constructor].
      destruct (healthy e m || reconnect_ok e); [|constructor].
      constructor; [apply format_payload_length|constructor]. }
    destruct (result_of (loop_body e m)).
    + destruct (IH (machine_of (loop_body e m))) as (I1 & I2 & I3).
      split; [|split].
      * rewrite Nat2Z.inj_add. lia.
      * cbn [List.length]. lia.
      * apply Forall_app. split; assumption.
    + cbn [ret trace_of machine_of fst snd publishes List.length].
      rewrite Nat.add_0_r, app_nil_r.
      split; [exact H1|]. split; [cbn [List.length]; lia|exact Hlen].
Qed.

Lemma publish_rate_witness :
  (List.length (publishes (trace_of
     (main_loop [cycle_ok; cycle_bad_auth; cycle_ok]
                (mk_machine 5000000 5000000 false true 0)))) <= 3)%nat.
Proof.
  apply (publish_rate [cycle_ok; cycle_bad_auth; cycle_ok]
           (mk_machine 5000000 5000000 false true 0)).
  repeat constructor; cbn; lia.
Defined.

(** X8. Time as the loop sees it: with blocking calls that take no negative
    time, the clock never runs backwards, [last_ok] never decreases and never
    lies ahead of the clock, so the difference the deadline test takes is
    never negative.  The loop leaves [safe_mode] and the scratch register
    alone. *)
Theorem last_ok_never_ahead (es : list CycleEnv) (m : Machine) :
  Forall nonneg_times es ->
  last_ok m <= clock m ->
  let m' := machine_of (main_loop es m) in
  clock m <= clock m' /\
  last_ok m <= last_ok m' <= clock m' /\
  safe_mode m' = safe_mode m /\ scratch0 m' = scratch0 m.
Proof.
  intros Hes. revert m. cbv zeta.
  induction Hes as [|e es He Hes IH]; intros m Hm.
  - cbn. repeat split; try reflexivity; lia.
  - split; [|split]; cycle 2.
    { split; apply preserves_main_loop; intros; destruct m0; reflexivity. }
    all: cbn [main_loop]; rewrite machine_bind;
      destruct (loop_body_step e m He) as (_ & _ & H3 & H4);
      specialize (H4 Hm);
      destruct (result_of (loop_body e m));
      [ destruct (IH (machine_of (loop_body e m))) as (I1 & I2 & _); lia
      | cbn [ret machine_of fst snd]; lia ].
Qed.

Lemma last_ok_never_ahead_witness :
  last_ok (machine_of (main_loop [cycle_ok; cycle_link_down]
                                 (mk_machine 5000000 5000000 false true 0))) <=
  clock (machine_of (main_loop [cycle_ok; cycle_link_down]
                               (mk_machine 5000000 5000000 false true 0))).
Proof.
  apply (last_ok_never_ahead [cycle_ok; cycle_link_down]
           (mk_machine 5000000 5000000 false true 0)).
  - repeat constructor; cbn; lia.
  - cbn. lia.
Defined.

(** X9. When exactly an iteration requests the reboot (for a time difference
    that fits an [int64_t]): in Normal mode, after a failed health test and a
    soft recovery that reported success, once 300001 full milliseconds lie
    between [last_ok] and the end of the connect call.  Such an iteration
    feeds the watchdog, reconnects, prints the reason, sleeps 50 ms and
    resets; it does not read the sensor or publish. *)
Theorem reboot_exactly_when (e : CycleEnv) (m : Machine) :
  - 2 ^ 63 <= clock m + wifi_us e - last_ok m < 2 ^ 63 ->
  let r := loop_body e m in
  (result_of r = Halted <->
   safe_mode m = false /\ healthy e m = false /\ reconnect_ok e = true /\
   (DEADLINE_MS + 1) * 1000 <= clock m + wifi_us e - last_ok m) /\
  (result_of r = Halted ->
   trace_of r =
     WatchdogUpdate (clock m) :: reconnect_trace e ++
       [Printf ("WDT reboot requested: no recovery >5min" ++ newline)%string;
        SleepMs 50; WatchdogReboot] /\
   clock (machine_of r) = clock m + wifi_us e + 50 * 1000).
Proof.
  intros Hd. cbv zeta.
  assert (Hdp : deadline_passed (with_clock (clock m + wifi_us e) m) =
                ((DEADLINE_MS + 1) * 1000 <=? clock m + wifi_us e - last_ok m)).
  { rewrite deadline_passed_iff; destruct m; cbn [with_clock clock last_ok] in *;
      [reflexivity|exact Hd]. }
  destruct (healthy e m) eqn:Hh; [|destruct (reconnect_ok e) eqn:Hr].
  - rewrite (loop_body_healthy e m Hh). cbn [result_of fst snd].
    split; [split|]; [discriminate| |discriminate].
    intros (_ & H & _). discriminate H.
  - rewrite (loop_body_recovered e m Hh Hr), Hdp.
    destruct (safe_mode m); cbn [negb andb].
    + cbn [result_of fst snd]. split; [split|]; [discriminate| |discriminate].
      intros (H & _). discriminate H.
    + destruct (Z.leb_spec ((DEADLINE_MS + 1) * 1000)
                           (clock m + wifi_us e - last_ok m)) as [Hle|Hlt];
        cbn [result_of trace_of machine_of fst snd clock].
      * split; [split; [intros _; repeat split; assumption|reflexivity]|].
        intros _. split; reflexivity.
      * split; [split|]; [discriminate| |discriminate].
        intros (_ & _ & _ & H). lia.
  - rewrite (loop_body_failed e m Hh Hr). cbn [result_of fst snd].
    split; [split|]; [discriminate| |discriminate].
    intros (_ & _ & H & _). discriminate H.
Qed.

Lemma reboot_exactly_when_witness :
  result_of (loop_body cycle_reconnected (mk_machine 301001000 5000000 false true 0))
  = Halted <->
  false = false /\
  healthy cycle_reconnected (mk_machine 301001000 5000000 false true 0) = false /\
  reconnect_ok cycle_reconnected = true /\
  (DEADLINE_MS + 1) * 1000 <= 301001000 + wifi_us cycle_reconnected - 5000000.
Proof.
  apply (reboot_exactly_when cycle_reconnected
           (mk_machine 301001000 5000000 false true 0)).
  cbn [clock last_ok]. split; [vm_compute; discriminate|reflexivity].
Defined.

(** X10. The escalation does fire: in Normal mode, while the link stays down
    and every soft recovery reports success, the run requests the reboot (once
    and as its last act) as soon as the iterations have used up the deadline;
    each such iteration takes at least 1080 ms, so enough of them do. *)
Theorem escalation_fires (es : list CycleEnv) (m : Machine) :
  es <> [] ->
  safe_mode m = false ->
  Forall (fun e => link_status e <> CYW43_LINK_UP /\ reconnect_ok e = true /\
                   nonneg_times e) es ->
  0 <= clock m - last_ok m ->
  clock m - last_ok m + total_time es < 2 ^ 63 ->
  (DEADLINE_MS + 1) * 1000 <=
    clock m - last_ok m + 1080000 * (Z.of_nat (List.length es) - 1) ->
  result_of (main_loop es m) = Halted /\
  filter is_reboot (trace_of (main_loop es m)) = [WatchdogReboot].
Proof.
  intros Hne Hs Hes Hd Hov Hlong.
  assert (Hres : result_of (main_loop es m) = Halted).
  { revert m Hne Hs Hd Hov Hlong.
    induction Hes as [|e es (Hl & Hr & Hw & Hi & Hj) Hes IH];
      intros m Hne Hs Hd Hov Hlong; [congruence|].
    cbn [total_time fold_right] in Hov. fold (total_time es) in Hov.
    assert (Htot : 0 <= total_time es).
    { clear - Hes. induction Hes as [|e' es' (_ & _ & Hw & Hi & Hj) _ IH'];
        [cbn; lia|].
      cbn [total_time fold_right]. fold (total_time es').
      unfold cycle_time. lia. }
    assert (Hh : healthy e m = false) by (apply healthy_link_down, Hl).
    cbn [main_loop]. rewrite result_bind.
    rewrite (loop_body_recovered e m Hh Hr), Hs.
    rewrite deadline_passed_iff
      by (destruct m; cbn [with_clock clock last_ok] in *;
          unfold cycle_time in Hov; lia).
    cbn [negb andb].
    replace (clock (with_clock (clock m + wifi_us e) m) -
             last_ok (with_clock (clock m + wifi_us e) m))
      with (clock m + wifi_us e - last_ok m) by (destruct m; reflexivity).
    destruct (Z.leb_spec ((DEADLINE_MS + 1) * 1000)
                         (clock m + wifi_us e - last_ok m)) as [Hle|Hlt];
      cbn [result_of machine_of fst snd]; [reflexivity|].
    destruct es as [|e2 es2].
    - cbn [List.length Z.of_nat] in Hlong. lia.
    - apply IH; cbn [safe_mode clock last_ok]; try assumption; try discriminate.
      + reflexivity.
      + unfold cycle_time. lia.
      + lia.
      + unfold cycle_time. cbn [List.length] in Hlong |- *.
        rewrite !Nat2Z.inj_succ in Hlong. rewrite Nat2Z.inj_succ. lia. }
  split; [exact Hres|]. rewrite main_loop_reboot, Hres. reflexivity.
Qed.

Lemma escalation_fires_witness :
  result_of (main_loop [cycle_reconnected; cycle_reconnected]
                       (mk_machine 305000000 5000000 false true 0)) = Halted /\
  filter is_reboot
    (trace_of (main_loop [cycle_reconnected; cycle_reconnected]
                         (mk_machine 305000000 5000000 false true 0))) =
  [WatchdogReboot].
Proof.
  apply (escalation_fires [cycle_reconnected; cycle_reconnected]
           (mk_machine 305000000 5000000 false true 0)).
  - discriminate.
  - reflexivity.
  - repeat constructor; cbn; try lia; discriminate.
  - cbn. lia.
  - vm_compute. reflexivity.
  - cbn. unfold DEADLINE_MS. lia.
Defined.

Lemma feed_times_pair (e e' : CycleEnv) (m : Machine) :
  result_of (loop_body e m) = Continue ->
  feed_times (trace_of (main_loop [e; e'] m)) =
  [clock m; clock (machine_of (loop_body e m))].
Proof.
  intros Hc. cbn [main_loop]. rewrite trace_bind, Hc, trace_bind.
  rewrite !feed_times_app, !loop_body_feeds_once.
  destruct (result_of (loop_body e' _)); reflexivity.
Qed.

(** X11. The feeds of the watchdog are one iteration apart.  With bus calls
    that return within their 3000 us timeout, an iteration that found the
    link up and the session connected ends at most 1086 ms after its feed,
    well inside the 8000 ms of the watchdog; on any other iteration the time
    the connect call blocks comes on top of that. *)
Theorem feed_gap_bounded (e e' : CycleEnv) (m : Machine) :
  nonneg_times e -> bus_in_time e ->
  result_of (loop_body e m) = Continue ->
  exists t2,
    feed_times (trace_of (main_loop [e; e'] m)) = [clock m; t2] /\
    clock m + 1000 * 1000 <= t2 /\
    t2 <= clock m + (if healthy e m then 0 else wifi_us e) + 1086 * 1000 /\
    (healthy e m = true -> t2 - clock m < WD_TIMEOUT_MS * 1000).
Proof.
  intros (Hw & Hi & Hj) (Bi & Bj) Hc.
  exists (clock (machine_of (loop_body e m))).
  split; [apply feed_times_pair, Hc|]. revert Hc.
  destruct (healthy e m) eqn:Hh; [|destruct (reconnect_ok e) eqn:Hr].
  - rewrite (loop_body_healthy e m Hh). intros _.
    cbn [machine_of fst snd clock]. unfold WD_TIMEOUT_MS. lia.
  - rewrite (loop_body_recovered e m Hh Hr).
    destruct (negb (safe_mode m) && _); [discriminate|]. intros _.
    cbn [machine_of fst snd clock]. unfold cycle_time.
    split; [lia|]. split; [lia|discriminate].
  - rewrite (loop_body_failed e m Hh Hr). intros _.
    cbn [machine_of fst snd clock].
    split; [lia|]. split; [lia|discriminate].
Qed.

Lemma feed_gap_bounded_witness :
  exists t2,
    feed_times (trace_of (main_loop [cycle_ok; cycle_ok]
                                    (mk_machine 5000000 5000000 false true 0))) =
    [5000000; t2] /\
    5000000 + 1000 * 1000 <= t2 /\
    t2 <= 5000000 + 0 + 1086 * 1000 /\
    (true = true -> t2 - 5000000 < WD_TIMEOUT_MS * 1000).
Proof.
  apply (feed_gap_bounded cycle_ok cycle_ok (mk_machine 5000000 5000000 false true 0)).
  - repeat split; cbn; lia.
  - split; cbn; lia.
  - reflexivity.
Defined.

(** ** The time the boot takes *)

Lemma boot_connect_clock (attempts : list (Z * Z)) (m : Machine) :
  clock (machine_of (boot_connect attempts m)) = clock m + connect_time attempts.
Proof.
  revert m. induction attempts as [|[r us] rest IH]; intros m.
  - cbn. lia.
  - rewrite boot_connect_cons. cbn [connect_time].
    destruct (r =? 0).
    + destruct m; reflexivity.
    + rewrite machine_prepend, IH. destruct m; cbn [with_clock clock]. lia.
Qed.

Lemma wait_connected_clock (polls : list (list Z)) (m : Machine) :
  clock (machine_of (wait_connected polls m)) =
  clock m + wait_time polls (mqtt_connected m).
Proof.
  revert m. induction polls as [|cbs rest IH]; intros m.
  - cbn. lia.
  - rewrite wait_connected_cons. cbv zeta. cbn [wait_time].
    destruct (flag_after cbs (mqtt_connected m)) eqn:Hf.
    + destruct m; cbn. lia.
    + rewrite machine_prepend, IH. destruct m as [c l s f x].
      cbn [with_clock with_mqtt_connected clock mqtt_connected] in *. lia.
Qed.

Lemma boot_radio_clock (b : BootEnv) (safe : bool) (m : Machine) :
  clock (machine_of (boot_radio b safe m)) =
  clock m + (if safe then 0 else connect_time (boot_wifi b)).
Proof.
  unfold boot_radio. destruct safe; cbn [negb].
  - cbn. lia.
  - rewrite machine_bind.
    pose proof (boot_connect_clock (boot_wifi b) m) as Hc.
    destruct (result_of (boot_connect (boot_wifi b) m));
      destruct (machine_of (boot_connect (boot_wifi b) m)); exact Hc.
Qed.

Lemma boot_session_clock (b : BootEnv) (m : Machine) :
  result_of (boot_session b m) = Enter ->
  clock (machine_of (boot_session b m)) =
  clock m + wait_time (wait_cb b) (mqtt_connected m).
Proof.
  unfold boot_session. destruct (client_new_ok b); cbn [negb]; [|discriminate].
  do 3 (rewrite result_bind, machine_bind; cbn [emit result_of machine_of fst snd]).
  destruct (boot_mqtt_err b =? ERR_OK); cbn [negb]; [|discriminate].
  rewrite result_bind, machine_bind.
  pose proof (wait_connected_clock (wait_cb b) m) as Hw.
  destruct (result_of (wait_connected (wait_cb b) m)); cbn [negb]; [|discriminate].
  intros _. destruct (machine_of (wait_connected (wait_cb b) m)). exact Hw.
Qed.

(** X18. How long the watchdog stays armed and unfed: a boot that enters the
    main loop does so, and feeds for the first time, after the 1500 ms
    start-up sleep, the connect loop of the Normal boot (every failed call and
    its 2000 ms sleep, and the call that succeeds) and 10 ms for every test
    of the wait loop that found the session not yet accepted.  Nothing in
    the boot bounds that time by the watchdog timeout. *)
Theorem boot_duration (b : BootEnv) (m : Machine) :
  result_of (main_boot b m) = Enter ->
  let safe := guard_counter (watchdog_caused_reboot b) (scratch0 m) >=? SAFE_REBOOTS in
  clock (machine_of (main_boot b m)) =
    clock m + 1500 * 1000 +
    (if safe then 0 else connect_time (boot_wifi b)) +
    wait_time (wait_cb b) (mqtt_connected m) /\
  forall e es,
    exists rest,
      feed_times (trace_of (main b (e :: es) m)) =
      clock (machine_of (main_boot b m)) :: rest.
Proof.
  intros Hr. cbv zeta. split.
  - revert Hr. rewrite main_boot_spec. cbv zeta.
    rewrite result_prepend, machine_prepend.
    set (safe := guard_counter (watchdog_caused_reboot b) (scratch0 m) >=? SAFE_REBOOTS).
    set (m0 := mk_machine _ _ _ _ _).
    unfold boot_after_guard.
    destruct (arch_init_r b =? 0); cbn [negb]; [|discriminate].
    rewrite result_bind, machine_bind. cbn [emit result_of machine_of fst snd].
    rewrite result_bind, machine_bind.
    destruct (result_of (boot_radio b safe m0)); cbn [negb]; [|discriminate].
    intros Hs. rewrite (boot_session_clock b _ Hs), boot_radio_clock, boot_radio_flag.
    unfold m0. cbn [clock mqtt_connected]. lia.
  - intros e es. unfold main.
    rewrite trace_bind, Hr, trace_bind. cbn [main_loop]. rewrite trace_bind.
    rewrite !feed_times_app, loop_body_feeds_once.
    assert (Hb : feed_times (trace_of (main_boot b m)) = []).
    { rewrite main_boot_spec. cbv zeta. rewrite trace_prepend.
      cbn [app feed_times]. apply feed_times_none.
      apply boot_after_guard_quiet; reflexivity. }
    rewrite Hb. cbn [app]. eexists. reflexivity.
Qed.

Lemma boot_duration_witness :
  clock (machine_of (main_boot boot_slow_join (reset_machine 0))) =
    0 + 1500 * 1000 + (30000000 + 2000 * 1000 + 4000000) + 10 * 1000 /\
  WD_TIMEOUT_MS * 1000 <
    clock (machine_of (main_boot boot_slow_join (reset_machine 0))) - 1500 * 1000.
Proof.
  split.
  - apply (boot_duration boot_slow_join (reset_machine 0)). reflexivity.
  - reflexivity.
Defined.

(** ** Who writes [mqtt_connected] *)

Lemma flag_after_app (a b : list Z) (flag : bool) :
  flag_after (a ++ b) flag = flag_after b (flag_after a flag).
Proof. unfold flag_after. apply fold_left_app. Qed.

Lemma loop_body_flag (e : CycleEnv) (m : Machine) :
  mqtt_connected (machine_of (loop_body e m)) = connected_of e m.
Proof.
  destruct (healthy e m) eqn:Hh; [|destruct (reconnect_ok e) eqn:Hr].
  - rewrite (loop_body_healthy e m Hh). cbn [machine_of fst snd mqtt_connected].
    symmetry. apply healthy_connected, Hh.
  - rewrite (loop_body_recovered e m Hh Hr).
    destruct (negb (safe_mode m) && _); reflexivity.
  - rewrite (loop_body_failed e m Hh Hr). reflexivity.
Qed.

(** X19. The main loop never writes [mqtt_connected] itself: after any number
    of iterations the flag is what the last status handed to the connection
    callback made it, and the value from before the loop when no callback
    ran.  In particular a soft recovery that reports success does not set
    it: the next iteration finds the session connected only once the broker
    has accepted it. *)
Theorem flag_only_by_callbacks (es : list CycleEnv) (m : Machine) :
  result_of (main_loop es m) = Continue ->
  mqtt_connected (machine_of (main_loop es m)) =
    flag_after (List.concat (map cb_status es)) (mqtt_connected m) /\
  forall e', cb_status e' = [] ->
             healthy e' (machine_of (main_loop es m)) =
             health_state (link_status e')
               (flag_after (List.concat (map cb_status es)) (mqtt_connected m)).
Proof.
  intros Hc.
  assert (Hflag : mqtt_connected (machine_of (main_loop es m)) =
                  flag_after (List.concat (map cb_status es)) (mqtt_connected m)).
  { revert m Hc. induction es as [|e es IH]; intros m Hc; [reflexivity|].
    revert Hc. cbn [main_loop map List.concat].
    rewrite result_bind, machine_bind, flag_after_app.
    destruct (result_of (loop_body e m)) eqn:Hr; [|discriminate].
    intros Hc. rewrite (IH _ Hc), loop_body_flag. reflexivity. }
  split; [exact Hflag|].
  intros e' He. unfold healthy, connected_of. rewrite He, Hflag. reflexivity.
Qed.

Lemma flag_only_by_callbacks_witness :
  mqtt_connected
    (machine_of (main_loop [cycle_reconnected; cycle_reconnected]
                           (mk_machine 5000000 5000000 false false 0))) =
  flag_after (List.concat (map cb_status [cycle_reconnected; cycle_reconnected])) false.
Proof.
  apply (flag_only_by_callbacks [cycle_reconnected; cycle_reconnected]
           (mk_machine 5000000 5000000 false false 0)).
  reflexivity.
Defined.

(** ** The raw fields, arithmetically *)

Lemma lor_disjoint (a b n : Z) :
  0 <= n -> 0 <= b < 2 ^ n -> Z.lor (a * 2 ^ n) b = a * 2 ^ n + b.
Proof.
  intros Hn Hb.
  assert (Hl : Z.land (a * 2 ^ n) b = 0).
  { apply Z.bits_inj'. intros i Hi. rewrite Z.land_spec, Z.bits_0.
    destruct (Z_lt_le_dec i n) as [Hlt|Hge].
    - rewrite Z.mul_pow2_bits_low by exact Hlt. reflexivity.
    - rewrite <- (Z.mod_small b (2 ^ n)) by exact Hb.
      rewrite Z.mod_pow2_bits_high by lia. apply andb_false_r. }
  pose proof (Z.add_lor_land (a * 2 ^ n) b) as H. rewrite Hl in H. lia.
Qed.

Lemma u32_small (x : Z) : 0 <= x < 2 ^ 32 -> u32 x = x.
Proof. intros H. unfold u32. apply Z.mod_small, H. Qed.

Lemma raw_h_arith (buf : I2cBuf) :
  raw_h buf =
  byte_val (b1 buf) * 4096 + byte_val (b2 buf) * 16 + byte_val (b3 buf) / 16.
Proof.
  unfold raw_h.
  pose proof (byte_val_range (b1 buf)) as H1.
  pose proof (byte_val_range (b2 buf)) as H2.
  pose proof (byte_val_range (b3 buf)) as H3.
  rewrite !Z.shiftl_mul_pow2, Z.shiftr_div_pow2 by lia.
  change (2 ^ 32) with 4294967296 in *.
  assert (H3' : 0 <= byte_val (b3 buf) / 2 ^ 4 < 2 ^ 4).
  { change (2 ^ 4) with 16. split; [apply Z.div_pos; lia|].
    apply Z.div_lt_upper_bound; lia. }
  rewrite (u32_small (byte_val (b1 buf) * 2 ^ 12))
    by (change (2 ^ 12) with 4096; change (2 ^ 32) with 4294967296; lia).
  rewrite (u32_small (byte_val (b2 buf) * 2 ^ 4))
    by (change (2 ^ 4) with 16; change (2 ^ 32) with 4294967296; lia).
  rewrite (lor_disjoint (byte_val (b1 buf)) (byte_val (b2 buf) * 2 ^ 4) 12)
    by (change (2 ^ 4) with 16; change (2 ^ 12) with 4096; lia).
  replace (byte_val (b1 buf) * 2 ^ 12 + byte_val (b2 buf) * 2 ^ 4)
    with ((byte_val (b1 buf) * 256 + byte_val (b2 buf)) * 2 ^ 4)
    by (change (2 ^ 12) with 4096; change (2 ^ 4) with 16; lia).
  rewrite lor_disjoint by (try exact H3'; lia).
  change (2 ^ 4) with 16 in *.
  rewrite u32_small by (change (2 ^ 32) with 4294967296; lia). lia.
Qed.

Lemma raw_t_arith (buf : I2cBuf) :
  raw_t buf =
  byte_val (b3 buf) mod 16 * 65536 + byte_val (b4 buf) * 256 + byte_val (b5 buf).
Proof.
  unfold raw_t.
  pose proof (byte_val_range (b3 buf)) as H3.
  pose proof (byte_val_range (b4 buf)) as H4.
  pose proof (byte_val_range (b5 buf)) as H5.
  change 15 with (Z.ones 4). rewrite Z.land_ones by lia.
  rewrite !Z.shiftl_mul_pow2 by lia.
  assert (H3' : 0 <= byte_val (b3 buf) mod 2 ^ 4 < 16)
    by (change (2 ^ 4) with 16; apply Z.mod_pos_bound; lia).
  rewrite (u32_small (byte_val (b3 buf) mod 2 ^ 4 * 2 ^ 16))
    by (change (2 ^ 16) with 65536; change (2 ^ 32) with 4294967296; lia).
  rewrite (u32_small (byte_val (b4 buf) * 2 ^ 8))
    by (change (2 ^ 8) with 256; change (2 ^ 32) with 4294967296; lia).
  rewrite (lor_disjoint (byte_val (b3 buf) mod 2 ^ 4) (byte_val (b4 buf) * 2 ^ 8) 16)
    by (change (2 ^ 8) with 256; change (2 ^ 16) with 65536; lia).
  replace (byte_val (b3 buf) mod 2 ^ 4 * 2 ^ 16 + byte_val (b4 buf) * 2 ^ 8)
    with ((byte_val (b3 buf) mod 2 ^ 4 * 256 + byte_val (b4 buf)) * 2 ^ 8)
    by (change (2 ^ 16) with 65536; change (2 ^ 8) with 256; lia).
  rewrite lor_disjoint by (change (2 ^ 8) with 256; lia).
  change (2 ^ 8) with 256. change (2 ^ 4) with 16 in *.
  rewrite u32_small by (change (2 ^ 32) with 4294967296; lia). lia.
Qed.

(** X12. The two 20-bit fields are the bytes of the response laid side by
    side: [raw_h] is bytes 1 and 2 and the high half of byte 3, [raw_t] the
    low half of byte 3 and bytes 4 and 5, with no overlap and no wrap of the
    32-bit arithmetic, so that the five bytes can be read back from the two
    fields.  Byte 0, the status byte of the sensor, has no influence on the
    reading. *)
Theorem raw_fields_decode (buf : I2cBuf) :
  let B := fun f => byte_val (f buf) in
  raw_h buf = B b1 * 4096 + B b2 * 16 + B b3 / 16 /\
  raw_t buf = B b3 mod 16 * 65536 + B b4 * 256 + B b5 /\
  B b1 = raw_h buf / 4096 /\
  B b2 = raw_h buf / 16 mod 256 /\
  B b3 = raw_h buf mod 16 * 16 + raw_t buf / 65536 /\
  B b4 = raw_t buf / 256 mod 256 /\
  B b5 = raw_t buf mod 256 /\
  (forall r status,
      aht20_result r (mk_buf status (b1 buf) (b2 buf) (b3 buf) (b4 buf) (b5 buf)) =
      aht20_result r buf).
Proof.
  cbv zeta.
  pose proof (byte_val_range (b1 buf)) as H1.
  pose proof (byte_val_range (b2 buf)) as H2.
  pose proof (byte_val_range (b3 buf)) as H3.
  pose proof (byte_val_range (b4 buf)) as H4.
  pose proof (byte_val_range (b5 buf)) as H5.
  rewrite raw_h_arith, raw_t_arith.
  split; [reflexivity|]. split; [reflexivity|].
  split; [Z.div_mod_to_equations; lia|].
  split; [Z.div_mod_to_equations; lia|].
  split; [Z.div_mod_to_equations; lia|].
  split; [Z.div_mod_to_equations; lia|].
  split; [Z.div_mod_to_equations; lia|].
  intros r status. destruct buf; reflexivity.
Qed.

(** ** The sign of a converted reading *)

(** The product [raw * k] after the division by [2^20], between the
    binary32 numbers around the exact product. *)
Lemma scaled_product_at (p : positive) (c : positive) (ec : Z) (k : Z) :
  Zpos p < 2 ^ 20 -> canon c ec -> -20 <= ec <= 0 ->
  Zpos c = k * 2 ^ (- ec) -> 64 <= k <= 256 ->
  exists m e,
    fdiv (fmul (f32_of_Z (Zpos p)) (S754_finite false c ec)) f_1048576 =
    S754_finite false m e /\
    canon m e /\ -126 <= e <= -16 /\
    (forall mr er, canon mr er ->
                   k * Zpos p * 2 ^ 149 <= V mr er -> V m e * 2 ^ 20 <= V mr er) /\
    (forall mr er, canon mr er ->
                   V mr er <= k * Zpos p * 2 ^ 149 -> V mr er <= V m e * 2 ^ 20).
Proof.
  intros Hp Hc Hec Hck Hk.
  destruct (f32_of_Z_exact p) as (m & e & Hconv & Hcm & HVm);
    [change (2 ^ 24) with 16777216; change (2 ^ 20) with 1048576 in Hp; lia|].
  assert (HVp : V p 0 = Zpos p * 2 ^ 149) by reflexivity.
  assert (H149 : 0 < 2 ^ 149) by (apply Z.pow_pos_nonneg; lia).
  assert (He1 : e + 172 < 169).
  { apply (canon_exp_upper m e 169 Hcm); [lia|].
    rewrite HVm, HVp. change (2 ^ 169) with (2 ^ 20 * 2 ^ 149). nia. }
  assert (He2 : 149 < e + 173).
  { apply (canon_exp_lower m e 149 Hcm); [lia|]. rewrite HVm, HVp. nia. }
  destruct (fmul_bounds m c e ec Hcm Hc) as (m1 & e1 & Hmul & Hc1 & Hle & Hge);
    try lia.
  assert (HX : V (m * c) (e + ec) = k * Zpos p * 2 ^ 149).
  { rewrite (V_mul_const m c e ec k) by lia. rewrite HVm, HVp. ring. }
  rewrite HX in Hle, Hge.
  assert (Hlb2 : 2 ^ 155 <= V m1 e1).
  { assert (Hsix : V 8388608 (-17) <= V m1 e1).
    { apply Hge; [split; [cbn; lia|lia]|].
      unfold V. replace (2 ^ (-17 + 149)) with (2 ^ 132) by reflexivity.
      replace (2 ^ 149) with (2 ^ 17 * 2 ^ 132) by reflexivity.
      assert (0 < 2 ^ 132) by (apply Z.pow_pos_nonneg; lia).
      change (2 ^ 17) with 131072. nia. }
    unfold V in Hsix |- *.
    replace (2 ^ (-17 + 149)) with (2 ^ 132) in Hsix by reflexivity.
    replace (2 ^ 155) with (8388608 * 2 ^ 132) by reflexivity. exact Hsix. }
  assert (Hub2 : V m1 e1 < 2 ^ 177).
  { assert (Hbig : V m1 e1 <= V 16777215 4).
    { apply Hle; [split; [cbn; lia|lia]|].
      unfold V. replace (2 ^ (4 + 149)) with (2 ^ 4 * 2 ^ 149) by reflexivity.
      change (2 ^ 4) with 16. change (2 ^ 20) with 1048576 in Hp. nia. }
    unfold V in Hbig |- *.
    replace (2 ^ (4 + 149)) with (2 ^ 4 * 2 ^ 149) in Hbig by reflexivity.
    replace (2 ^ 177) with (2 ^ 28 * 2 ^ 149) by reflexivity.
    change (2 ^ 4) with 16 in Hbig. change (2 ^ 28) with 268435456. lia. }
  pose proof (canon_exp_upper m1 e1 177 Hc1 ltac:(lia) Hub2) as He1u.
  pose proof (canon_exp_lower m1 e1 155 Hc1 ltac:(lia) Hlb2) as He1l.
  exists m1, (e1 - 20).
  rewrite Hconv, Hmul, fdiv_pow2 by (try exact Hc1; lia).
  split; [reflexivity|].
  destruct Hc1 as [Hm1 He1c].
  split; [split; [exact Hm1|lia]|]. split; [lia|].
  rewrite <- (V_shift m1 e1 20) by lia. split; assumption.
Qed.

Lemma hum_of_raw_positive (p : positive) :
  Zpos p < 2 ^ 20 -> exists m e, hum_of_raw (Zpos p) = S754_finite false m e.
Proof.
  intros Hp.
  assert (Hc1 : canon 13107200 (-17)) by (split; [cbn; lia|lia]).
  assert (Hk : Zpos 13107200 = 100 * 2 ^ (- (-17))) by reflexivity.
  destruct (scaled_product_at p 13107200 (-17) 100 Hp Hc1 ltac:(lia) Hk ltac:(lia))
    as (m & e & Heq & _).
  exists m, e. exact Heq.
Qed.

Lemma temp_of_raw_sign (p : positive) :
  Zpos p < 2 ^ 20 ->
  match Zpos p ?= 262144 with
  | Lt => exists m e, temp_of_raw (Zpos p) = S754_finite true m e
  | Eq => temp_of_raw (Zpos p) = S754_zero false
  | Gt => exists m e, temp_of_raw (Zpos p) = S754_finite false m e
  end.
Proof.
  intros Hp.
  assert (Hc1 : canon 13107200 (-16)) by (split; [cbn; lia|lia]).
  assert (Hk : Zpos 13107200 = 200 * 2 ^ (- (-16))) by reflexivity.
  destruct (scaled_product_at p 13107200 (-16) 200 Hp Hc1 ltac:(lia) Hk ltac:(lia))
    as (m & e & Heq & Hc & He & Hle & Hge).
  assert (H149 : 0 < 2 ^ 149) by (apply Z.pow_pos_nonneg; lia).
  assert (H20 : 0 < 2 ^ 20) by reflexivity.
  assert (Hmid : V 13107200 2 = 52428800 * 2 ^ 149) by (vm_compute; reflexivity).
  assert (H50 : V 13107200 (-18) * 2 ^ 20 = 52428800 * 2 ^ 149)
    by (rewrite <- Hmid, (V_shift 13107200 2 20) by lia; reflexivity).
  assert (Hlo : V 13107150 2 = 52428600 * 2 ^ 149) by (vm_compute; reflexivity).
  assert (Hhi : V 13107250 2 = 52429000 * 2 ^ 149) by (vm_compute; reflexivity).
  unfold temp_of_raw, f_200. rewrite Heq.
  destruct (Z.compare_spec (Zpos p) 262144) as [Heqp|Hlt|Hgt].
  - destruct (fsub_50_bounds m e Hc) as [[HX Hz]|[(HX & _)|(HX & _)]];
      try lia; [exact Hz| |].
    + assert (V m e * 2 ^ 20 <= V 13107200 2).
      { apply Hle; [split; [cbn; lia|lia]|]. rewrite Hmid, Heqp. lia. }
      rewrite Hmid in H. nia.
    + assert (V 13107200 2 <= V m e * 2 ^ 20).
      { apply Hge; [split; [cbn; lia|lia]|]. rewrite Hmid, Heqp. lia. }
      rewrite Hmid in H. nia.
  - destruct (fsub_50_bounds m e Hc) as [[HX Hz]|[(HX & _)|(HX & m' & e' & Hs & _)]];
      try lia.
    + assert (V m e * 2 ^ 20 <= V 13107150 2).
      { apply Hle; [split; [cbn; lia|lia]|]. rewrite Hlo. nia. }
      rewrite Hlo in H. nia.
    + assert (V m e * 2 ^ 20 <= V 13107150 2).
      { apply Hle; [split; [cbn; lia|lia]|]. rewrite Hlo. nia. }
      rewrite Hlo in H. nia.
    + exists m', e'. exact Hs.
  - destruct (fsub_50_bounds m e Hc) as [[HX Hz]|[(HX & m' & e' & Hs & _)|(HX & _)]];
      try lia.
    + assert (V 13107250 2 <= V m e * 2 ^ 20).
      { apply Hge; [split; [cbn; lia|lia]|]. rewrite Hhi. nia. }
      rewrite Hhi in H. nia.
    + exists m', e'. exact Hs.
    + assert (V 13107250 2 <= V m e * 2 ^ 20).
      { apply Hge; [split; [cbn; lia|lia]|]. rewrite Hhi. nia. }
      rewrite Hhi in H. nia.
Qed.

(** X13. Rounding never moves a reading across zero: the computed
    temperature is below, at or above 0 degrees exactly as the raw field is
    below, at or above 262144 (a quarter of the range, which the formula maps
    to 0), and the computed humidity is 0 for the raw field 0 and positive
    for every other. *)
Theorem conversion_sign (raw : Z) :
  0 <= raw < 2 ^ 20 ->
  fltb (temp_of_raw raw) f_0 = (raw <? 262144) /\
  feqb (temp_of_raw raw) f_0 = (raw =? 262144) /\
  fltb f_0 (temp_of_raw raw) = (262144 <? raw) /\
  feqb (hum_of_raw raw) f_0 = (raw =? 0) /\
  fltb f_0 (hum_of_raw raw) = (0 <? raw).
Proof.
  intros [H0 H1]. destruct raw as [|p|p]; [| |lia].
  - vm_compute. repeat split; reflexivity.
  - destruct (hum_of_raw_positive p H1) as (mh & eh & Hh).
    pose proof (temp_of_raw_sign p H1) as Ht.
    rewrite Hh.
    assert (Hhum : feqb (S754_finite false mh eh) f_0 = (Zpos p =? 0) /\
                   fltb f_0 (S754_finite false mh eh) = (0 <? Zpos p)).
    { split; reflexivity. }
    destruct (Z.compare_spec (Zpos p) 262144) as [Heq|Hlt|Hgt].
    + rewrite Ht, Heq. repeat split; try reflexivity; apply Hhum.
    + destruct Ht as (m & e & Ht). rewrite Ht.
      replace (Zpos p <? 262144) with true by (symmetry; apply Z.ltb_lt; lia).
      replace (Zpos p =? 262144) with false by (symmetry; apply Z.eqb_neq; lia).
      replace (262144 <? Zpos p) with false by (symmetry; apply Z.ltb_ge; lia).
      repeat split; try reflexivity; apply Hhum.
    + destruct Ht as (m & e & Ht). rewrite Ht.
      replace (Zpos p <? 262144) with false by (symmetry; apply Z.ltb_ge; lia).
      replace (Zpos p =? 262144) with false by (symmetry; apply Z.eqb_neq; lia).
      replace (262144 <? Zpos p) with true by (symmetry; apply Z.ltb_lt; lia).
      repeat split; try reflexivity; apply Hhum.
Qed.

Lemma conversion_sign_witness :
  fltb (temp_of_raw 262143) f_0 = true /\
  feqb (temp_of_raw 262143) f_0 = false /\
  fltb f_0 (temp_of_raw 262143) = false /\
  feqb (hum_of_raw 262143) f_0 = false /\
  fltb f_0 (hum_of_raw 262143) = true.
Proof.
  apply (conversion_sign 262143). split; [lia|reflexivity].
Defined.

Lemma render_not_failed (r : AHT22Result) :
  snprintf PAYLOAD_SIZE (render r) <> "failed"%string.
Proof.
  unfold snprintf, render.
  cbn [PAYLOAD_SIZE Nat.sub append substring]. discriminate.
Qed.

Lemma hum_le_zero (raw : Z) :
  0 <= raw < 2 ^ 20 -> fleb (hum_of_raw raw) f_0 = (raw =? 0).
Proof.
  intros [H0 H1]. destruct raw as [|p|p]; [reflexivity| |lia].
  destruct (hum_of_raw_positive p H1) as (m & e & Hh). rewrite Hh. reflexivity.
Qed.

Lemma temp_le_zero (raw : Z) :
  0 <= raw < 2 ^ 20 -> fleb (temp_of_raw raw) f_0 = (raw <=? 262144).
Proof.
  intros [H0 H1]. destruct raw as [|p|p]; [reflexivity| |lia].
  pose proof (temp_of_raw_sign p H1) as Ht.
  destruct (Z.compare_spec (Zpos p) 262144) as [Heq|Hlt|Hgt].
  - rewrite Ht, Heq. reflexivity.
  - destruct Ht as (m & e & Ht). rewrite Ht.
    replace (Zpos p <=? 262144) with true by (symmetry; apply Z.leb_le; lia).
    reflexivity.
  - destruct Ht as (m & e & Ht). rewrite Ht.
    replace (Zpos p <=? 262144) with false by (symmetry; apply Z.leb_gt; lia).
    reflexivity.
Qed.

(** X14. What the earlier variant rejects: of the readings the sensor can
    deliver it reports as failed exactly those with the humidity field 0 or
    with a temperature of 0 degrees or below (a raw field of at most 262144),
    and these are the responses for which it publishes the text failed. *)
Theorem simple_rejects_exactly (buf : I2cBuf) :
  Simple.is_failed (Simple.aht20_result SUCCESS buf) =
    (raw_h buf =? 0) || (raw_t buf <=? 262144) /\
  (Simple.format_payload (Simple.aht20_result SUCCESS buf) = "failed"%string <->
   raw_h buf = 0 \/ raw_t buf <= 262144).
Proof.
  assert (Hf : Simple.is_failed (Simple.aht20_result SUCCESS buf) =
               (raw_h buf =? 0) || (raw_t buf <=? 262144)).
  { unfold Simple.aht20_result. rewrite Z.eqb_refl. cbv zeta.
    unfold Simple.is_failed. cbn [temp hum].
    rewrite (hum_le_zero _ (raw_h_range buf)), (temp_le_zero _ (raw_t_range buf)).
    reflexivity. }
  split; [exact Hf|].
  unfold Simple.format_payload. rewrite Hf.
  destruct (Z.eqb_spec (raw_h buf) 0) as [Hh|Hh];
    destruct (Z.leb_spec (raw_t buf) 262144) as [Ht|Ht]; cbn [orb].
  - split; [intros _; left; exact Hh|reflexivity].
  - split; [intros _; left; exact Hh|reflexivity].
  - split; [intros _; right; exact Ht|reflexivity].
  - split; [intros H; exfalso; exact (render_not_failed _ H)|lia].
Qed.

(** ** The earlier variant: callback, boot and loop *)

Lemma simple_deliver_connected (cbs : list Z) (f : Simple.Flags) :
  Simple.connected (Simple.deliver_callbacks cbs f) =
  Simple.connected f || existsb (fun st => st =? MQTT_CONNECT_ACCEPTED) cbs.
Proof.
  unfold Simple.deliver_callbacks. revert f.
  induction cbs as [|st cbs IH]; intros f; cbn [fold_left existsb].
  - rewrite orb_false_r. reflexivity.
  - rewrite IH. unfold Simple.mqtt_connection_cb.
    destruct (st =? MQTT_CONNECT_ACCEPTED); cbn [Simple.connected orb].
    + rewrite orb_true_r. reflexivity.
    + reflexivity.
Qed.

Lemma simple_deliver_failed (cbs : list Z) (f : Simple.Flags) :
  Simple.failed (Simple.deliver_callbacks cbs f) =
  Simple.failed f || existsb (fun st => negb (st =? MQTT_CONNECT_ACCEPTED)) cbs.
Proof.
  unfold Simple.deliver_callbacks. revert f.
  induction cbs as [|st cbs IH]; intros f; cbn [fold_left existsb].
  - rewrite orb_false_r. reflexivity.
  - rewrite IH. unfold Simple.mqtt_connection_cb.
    destruct (st =? MQTT_CONNECT_ACCEPTED); cbn [Simple.failed orb negb].
    + reflexivity.
    + rewrite orb_true_r. reflexivity.
Qed.

Lemma flag_after_cons (st : Z) (cbs : list Z) (flag : bool) :
  flag_after (st :: cbs) flag = flag_after cbs (st =? MQTT_CONNECT_ACCEPTED).
Proof. reflexivity. Qed.

Lemma flag_after_accepted (cbs : list Z) (flag : bool) :
  flag_after cbs flag = true ->
  flag || existsb (fun st => st =? MQTT_CONNECT_ACCEPTED) cbs = true.
Proof.
  revert flag. induction cbs as [|st cbs IH]; intros flag.
  - cbn. intros H. rewrite H. reflexivity.
  - rewrite flag_after_cons. intros H. apply IH in H. cbn [existsb].
    destruct flag; [reflexivity|]. exact H.
Qed.

(** X15. In the earlier variant the two flags of the connection callback
    latch: [mqtt_connected] is set by the first accepted status and no later
    status clears it, [mqtt_failed] is set by the first other status.  So
    whenever the flag of the later variant, which follows the last status, is
    set, the flag of the earlier variant is set as well. *)
Theorem callback_flags_latch (cbs : list Z) (f : Simple.Flags) :
  Simple.connected (Simple.deliver_callbacks cbs f) =
    Simple.connected f || existsb (fun st => st =? MQTT_CONNECT_ACCEPTED) cbs /\
  Simple.failed (Simple.deliver_callbacks cbs f) =
    Simple.failed f || existsb (fun st => negb (st =? MQTT_CONNECT_ACCEPTED)) cbs /\
  (forall more,
      Simple.connected (Simple.deliver_callbacks cbs f) = true ->
      Simple.connected (Simple.deliver_callbacks (cbs ++ more) f) = true) /\
  (flag_after cbs (Simple.connected f) = true ->
   Simple.connected (Simple.deliver_callbacks cbs f) = true).
Proof.
  split; [apply simple_deliver_connected|].
  split; [apply simple_deliver_failed|]. split.
  - intros more. rewrite !simple_deliver_connected, existsb_app.
    intros H. rewrite orb_assoc, H. reflexivity.
  - intros H. rewrite simple_deliver_connected. apply flag_after_accepted, H.
Qed.

Lemma callback_flags_latch_witness :
  Simple.connected (Simple.deliver_callbacks ([0] ++ [5; 256]) Simple.reset_flags)
  = true.
Proof.
  destruct (callback_flags_latch [0] Simple.reset_flags) as (_ & _ & H & _).
  apply (H [5; 256]). reflexivity.
Defined.

Lemma simple_wait_cons (cbs : list Z) (rest : list (list Z)) (f : Simple.Flags)
      (m : Machine) :
  Simple.wait_connected (cbs :: rest) f m =
  let f' := Simple.deliver_callbacks cbs f in
  if Simple.connected f' then (true, f', m, [])
  else prepend [SleepMs 10]
         (Simple.wait_connected rest f' (with_clock (clock m + 10 * 1000) m)).
Proof.
  cbn [Simple.wait_connected]. cbv zeta.
  destruct (Simple.connected _); [reflexivity|].
  rewrite bind_spec, sleep_ms_spec. reflexivity.
Qed.

Lemma simple_wait_result (polls : list (list Z)) (f : Simple.Flags) (m : Machine) :
  Simple.connected f = false ->
  fst (result_of (Simple.wait_connected polls f m)) =
    existsb (fun st => st =? MQTT_CONNECT_ACCEPTED) (List.concat polls) /\
  (fst (result_of (Simple.wait_connected polls f m)) = true ->
   Simple.connected (snd (result_of (Simple.wait_connected polls f m))) = true) /\
  forallb (fun ev => match ev with SleepMs 10 => true | _ => false end)
          (trace_of (Simple.wait_connected polls f m)) = true.
Proof.
  revert f m. induction polls as [|cbs rest IH]; intros f m Hf.
  - cbn. split; [reflexivity|]. split; [discriminate|reflexivity].
  - rewrite simple_wait_cons. cbv zeta. cbn [List.concat].
    rewrite existsb_app.
    pose proof (simple_deliver_connected cbs f) as Hc. rewrite Hf in Hc.
    cbn [orb] in Hc.
    destruct (Simple.connected (Simple.deliver_callbacks cbs f)) eqn:Hd.
    + cbn [result_of trace_of fst snd forallb]. rewrite <- Hc.
      split; [reflexivity|]. split; [intros _; exact Hd|reflexivity].
    + rewrite result_prepend, trace_prepend. rewrite <- Hc. cbn [orb app forallb].
      apply IH. exact Hd.
Qed.

(** X16. The boot of the earlier variant asks the driver to join the network
    once and gives up when that fails: [main] returns -1 after a failure of
    the radio driver, the single connect call, the client allocation or the
    connect request.  Otherwise it waits, polling every 10 ms, until an
    accepted status has arrived, and enters its loop with [mqtt_connected]
    set; a refusal by the broker leaves it waiting.  It never touches the
    watchdog. *)
Theorem simple_boot_outcome (b : Simple.BootEnv) (m : Machine) :
  let r := Simple.main_boot b Simple.reset_flags m in
  fst (result_of r) =
    (if negb (Simple.s_arch_init_r b =? 0) then Exit (-1)
     else if negb (Simple.s_wifi_r b =? 0) then Exit (-1)
     else if negb (Simple.s_client_new_ok b) then Exit (-1)
     else if negb (Simple.s_mqtt_err b =? ERR_OK) then Exit (-1)
     else if existsb (fun st => st =? MQTT_CONNECT_ACCEPTED)
                     (List.concat (Simple.s_wait_cb b))
          then Enter else Stuck) /\
  (fst (result_of r) = Enter -> Simple.connected (snd (result_of r)) = true) /\
  filter is_wifi_connect (trace_of r) =
    (if Simple.s_arch_init_r b =? 0 then [WifiConnect] else []) /\
  filter is_watchdog (trace_of r) = [].
Proof.
  cbv zeta. unfold Simple.main_boot.
  rewrite bind_spec, sleep_ms_spec, result_prepend, trace_prepend.
  cbn [result_of machine_of trace_of fst snd].
  destruct (Simple.s_arch_init_r b =? 0); cbn [negb];
    [|cbn; repeat split; discriminate].
  rewrite !bind_spec. cbn [emit elapse result_of machine_of trace_of fst snd].
  rewrite !result_prepend, !trace_prepend.
  destruct (Simple.s_wifi_r b =? 0); cbn [negb];
    [|cbn; repeat split; discriminate].
  rewrite !bind_spec. cbn [emit elapse result_of machine_of trace_of fst snd].
  rewrite !result_prepend, !trace_prepend.
  destruct (Simple.s_client_new_ok b); cbn [negb];
    [|cbn; repeat split; discriminate].
  rewrite !bind_spec. cbn [emit elapse result_of machine_of trace_of fst snd].
  rewrite !result_prepend, !trace_prepend.
  destruct (Simple.s_mqtt_err b =? ERR_OK); cbn [negb];
    [|cbn; repeat split; discriminate].
  rewrite !bind_spec, !result_prepend, !trace_prepend.
  match goal with
  | |- context [Simple.wait_connected ?p ?f ?m0] =>
      destruct (simple_wait_result p f m0 eq_refl) as (Hres & Hflag & Htr);
      destruct (Simple.wait_connected p f m0) as [[[ok fl] mw] tw] eqn:Hw
  end.
  cbn [result_of machine_of trace_of fst snd] in *.
  rewrite <- Hres.
  assert (Hq : forall g : event -> bool, g (SleepMs 10) = false -> filter g tw = []).
  { intros g Hg. clear - Htr Hg. induction tw as [|ev tw IH]; [reflexivity|].
    cbn [forallb] in Htr. apply andb_true_iff in Htr. destruct Htr as [H1 H2].
    destruct ev; try discriminate H1.
    destruct ms; try discriminate H1.
    repeat (destruct p; try discriminate H1).
    cbn [filter]. rewrite Hg. apply IH, H2. }
  destruct ok; cbn [result_of trace_of fst snd app filter is_wifi_connect is_watchdog];
    rewrite ?filter_app, !Hq by reflexivity; cbn [app filter];
    (split; [reflexivity|]); (split; [auto; discriminate|]); split; reflexivity.
Qed.

Lemma simple_boot_outcome_witness :
  Simple.connected
    (snd (result_of (Simple.main_boot (Simple.mk_boot 0 0 4000000 true 0 [[]; [0]])
                                      Simple.reset_flags (reset_machine 0)))) = true.
Proof.
  apply (simple_boot_outcome (Simple.mk_boot 0 0 4000000 true 0 [[]; [0]])
           (reset_machine 0)).
  reflexivity.
Defined.

Lemma simple_loop_body_spec (e : CycleEnv) (m : Machine) :
  Simple.loop_body e m =
  (Continue,
   with_clock (clock m + i2c_w_us e + 80 * 1000 + i2c_r_us e + 1000 * 1000) m,
   [I2cWrite; SleepMs 80; I2cRead;
    MqttPublish (Simple.format_payload (Simple.aht20_result (i2c_r e) (i2c_buf e)));
    SleepMs 1000]).
Proof. destruct m; reflexivity. Qed.

(** X17. The loop of the earlier variant does the same in every iteration,
    whatever the state of the network: it reads the sensor, publishes one
    message and sleeps, so a run publishes one message per iteration, in
    order, and takes the time of the bus calls plus 1080 ms for each.  It
    never calls the connect function again and never touches the watchdog. *)
Theorem simple_loop_run (es : list CycleEnv) (m : Machine) :
  let r := Simple.main_loop es m in
  result_of r = Continue /\
  publishes (trace_of r) =
    map (fun e => Simple.format_payload (Simple.aht20_result (i2c_r e) (i2c_buf e)))
        es /\
  clock (machine_of r) =
    clock m + fold_right (fun e s => i2c_w_us e + 80 * 1000 + i2c_r_us e +
                                     1000 * 1000 + s) 0 es /\
  filter (fun ev => is_watchdog ev || is_wifi_connect ev) (trace_of r) = [].
Proof.
  cbv zeta. revert m. induction es as [|e es IH]; intros m.
  - cbn. repeat split; try reflexivity. lia.
  - cbn [Simple.main_loop]. rewrite bind_spec, simple_loop_body_spec.
    cbn [result_of machine_of trace_of fst snd].
    rewrite result_prepend, trace_prepend, machine_prepend.
    destruct (IH (with_clock (clock m + i2c_w_us e + 80 * 1000 + i2c_r_us e +
                              1000 * 1000) m)) as (I1 & I2 & I3 & I4).
    split; [exact I1|]. split; [|split].
    + cbn [app publishes map]. rewrite I2. reflexivity.
    + rewrite I3. cbn [fold_right]. destruct m; cbn [with_clock clock]. lia.
    + cbn [app filter is_watchdog is_wifi_connect orb]. exact I4.
Qed.

(** * The reader, the formatter and the two variants *)

(** ** Decimal digits *)

Lemma digit_char_code (d : Z) :
  0 <= d < 10 -> nat_of_ascii (digit_char d) = (48 + Z.to_nat d)%nat.
Proof. intros H. unfold digit_char. apply nat_ascii_embedding. lia. Qed.

Lemma digit_char_is_digit (d : Z) : 0 <= d < 10 -> is_digit (digit_char d) = true.
Proof.
  intros H. unfold is_digit. rewrite (digit_char_code d H).
  apply andb_true_iff. split; apply Nat.leb_le; lia.
Qed.

Lemma dec_digits_all_digits (fuel : nat) (n : Z) (acc : string) :
  all_digits acc = true -> all_digits (dec_digits fuel n acc) = true.
Proof.
  revert n acc. induction fuel as [|fuel IH]; intros n acc Hacc; [exact Hacc|].
  cbn [dec_digits].
  assert (Hd : all_digits (String (digit_char (n mod 10)) acc) = true).
  { cbn [all_digits]. rewrite Hacc, digit_char_is_digit; [reflexivity|].
    apply Z.mod_pos_bound. lia. }
  destruct (n <? 10); [exact Hd|apply IH, Hd].
Qed.

Lemma dec_fuel (n : Z) : 0 <= n -> n < 10 ^ Z.of_nat (S (Z.to_nat (Z.log2 n))).
Proof.
  intros Hn. destruct (Z.eq_dec n 0) as [->|Hn0]; [reflexivity|].
  pose proof (Z.log2_nonneg n).
  rewrite Nat2Z.inj_succ, Z2Nat.id by lia.
  apply Z.lt_le_trans with (2 ^ Z.succ (Z.log2 n)).
  - apply Z.log2_spec. lia.
  - apply Z.pow_le_mono_l. lia.
Qed.

Lemma dec_digits_head (fuel : nat) (n : Z) (acc : string) :
  0 < n < 10 ^ Z.of_nat fuel ->
  exists c s, dec_digits fuel n acc = String c s /\ c <> "0"%char.
Proof.
  revert n acc. induction fuel as [|fuel IH]; intros n acc Hn.
  - cbn in Hn. lia.
  - cbn [dec_digits]. destruct (Z.ltb_spec n 10) as [Hlt|Hge].
    + exists (digit_char (n mod 10)), acc. split; [reflexivity|].
      rewrite Z.mod_small by lia. intros Hc.
      apply (f_equal nat_of_ascii) in Hc.
      rewrite digit_char_code in Hc by lia. cbn in Hc. lia.
    + apply IH. rewrite Nat2Z.inj_succ, Z.pow_succ_r in Hn by lia.
      split; [apply Z.div_str_pos; lia|apply Z.div_lt_upper_bound; lia].
Qed.

(** [dec n] is the decimal numeral of [n]: digits only, without a leading
    zero, denoting [n]. *)
Lemma dec_numeral (n : Z) :
  0 <= n ->
  all_digits (dec n) = true /\ dec_value (dec n) = n /\
  (0 < n -> exists c s, dec n = String c s /\ c <> "0"%char).
Proof.
  intros Hn. split; [|split].
  - apply dec_digits_all_digits. reflexivity.
  - apply dec_value_dec, Hn.
  - intros Hp. apply dec_digits_head. split; [exact Hp|apply dec_fuel, Hn].
Qed.

(** On a tie [tenths] takes the even neighbour. *)
Lemma tenths_tie (m : positive) (e : Z) :
  e < 0 -> 2 * ((Zpos m * 10) mod 2 ^ (- e)) = 2 ^ (- e) ->
  Z.even (tenths m e) = true.
Proof.
  intros He Htie. unfold tenths.
  replace (0 <=? e) with false by (symmetry; apply Z.leb_gt; lia).
  cbv zeta. rewrite Htie, Z.ltb_irrefl.
  destruct (Z.even (Zpos m * 10 / 2 ^ (- e))) eqn:Hev; [exact Hev|].
  rewrite Z.add_1_r, Z.even_succ, <- Z.negb_even, Hev. reflexivity.
Qed.

Lemma fmt_f1_moderate (x : f32) :
  moderate x -> (String.length (fmt_f1 x) <= 15)%nat.
Proof.
  destruct x as [s|s| |s m e]; cbn [moderate]; try contradiction.
  - intros _. destruct s; cbn; lia.
  - intros [Hc He]. apply fmt_f1_length; assumption.
Qed.

Lemma format_payload_moderate (r : AHT22Result) :
  moderate (temp r) -> moderate (hum r) -> is_failed r = false ->
  format_payload r = render r /\ (String.length (render r) <= 44)%nat.
Proof.
  intros Ht Hh Hf. destruct r as [t h]. cbn [temp hum] in *.
  pose proof (render_length t h (fmt_f1_moderate t Ht) (fmt_f1_moderate h Hh)) as Hl.
  split; [|exact Hl].
  unfold format_payload. rewrite Hf. unfold snprintf.
  apply substring_all. unfold PAYLOAD_SIZE. lia.
Qed.

Lemma sensor_reading_moderate (buf : I2cBuf) :
  moderate (temp (aht20_result SUCCESS buf)) /\
  moderate (hum (aht20_result SUCCESS buf)).
Proof.
  unfold aht20_result. rewrite Z.eqb_refl. cbv zeta. cbn [temp hum]. split.
  - destruct (temp_of_raw_range (raw_t buf) (raw_t_range buf))
      as [->|[(m & e & -> & Hc & He & _)|(m & e & -> & Hc & He & _)]];
      cbn [moderate]; auto.
  - destruct (hum_of_raw_range (raw_h buf) (raw_h_range buf))
      as [->|(m & e & -> & Hc & He & _)]; cbn [moderate]; auto.
Qed.

(** ** Telemetry Formatter *)

(** C8: a reading is formatted as the literal [failed] when it is classified
    as failed, which of the readings the sensor reader returns is the failure
    sentinel and nothing else; every other reading with fields of magnitude
    below 256, and so every measurement, is formatted as the complete text
    [Temp=<t>°C Hum=<h>%] of at most 44 bytes.  A field is written as a
    minus sign if it is negative, the decimal numeral (digits only, no
    leading zero) of the whole part, a point and one digit, and these digits
    are the multiple of a tenth nearest to the magnitude, the even one on a
    tie; zero is [0.0].  Whatever the reading, [snprintf] leaves a text
    shorter than the 64 bytes of the payload buffer, so that the terminating
    NUL fits as well. *)
Theorem payload_formatting :
  (forall r,
      format_payload r =
      if is_failed r then "failed"%string else snprintf PAYLOAD_SIZE (render r)) /\
  format_payload FAILRESULT = "failed"%string /\
  (forall rc buf,
      let r := aht20_result rc buf in
      (r = FAILRESULT -> format_payload r = "failed"%string) /\
      (r <> FAILRESULT -> format_payload r = render r)) /\
  (forall r,
      moderate (temp r) -> moderate (hum r) -> is_failed r = false ->
      format_payload r = render r /\ (String.length (render r) <= 44)%nat) /\
  (forall buf,
      moderate (temp (aht20_result SUCCESS buf)) /\
      moderate (hum (aht20_result SUCCESS buf))) /\
  (forall r,
      render r = ("Temp=" ++ fmt_f1 (temp r) ++ "°C Hum=" ++
                  fmt_f1 (hum r) ++ "%")%string) /\
  fmt_f1 (S754_zero false) = "0.0"%string /\
  fmt_f1 (S754_zero true) = "-0.0"%string /\
  (forall m e,
      fmt_f1 (S754_finite false m e) =
      (dec (tenths m e / 10) ++ "." ++ dec (tenths m e mod 10))%string /\
      fmt_f1 (S754_finite true m e) =
      ("-" ++ dec (tenths m e / 10) ++ "." ++ dec (tenths m e mod 10))%string) /\
  dec 0 = "0"%string /\
  (forall n,
      0 <= n ->
      all_digits (dec n) = true /\ dec_value (dec n) = n /\
      (0 < n -> exists c s, dec n = String c s /\ c <> "0"%char)) /\
  (forall m e,
      (0 <= e -> tenths m e = Zpos m * 2 ^ e * 10) /\
      (e < 0 -> 2 * Z.abs (Zpos m * 10 - tenths m e * 2 ^ (- e)) <= 2 ^ (- e)) /\
      (e < 0 -> 2 * ((Zpos m * 10) mod 2 ^ (- e)) = 2 ^ (- e) ->
       Z.even (tenths m e) = true)) /\
  (forall r, (String.length (format_payload r) < PAYLOAD_SIZE)%nat) /\
  format_payload (aht20_result SUCCESS sample_buf) = "Temp=20.2°C Hum=47.8%"%string /\
  format_payload (aht20_result SUCCESS cold_buf) = "Temp=-50.0°C Hum=50.0%"%string /\
  format_payload (aht20_result SUCCESS freezing_buf) = "Temp=0.0°C Hum=50.0%"%string.
Proof.
  split.
  { intros r. unfold format_payload. destruct (is_failed r); reflexivity. }
  split; [reflexivity|]. split.
  { intros rc buf. cbv zeta. split.
    - intros ->. reflexivity.
    - intros Hne. destruct (Z.eqb_spec rc SUCCESS) as [->|Hrc].
      + apply sensor_reading_renders.
      + exfalso. apply Hne. apply aht20_result_failure, Hrc. }
  split; [exact format_payload_moderate|].
  split; [exact sensor_reading_moderate|].
  split; [reflexivity|]. split; [reflexivity|]. split; [reflexivity|].
  split; [intros m e; split; reflexivity|].
  split; [reflexivity|]. split; [exact dec_numeral|]. split.
  { intros m e. destruct (tenths_nearest m e) as [H1 H2].
    split; [exact H1|]. split; [exact H2|]. apply tenths_tie. }
  split; [exact format_payload_length|].
  split; [vm_compute; reflexivity|]. split; vm_compute; reflexivity.
Qed.

Lemma payload_formatting_witness :
  format_payload (aht20_result (-2) sample_buf) = "failed"%string /\
  format_payload (aht20_result SUCCESS sample_buf) =
    render (aht20_result SUCCESS sample_buf) /\
  format_payload (new_aht22result f_m50 f_0) = render (new_aht22result f_m50 f_0) /\
  dec_value (dec 472) = 472.
Proof.
  destruct payload_formatting as (_ & _ & H & Hm & _ & _ & _ & _ & _ & _ & Hd & _).
  split; [|split; [|split]].
  - apply (H (-2) sample_buf). reflexivity.
  - apply (H SUCCESS sample_buf). vm_compute. discriminate.
  - apply (Hm (new_aht22result f_m50 f_0)).
    + cbn [temp moderate f_m50]. repeat split; try discriminate; lia.
    + exact I.
    + reflexivity.
  - apply (Hd 472). lia.
Defined.

(** ** Sensor Reader *)

Lemma loop_body_ignores_write (w : Z) (e : CycleEnv) (m : Machine) :
  loop_body (with_i2c_w_r w e) m = loop_body e m.
Proof.
  rewrite !loop_body_spec. cbv zeta. rewrite !escalate_and_publish_spec.
  reflexivity.
Qed.

Lemma sensor_reading_not_sentinel (buf : I2cBuf) :
  aht20_result SUCCESS buf <> FAILRESULT.
Proof.
  intros H. destruct (sensor_reading_renders buf) as [Hf _].
  rewrite H in Hf. discriminate Hf.
Qed.

(** C7, what holds and what does not.  When the read of the response does
    not deliver its six bytes (whatever error code or short count the bus
    call returns), the reader returns the failure sentinel, and an iteration
    in which this happens has fed the watchdog at its start, publishes the
    literal [failed], sleeps 1000 ms and goes on to the next iteration.  But
    the result of the command write is dropped: it has no influence on the
    reading or on the iteration, so that when the write fails and the read
    that follows delivers six bytes, the reader returns no sentinel and the
    iteration publishes those bytes as a measurement. *)
Theorem sensor_failure_cycle :
  (forall r buf, r <> SUCCESS -> aht20_result r buf = FAILRESULT) /\
  (forall e m, i2c_r e <> SUCCESS -> result_of (read_aht20 e m) = FAILRESULT) /\
  (forall e m,
      i2c_r e <> SUCCESS ->
      In I2cRead (trace_of (loop_body e m)) ->
      (exists pre,
          trace_of (loop_body e m) =
          WatchdogUpdate (clock m) :: pre ++
            [LwipBegin; MqttPublish "failed"; LwipEnd; SleepMs 1000]) /\
      result_of (loop_body e m) = Continue) /\
  (forall w e m,
      read_aht20 (with_i2c_w_r w e) m = read_aht20 e m /\
      loop_body (with_i2c_w_r w e) m = loop_body e m) /\
  (forall e m,
      i2c_r e = SUCCESS ->
      In I2cRead (trace_of (loop_body e m)) ->
      result_of (read_aht20 e m) <> FAILRESULT /\
      publishes (trace_of (loop_body e m)) =
        [render (aht20_result SUCCESS (i2c_buf e))] /\
      render (aht20_result SUCCESS (i2c_buf e)) <> "failed"%string).
Proof.
  split; [|split; [|split; [|split]]].
  - apply aht20_result_failure.
  - intros e m H. destruct m. cbn. apply aht20_result_failure, H.
  - intros e m H.
    loop_cases e m;
      rewrite ?(aht20_result_failure _ _ H), ?format_payload_FAILRESULT;
      cbn [In]; intros Hin;
      repeat match goal with
             | H : _ \/ _ |- _ => destruct H
             | H : False |- _ => destruct H
             | H : _ = I2cRead |- _ => discriminate H
             end;
      (split; [|reflexivity]).
    + exists [LastOkStore (clock m); I2cWrite; SleepMs 80; I2cRead]. reflexivity.
    + exists [WifiConnect; LwipBegin; MqttClientConnect; LwipEnd; Led true;
              I2cWrite; SleepMs 80; I2cRead].
      reflexivity.
  - intros w e m. split; [destruct m; reflexivity|apply loop_body_ignores_write].
  - intros e m Hr Hin.
    assert (Hrender : format_payload (aht20_result (i2c_r e) (i2c_buf e)) =
                      render (aht20_result SUCCESS (i2c_buf e))).
    { rewrite Hr. apply sensor_reading_renders. }
    split; [|split].
    + destruct m. cbn. rewrite Hr. apply sensor_reading_not_sentinel.
    + rewrite <- Hrender. revert Hin.
      loop_cases e m; cbn [In]; intros Hin;
        repeat match goal with
               | H : _ \/ _ |- _ => destruct H
               | H : False |- _ => destruct H
               | H : _ = I2cRead |- _ => discriminate H
               end; reflexivity.
    + intros H.
      apply (render_not_failed (aht20_result SUCCESS (i2c_buf e))).
      destruct (format_payload_moderate (aht20_result SUCCESS (i2c_buf e)))
        as [Hfp _];
        [apply sensor_reading_moderate|apply sensor_reading_moderate
        |apply sensor_reading_renders|].
      unfold format_payload in Hfp.
      destruct (sensor_reading_renders (i2c_buf e)) as [Hnf _].
      rewrite Hnf in Hfp. rewrite Hfp. exact H.
Qed.

Lemma sensor_failure_cycle_witness :
  aht20_result (-2) sample_buf = FAILRESULT /\
  ((exists pre,
       trace_of (loop_body cycle_sensor_timeout
                           (mk_machine 5000000 5000000 false true 0)) =
       WatchdogUpdate 5000000 :: pre ++
         [LwipBegin; MqttPublish "failed"; LwipEnd; SleepMs 1000]) /\
   result_of (loop_body cycle_sensor_timeout
                        (mk_machine 5000000 5000000 false true 0)) = Continue) /\
  (i2c_w_r cycle_write_timeout = -2 /\
   result_of (read_aht20 cycle_write_timeout
                         (mk_machine 5000000 5000000 false true 0)) <> FAILRESULT /\
   publishes (trace_of (loop_body cycle_write_timeout
                                  (mk_machine 5000000 5000000 false true 0))) =
     ["Temp=20.2°C Hum=47.8%"%string]).
Proof.
  destruct sensor_failure_cycle as (H1 & _ & H3 & _ & H5).
  split; [|split].
  - apply H1. discriminate.
  - apply (H3 cycle_sensor_timeout (mk_machine 5000000 5000000 false true 0)).
    + discriminate.
    + vm_compute. tauto.
  - split; [reflexivity|].
    destruct (H5 cycle_write_timeout (mk_machine 5000000 5000000 false true 0))
      as (Ha & Hb & _).
    + reflexivity.
    + vm_compute. tauto.
    + split; [exact Ha|]. rewrite Hb. vm_compute. reflexivity.
Defined.

(** ** The two variants *)




